(** * XLM-RoBERTa model adapter: a shallow embedding of
      [vllm/model_executor/models/xlm_roberta.py] and its verified properties.

    Conventions of the embedding.
    - A torch tensor is a shape together with its entries in row-major order.
    - Python exceptions are values of [exn]; code that can raise lives in the
      error monad [result].
    - The mask built by [get_extended_attention_mask] is half precision in the
      source ([dtype = torch.float16]); its entries are IEEE binary16 numbers,
      given by [spec_float] at precision 11 and maximal exponent 16.
    - Hidden states and weights are produced by the external encoder, whose
      compute dtype the source does not fix; their arithmetic is the exact
      arithmetic of the reals.
    - The three sub-modules taken from [transformers] (embeddings, encoder,
      pooler) are external: they are fields of the model holding arbitrary,
      possibly failing, functions. *)

From Stdlib Require Import ZArith List String Reals Lra Lia.
From Stdlib Require Import Floats.SpecFloat.
From stdpp Require Import base gmap strings list.

Local Open Scope string_scope.
Local Open Scope list_scope.
Local Open Scope nat_scope.

(* ===================================================================== *)
(** * Exceptions and the error monad                                       *)
(* ===================================================================== *)

(** The Python exceptions that the adapter, torch indexing and the external
    modules raise.  [ValueError] carries the shapes interpolated in its
    message. *)
Inductive exn : Type :=
| NotImplementedError (msg : string)
| KeyError (key : string)
| ValueError (msg : string) (shapes : list (list nat))
| TypeError (msg : string)
| IndexError (msg : string)
| AttributeError (msg : string)
| RuntimeError (msg : string)
| AssertionError.

Inductive result (A : Type) : Type :=
| Ok (a : A)
| Err (e : exn).
Arguments Ok {A} a.
Arguments Err {A} e.

Class Monad (M : Type -> Type) : Type := {
  ret : forall {A}, A -> M A;
  bind : forall {A B}, M A -> (A -> M B) -> M B
}.

Notation "'let*' x ':=' c 'in' k" := (bind c (fun x => k))
  (at level 10, x name, c at level 100, k at level 200).
Notation "'let*' ' p ':=' c 'in' k" := (bind c (fun x => match x with p => k end))
  (at level 10, p pattern, c at level 100, k at level 200).

Definition result_bind {A B} (c : result A) (k : A -> result B) : result B :=
  match c with
  | Ok a => k a
  | Err e => Err e
  end.

#[export] Instance result_monad : Monad result :=
  {| ret := @Ok; bind := @result_bind |}.

Definition is_ok {A} (r : result A) : bool :=
  match r with Ok _ => true | Err _ => false end.

Definition is_ValueError (e : exn) : bool :=
  match e with ValueError _ _ => true | _ => false end.

Definition is_NotImplementedError (e : exn) : bool :=
  match e with NotImplementedError _ => true | _ => false end.

Definition is_TypeError (e : exn) : bool :=
  match e with TypeError _ => true | _ => false end.

(* ===================================================================== *)
(** * Tensors                                                              *)
(* ===================================================================== *)

Module Torch.

Record Tensor (A : Type) : Type := mkTensor {
  shape : list nat;
  data : list A
}.
Arguments mkTensor {A} shape data.
Arguments shape {A} t.
Arguments data {A} t.

(** Number of entries of a tensor of shape [s]. *)
Definition numel (s : list nat) : nat := foldr Nat.mul 1 s.

(** [t.dim()] *)
Definition dim {A} (t : Tensor A) : nat := length (shape t).

(** A tensor is well formed when it has as many entries as its shape says. *)
Definition wf {A} (t : Tensor A) : Prop := length (data t) = numel (shape t).

(** Row-major offset of a multi-index; [None] when the index has the wrong
    length or is out of range. *)
Fixpoint ravel (s idx : list nat) : option nat :=
  match s, idx with
  | [], [] => Some 0
  | d :: s', i :: idx' =>
      if i <? d
      then match ravel s' idx' with
           | Some o => Some (i * numel s' + o)
           | None => None
           end
      else None
  | _, _ => None
  end.

(** [t[i0, i1, ...]] for a full multi-index. *)
Definition item {A} (t : Tensor A) (idx : list nat) : option A :=
  match ravel (shape t) idx with
  | Some o => data t !! o
  | None => None
  end.

(** Entrywise operations keep the shape. *)
Definition tensor_map {A B} (f : A -> B) (t : Tensor A) : Tensor B :=
  mkTensor (shape t) (map f (data t)).

(** [t != c] for an integer tensor and an integer scalar: a boolean tensor. *)
Definition ne (t : Tensor Z) (c : Z) : Tensor bool :=
  tensor_map (fun x => negb (Z.eqb x c)) t.

(** [t.int()] on a boolean tensor. *)
Definition int (t : Tensor bool) : Tensor Z :=
  tensor_map (fun b : bool => if b then 1%Z else 0%Z) t.

(** [torch.ones(shape)] and [torch.zeros(shape)] *)
Definition ones (s : list nat) : Tensor Z := mkTensor s (replicate (numel s) 1%Z).
Definition zeros (s : list nat) : Tensor Z := mkTensor s (replicate (numel s) 0%Z).

(** [t.shape[0]]: indexing the shape tuple of a 0-dimensional tensor raises. *)
Definition shape0 {A} (t : Tensor A) : result nat :=
  match shape t with
  | d :: _ => Ok d
  | [] => Err (IndexError "tuple index out of range")
  end.

(** [t[start:stop, :]]: two indices need at least two dimensions; a slice is
    clamped to the extent of the dimension and is empty when [stop <= start]. *)
Definition getitem_rows {A} (t : Tensor A) (start stop : nat) : result (Tensor A) :=
  match shape t with
  | d0 :: d1 :: rest =>
      let lo := Nat.min start d0 in
      let hi := Nat.max lo (Nat.min stop d0) in
      let stride := numel (d1 :: rest) in
      Ok (mkTensor ((hi - lo) :: d1 :: rest)
                   (take ((hi - lo) * stride) (drop (lo * stride) (data t))))
  | _ => Err (IndexError "too many indices for tensor")
  end.

(** Split a list into consecutive blocks of [w] entries. *)
Fixpoint blocks_fuel {A} (fuel w : nat) (l : list A) : list (list A) :=
  match fuel with
  | 0 => []
  | S fuel' =>
      match l with
      | [] => []
      | _ :: _ => take w l :: blocks_fuel fuel' w (drop w l)
      end
  end.

Definition blocks {A} (w : nat) (l : list A) : list (list A) :=
  blocks_fuel (length l) w l.

(** [t[:, :stop]] *)
Definition getitem_cols {A} (t : Tensor A) (stop : nat) : result (Tensor A) :=
  match shape t with
  | d0 :: d1 :: rest =>
      let hi := Nat.min stop d1 in
      let inner := numel rest in
      Ok (mkTensor (d0 :: hi :: rest)
                   (concat (map (take (hi * inner)) (blocks (d1 * inner) (data t)))))
  | _ => Err (IndexError "too many indices for tensor")
  end.

(** [t[:, i]]: selects index [i] of the second dimension and drops it. *)
Definition select_dim1 {A} (t : Tensor A) (i : nat) : result (Tensor A) :=
  match shape t with
  | d0 :: d1 :: rest =>
      if i <? d1
      then let inner := numel rest in
           Ok (mkTensor (d0 :: rest)
                        (concat (map (fun blk => take inner (drop (i * inner) blk))
                                     (blocks (d1 * inner) (data t)))))
      else Err (IndexError "index is out of bounds for dimension 1")
  | _ => Err (IndexError "too many indices for tensor")
  end.

(** [t.expand(b, l)] for a two-dimensional [t]: a dimension is kept when it
    already has the requested size and is repeated when it has size 1. *)
Definition expand2 {A} (t : Tensor A) (b l : nat) : result (Tensor A) :=
  match shape t with
  | [d0; d1] =>
      if ((d0 =? b) || (d0 =? 1)) && ((d1 =? l) || (d1 =? 1))
      then
        let rows := blocks d1 (data t) in
        let rows := if d1 =? l then rows
                    else map (fun r => mjoin (map (replicate l) r)) rows in
        let rows := if d0 =? b then rows else mjoin (replicate b rows) in
        Ok (mkTensor [b; l] (concat rows))
      else Err (RuntimeError "The expanded size of the tensor must match the existing size")
  | _ => Err (RuntimeError "expand: the number of sizes provided must match the tensor")
  end.

(** [t[:, None, :, :]] on a three-dimensional tensor and [t[:, None, None, :]]
    on a two-dimensional one: size-1 dimensions are inserted, the entries and
    their order stay. *)
Definition getitem_none1 {A} (t : Tensor A) : Tensor A :=
  match shape t with
  | d0 :: rest => mkTensor (d0 :: 1 :: rest) (data t)
  | [] => t
  end.

Definition getitem_none2 {A} (t : Tensor A) : Tensor A :=
  match shape t with
  | d0 :: rest => mkTensor (d0 :: 1 :: 1 :: rest) (data t)
  | [] => t
  end.

(** [torch.cat(tensors, dim=0)] on tensors: an empty list is refused, a
    0-dimensional tensor cannot be concatenated, the legacy empty tensor of
    shape [(0,)] is skipped, and all others must agree on every dimension but
    the first. *)
Definition legacy_empty {A} (t : Tensor A) : bool :=
  bool_decide (shape t = [0]).

Definition same_trailing {A} (tl : list nat) (t : Tensor A) : bool :=
  match shape t with
  | _ :: tl' => bool_decide (tl' = tl)
  | [] => false
  end.

Definition cat_tensors {A} (ts : list (Tensor A)) : result (Tensor A) :=
  match ts with
  | [] => Err (RuntimeError "torch.cat(): expected a non-empty list of Tensors")
  | _ :: _ =>
      match List.filter (fun t => negb (legacy_empty t)) ts with
      | [] => Ok (mkTensor [0] [])
      | (t0 :: _) as kept =>
          match shape t0 with
          | [] => Err (RuntimeError "zero-dimensional tensor cannot be concatenated")
          | _ :: tl =>
              if forallb (same_trailing tl) kept
              then Ok (mkTensor (sum_list (map (fun t => hd 0 (shape t)) kept) :: tl)
                                (concat (map data kept)))
              else Err (RuntimeError "Sizes of tensors must match except in dimension 0")
          end
      end
  end.

(** ** Arithmetic of the half-precision mask *)

Definition half_prec : Z := 11.
Definition half_emax : Z := 16.

(** [t.to(dtype=torch.float16)] on an integer entry: rounding to nearest even,
    overflow to infinity. *)
Definition half_of_Z (z : Z) : spec_float :=
  binary_normalize half_prec half_emax z 0 false.

(** [torch.finfo(torch.float16).min], that is -65504. *)
Definition finfo_min_half : spec_float := SFopp (SFmax_float half_prec half_emax).

(** The Python scalar [1.0] against a half-precision tensor. *)
Definition half_one : spec_float := half_of_Z 1.

Definition half_sub : spec_float -> spec_float -> spec_float := SFsub half_prec half_emax.
Definition half_mul : spec_float -> spec_float -> spec_float := SFmul half_prec half_emax.

(** ** Arithmetic of hidden states *)

(** The 2-norm of a vector. *)
Definition l2norm (v : list R) : R :=
  sqrt (foldr Rplus 0%R (map (fun x => (x * x)%R) v)).

(** Default [eps] of [torch.nn.functional.normalize]: 1e-12. *)
Definition normalize_eps : R := (/ 10 ^ 12)%R.

(** One vector of [normalize]: [v / max(||v||, eps)]. *)
Definition normalize_row (v : list R) : list R :=
  let denom := Rmax (l2norm v) normalize_eps in
  map (fun x => (x / denom)%R) v.

(** The vectors along the last dimension, in row-major order. *)
Definition rows {A} (t : Tensor A) : list (list A) :=
  blocks (List.last (shape t) 1) (data t).

(** [torch.nn.functional.normalize(t, dim=-1)] with the default [p = 2] and
    [eps = 1e-12]: every vector along the last dimension is divided by its
    2-norm, clamped from below by [eps]. *)
Definition normalize (t : Tensor R) : Tensor R :=
  mkTensor (shape t) (concat (map normalize_row (rows t))).

End Torch.
Import Torch.

(* ===================================================================== *)
(** * The data of the adapter                                              *)
(* ===================================================================== *)

(** The fields of [XLMRobertaConfig] that the adapter reads. *)
Record XLMRobertaConfig : Type := {
  name_or_path : string;
  output_attentions : bool;
  output_hidden_states : bool;
  use_return_dict : bool;
  is_decoder : bool;
  use_cache : bool;
  num_hidden_layers : Z
}.

(** Modelled from the spec: the linear-method selector, whose classes are
    declared in [vllm.model_executor.layers.linear]; the spec distinguishes the
    unquantized default from the methods of a quantization scheme. *)
Inductive LinearMethodBase : Type :=
| UnquantizedLinearMethod
| QuantizedLinearMethod (scheme : string).

(** [isinstance(linear_method, UnquantizedLinearMethod)] *)
Definition isinstance_UnquantizedLinearMethod (m : LinearMethodBase) : bool :=
  match m with
  | UnquantizedLinearMethod => true
  | QuantizedLinearMethod _ => false
  end.

(** Modelled from the spec: the low-rank-adapter configuration, declared in
    [vllm.config]; the adapter never reads its contents. *)
Record LoRAConfig : Type := {
  max_lora_rank : Z;
  max_loras : Z
}.

(** Modelled from the spec: the batch metadata, declared in
    [vllm.model_executor.input_metadata]; the adapter reads the slot mapping,
    whose entries are cache slots or the marker -1 of an unused position. *)
Record InputMetadata : Type := {
  slot_mapping : Tensor Z
}.

Definition KVCache : Type := Tensor R * Tensor R.

(** The parameters of a module, by name; a parameter is a cell of this store
    and is mutated in place. *)
Abbreviation params := (gmap string (Tensor R)).

(** Optional tuples of tensors carried by the encoder's output. *)
Definition tensors_opt : Type := option (list (Tensor R)).

Record BaseModelOutputWithPastAndCrossAttentions : Type := {
  enc_last_hidden_state : Tensor R;
  enc_past_key_values : tensors_opt;
  enc_hidden_states : tensors_opt;
  enc_attentions : tensors_opt;
  enc_cross_attentions : tensors_opt
}.

(** What the external encoder returns: a plain tuple, whose first component is
    the last hidden state, or a model-output object. *)
Inductive EncoderOutputs : Type :=
| EncTuple (first : Tensor R) (others : list (list (Tensor R)))
| EncModelOutput (o : BaseModelOutputWithPastAndCrossAttentions).

(** [encoder_outputs[0]] *)
Definition enc_getitem0 (e : EncoderOutputs) : Tensor R :=
  match e with
  | EncTuple first _ => first
  | EncModelOutput o => enc_last_hidden_state o
  end.

(** [encoder_outputs.<field>]: a tuple has no such attribute. *)
Definition enc_getattr (field : BaseModelOutputWithPastAndCrossAttentions -> tensors_opt)
    (name : string) (e : EncoderOutputs) : result tensors_opt :=
  match e with
  | EncTuple _ _ => Err (AttributeError name)
  | EncModelOutput o => Ok (field o)
  end.

(** What [get_head_mask] returns: a tensor, or one entry per layer. *)
Inductive HeadMask : Type :=
| HeadMaskTensor (t : Tensor R)
| HeadMaskList (l : list (option (Tensor R))).

(** The external embedding module: its optional buffer [token_type_ids] and
    its call, with the keyword arguments [input_ids], [position_ids],
    [token_type_ids], [inputs_embeds] and [past_key_values_length]. *)
Record XLMRobertaEmbeddings : Type := {
  token_type_ids : option (Tensor Z);
  embeddings_call :
    params -> Tensor Z -> option (Tensor Z) -> Tensor Z -> option (Tensor R) -> nat ->
    result (Tensor R)
}.

(** The keyword arguments of the encoder's call. *)
Record EncoderArgs : Type := {
  arg_attention_mask : Tensor spec_float;
  arg_head_mask : HeadMask;
  arg_encoder_hidden_states : option (Tensor R);
  arg_encoder_attention_mask : option (Tensor spec_float);
  arg_past_key_values : tensors_opt;
  arg_use_cache : bool;
  arg_output_attentions : bool;
  arg_output_hidden_states : bool;
  arg_return_dict : bool
}.

Record XLMRobertaEncoder : Type := {
  encoder_call : params -> Tensor R -> EncoderArgs -> result EncoderOutputs
}.

Record XLMRobertaPooler : Type := {
  pooler_call : params -> Tensor R -> result (Tensor R)
}.

(** What [XLMRobertaModelHF(config)] builds. *)
Record XLMRobertaModelHF_obj : Type := {
  hf_embeddings : XLMRobertaEmbeddings;
  hf_encoder : XLMRobertaEncoder;
  hf_pooler : option XLMRobertaPooler;
  hf_parameters : params
}.

(** The adapter object [self]. *)
Record XLMRobertaModel : Type := {
  config : XLMRobertaConfig;
  linear_method : option LinearMethodBase;
  embeddings : XLMRobertaEmbeddings;
  encoder : XLMRobertaEncoder;
  pooler : option XLMRobertaPooler;
  named_parameters : params
}.

Definition set_named_parameters (self : XLMRobertaModel) (p : params) : XLMRobertaModel :=
  {| config := config self;
     linear_method := linear_method self;
     embeddings := embeddings self;
     encoder := encoder self;
     pooler := pooler self;
     named_parameters := p |}.

Record BaseModelOutputWithPoolingAndCrossAttentions : Type := {
  last_hidden_state : Tensor R;
  pooler_output : option (Tensor R);
  past_key_values : tensors_opt;
  hidden_states : tensors_opt;
  attentions : tensors_opt;
  cross_attentions : tensors_opt
}.

(** The objects appended to [tensor_list]: a tensor in one branch, the whole
    model output in the other. *)
Inductive PyObject : Type :=
| PyTensor (t : Tensor R)
| PyModelOutput (o : BaseModelOutputWithPoolingAndCrossAttentions).

(** [torch.cat(objects, dim=0)]: every element has to be a tensor. *)
Fixpoint as_tensors (l : list PyObject) : result (list (Tensor R)) :=
  match l with
  | [] => Ok []
  | PyTensor t :: l' =>
      match as_tensors l' with
      | Ok ts => Ok (t :: ts)
      | Err e => Err e
      end
  | PyModelOutput _ :: _ =>
      Err (TypeError "expected Tensor as element of argument tensors")
  end.

Definition torch_cat (l : list PyObject) : result (Tensor R) :=
  match l with
  | [] => cat_tensors []
  | _ :: _ => let* ts := as_tensors l in cat_tensors ts
  end.

(* ===================================================================== *)
(** * Construction                                                         *)
(* ===================================================================== *)

(** What construction does, in order: the call of the parent constructor and
    the building of the external model, from which the three sub-modules are
    taken. *)
Inductive init_event : Type :=
| EvSuperInit
| EvBuildSubModules (config : XLMRobertaConfig).

Definition builds_sub_modules (e : init_event) : bool :=
  match e with
  | EvBuildSubModules _ => true
  | EvSuperInit => false
  end.

Section Construction.

(** The external constructor [transformers.XLMRobertaModel]. *)
Variable XLMRobertaModelHF : XLMRobertaConfig -> result XLMRobertaModelHF_obj.

(** [XLMRobertaModel.__init__]: the events performed and the object built,
    or the exception raised. *)
Definition __init__ (config : XLMRobertaConfig)
    (linear_method : option LinearMethodBase)
    (lora_config : option LoRAConfig) : list init_event * result XLMRobertaModel :=
  let events := [EvSuperInit] in
  if match linear_method with
     | Some m => negb (isinstance_UnquantizedLinearMethod m)
     | None => false
     end
  then (events,
        Err (NotImplementedError
               "XLMRobertaModel does not currently support quantization. Please raise an issue if you would like this feature."))
  else
    match lora_config with
    | Some _ =>
        (events,
         Err (NotImplementedError
                "XLMRobertaModel does not currently support deployments with LORA Adapters. Please raise an issue if you would like this feature."))
    | None =>
        let events := events ++ [EvBuildSubModules config] in
        match XLMRobertaModelHF config with
        | Ok hf_model =>
            (events,
             Ok {| config := config;
                   linear_method := linear_method;
                   embeddings := hf_embeddings hf_model;
                   encoder := hf_encoder hf_model;
                   pooler := hf_pooler hf_model;
                   named_parameters := hf_parameters hf_model |})
        | Err e => (events, Err e)
        end
    end.

End Construction.

(* ===================================================================== *)
(** * Weight loading                                                       *)
(* ===================================================================== *)

(** Modelled from the spec: [default_weight_loader] of
    [vllm.model_executor.weight_utils], the default in-place loader: the shape
    of the loaded tensor must match the parameter's, a mismatch fails the load,
    otherwise the data are copied into the parameter.  The result is the new
    content of the parameter. *)
Definition default_weight_loader (param : Tensor R) (loaded_weight : Tensor R)
    : result (Tensor R) :=
  if bool_decide (shape param = shape loaded_weight)
  then Ok (mkTensor (shape param) (data loaded_weight))
  else Err AssertionError.

(** The loop of [load_weights] over the pairs of the weight source.
    [params_dict] maps each name to the parameter object itself, not to a copy,
    and loading neither adds nor removes a name: [params_dict[name]] reads the
    cell [name] of the store, and the in-place copy writes that cell.  The
    store is returned with the outcome, since an exception undoes no copy. *)
Fixpoint load_weights_loop (weights : list (string * Tensor R)) (store : params)
    : params * result unit :=
  match weights with
  | [] => (store, Ok tt)
  | (name, loaded_weight) :: weights' =>
      match store !! name with
      | None => (store, Err (KeyError name))
      | Some param =>
          match default_weight_loader param loaded_weight with
          | Ok param' => load_weights_loop weights' (<[name := param']> store)
          | Err e => (store, Err e)
          end
      end
  end.

Section Loading.

(** Modelled from the spec: [hf_model_weights_iterator] of
    [vllm.model_executor.weight_utils], the weight source: given the model
    identifier, cache directory, load format and revision it produces a
    finite sequence of (parameter name, tensor) pairs. *)
Variable hf_model_weights_iterator :
  string -> option string -> string -> option string -> list (string * Tensor R).

(** [XLMRobertaModel.load_weights]: the object after the call, whose
    parameters keep every copy made before an exception, and the outcome. *)
Definition load_weights (self : XLMRobertaModel) (model_name_or_path : string)
    (cache_dir : option string) (load_format : string) (revision : option string)
    : XLMRobertaModel * result unit :=
  let params_dict := named_parameters self in
  let '(store, r) :=
    load_weights_loop
      (hf_model_weights_iterator model_name_or_path cache_dir load_format revision)
      params_dict in
  (set_named_parameters self store, r).

End Loading.

(* ===================================================================== *)
(** * Mask expansion, head mask, dense embedding, sampling hook            *)
(* ===================================================================== *)

(** [XLMRobertaModel.get_extended_attention_mask]; the arguments [device] and
    [dtype] are never read ([dtype] is overwritten before its use). *)
Definition get_extended_attention_mask (attention_mask : Tensor Z)
    (input_shape : list nat) : result (Tensor spec_float) :=
  let* extended_attention_mask :=
    if dim attention_mask =? 3 then Ok (getitem_none1 attention_mask)
    else if dim attention_mask =? 2 then Ok (getitem_none2 attention_mask)
    else Err (ValueError "Wrong shape for input_ids or attention_mask"
                         [input_shape; shape attention_mask]) in
  let extended_attention_mask := tensor_map half_of_Z extended_attention_mask in
  let extended_attention_mask :=
    tensor_map (fun x => half_mul (half_sub half_one x) finfo_min_half)
               extended_attention_mask in
  Ok extended_attention_mask.

(** [XLMRobertaModel.get_head_mask]: the class defines no
    [_convert_head_mask_to_5d], so a supplied head mask ends in an attribute
    error; [[None] * n] is empty for a negative [n]. *)
Definition get_head_mask (head_mask : option (Tensor R)) (num_hidden_layers : Z)
    (is_attention_chunked : bool) : result HeadMask :=
  match head_mask with
  | Some _ => Err (AttributeError "_convert_head_mask_to_5d")
  | None => Ok (HeadMaskList (replicate (Z.to_nat num_hidden_layers) None))
  end.

(** [XLMRobertaModel.dense_embedding]: [hidden_state[:, 0]]. *)
Definition dense_embedding {M : Type} (hidden_state : Tensor R) (mask : M)
    : result (Tensor R) :=
  select_dim1 hidden_state 0.

(** [XLMRobertaModel.sample] *)
Definition sample {SamplingMetadata : Type} (hidden_states : Tensor R)
    (sampling_metadata : SamplingMetadata) : Tensor R :=
  hidden_states.

(* ===================================================================== *)
(** * Forward inference                                                    *)
(* ===================================================================== *)

(** What one iteration of the loop of [forward] has fixed once its attention
    mask is settled (line 105 of the source): the start index, the slice of
    the ids, the slice of the slot mapping, the attention mask in use and
    whether the all-ones default was taken. *)
Record ChunkLog : Type := {
  log_start_index : nat;
  log_ids : Tensor Z;
  log_slots : Tensor Z;
  log_attention_mask : Tensor Z;
  log_mask_defaulted : bool
}.

(** Computations that may raise and that leave a log of the chunks they went
    through; the log is kept when an exception is raised. *)
Record traced (A : Type) : Type := Traced {
  trace : list ChunkLog;
  outcome : result A
}.
Arguments Traced {A} trace outcome.
Arguments trace {A} t.
Arguments outcome {A} t.

Definition traced_bind {A B} (c : traced A) (k : A -> traced B) : traced B :=
  match outcome c with
  | Ok a => Traced (trace c ++ trace (k a)) (outcome (k a))
  | Err e => Traced (trace c) (Err e)
  end.

#[export] Instance traced_monad : Monad traced :=
  {| ret := fun A a => Traced [] (Ok a); bind := @traced_bind |}.

Definition lift {A} (r : result A) : traced A := Traced [] r.

Definition tell (c : ChunkLog) : traced unit := Traced [c] (Ok tt).

(** [range(start, stop, step)] for non-negative arguments. *)
Fixpoint range_fuel (fuel start stop step : nat) : list nat :=
  match fuel with
  | 0 => []
  | S fuel' =>
      if start <? stop then start :: range_fuel fuel' (start + step) stop step else []
  end.

Definition range (start stop step : nat) : result (list nat) :=
  if step =? 0 then Err (ValueError "range() arg 3 must not be zero" [])
  else Ok (range_fuel stop start stop step).

(** [tqdm(iterable, desc=..., disable=...)] yields the items of the iterable. *)
Definition tqdm {A} (iterable : list A) (desc : string) (disable : bool) : list A :=
  iterable.

(** [a, b = shape] *)
Definition unpack2 (s : list nat) : result (nat * nat) :=
  match s with
  | [a; b] => Ok (a, b)
  | _ :: _ :: _ :: _ => Err (ValueError "too many values to unpack (expected 2)" [s])
  | _ => Err (ValueError "not enough values to unpack (expected 2)" [s])
  end.

(** A [for] loop over a list, threading the local variables. *)
Fixpoint for_each {S} (body : nat -> S -> traced S) (l : list nat) (st : S) : traced S :=
  match l with
  | [] => ret st
  | i :: l' => let* st' := body i st in for_each body l' st'
  end.

Section Forward.

Variable self : XLMRobertaModel.
Variable input_ids : Tensor Z.
Variable input_metadata : InputMetadata.

(** The body of the loop of [forward] (lines 88 to 155).  The locals that
    live across iterations are [batch_size], which the body reassigns from
    the shape of the slice, and [tensor_list]. *)
Definition forward_body (start_index : nat) (locals : nat * list PyObject)
    : traced (nat * list PyObject) :=
  let '(batch_size, tensor_list) := locals in
  let* ids := lift (getitem_rows input_ids start_index (start_index + batch_size)) in
  let* slots :=
    lift (getitem_rows (slot_mapping input_metadata)
                       start_index (start_index + batch_size)) in
  let attention_mask : option (Tensor Z) := Some (int (ne slots (-1))) in
  let output_attentions := output_attentions (config self) in
  let output_hidden_states := output_hidden_states (config self) in
  let return_dict := use_return_dict (config self) in
  let use_cache := if is_decoder (config self) then use_cache (config self) else false in
  let input_shape := shape ids in
  let* '(batch_size, seq_length) := lift (unpack2 input_shape) in
  let past_key_values_length := 0 in
  let '(attention_mask, defaulted) :=
    match attention_mask with
    | None => (ones [batch_size; seq_length + past_key_values_length], true)
    | Some m => (m, false)
    end in
  let* _ := tell {| log_start_index := start_index;
                    log_ids := ids;
                    log_slots := slots;
                    log_attention_mask := attention_mask;
                    log_mask_defaulted := defaulted |} in
  let* token_type_ids :=
    lift match token_type_ids (embeddings self) with
         | Some buffer =>
             let* buffered_token_type_ids := getitem_cols buffer seq_length in
             expand2 buffered_token_type_ids batch_size seq_length
         | None => Ok (zeros input_shape)
         end in
  let* extended_attention_mask :=
    lift (get_extended_attention_mask attention_mask input_shape) in
  let encoder_extended_attention_mask : option (Tensor spec_float) := None in
  let* head_mask := lift (get_head_mask None (num_hidden_layers (config self)) false) in
  let* embedding_output :=
    lift (embeddings_call (embeddings self) (named_parameters self)
            ids None token_type_ids None past_key_values_length) in
  let* encoder_outputs :=
    lift (encoder_call (encoder self) (named_parameters self) embedding_output
            {| arg_attention_mask := extended_attention_mask;
               arg_head_mask := head_mask;
               arg_encoder_hidden_states := None;
               arg_encoder_attention_mask := encoder_extended_attention_mask;
               arg_past_key_values := None;
               arg_use_cache := use_cache;
               arg_output_attentions := output_attentions;
               arg_output_hidden_states := output_hidden_states;
               arg_return_dict := return_dict |}) in
  let sequence_output := enc_getitem0 encoder_outputs in
  let* pooled_output :=
    lift match pooler self with
         | Some p =>
             let* pooled := pooler_call p (named_parameters self) sequence_output in
             Ok (Some pooled)
         | None => Ok None
         end in
  let* o_past_key_values :=
    lift (enc_getattr enc_past_key_values "past_key_values" encoder_outputs) in
  let* o_hidden_states :=
    lift (enc_getattr enc_hidden_states "hidden_states" encoder_outputs) in
  let* o_attentions :=
    lift (enc_getattr enc_attentions "attentions" encoder_outputs) in
  let* o_cross_attentions :=
    lift (enc_getattr enc_cross_attentions "cross_attentions" encoder_outputs) in
  let output :=
    {| last_hidden_state := sequence_output;
       pooler_output := pooled_output;
       past_key_values := o_past_key_values;
       hidden_states := o_hidden_states;
       attentions := o_attentions;
       cross_attentions := o_cross_attentions |} in
  if String.eqb (name_or_path (config self)) "BAAI/bge-m3"
  then
    let* output := lift (dense_embedding (last_hidden_state output) attention_mask) in
    let output := normalize output in
    ret (batch_size, tensor_list ++ [PyTensor output])
  else
    ret (batch_size, tensor_list ++ [PyModelOutput output]).

(** Lines 81 to 155 of [forward]: the loop over the start indices; it ends
    with the locals [batch_size] and [tensor_list]. *)
Definition forward_loop : traced (nat * list PyObject) :=
  let batch_size := 12 in
  let tensor_list : list PyObject := [] in
  let* n := lift (shape0 input_ids) in
  let* starts := lift (range 0 n batch_size) in
  for_each forward_body (tqdm starts "Inference Embeddings" (n <? 256))
           (batch_size, tensor_list).

End Forward.

(** [XLMRobertaModel.forward]: the loop, then [torch.cat(tensor_list, dim=0)].
    The arguments [positions] and [kv_caches] are never read. *)
Definition forward (self : XLMRobertaModel) (input_ids positions : Tensor Z)
    (kv_caches : list KVCache) (input_metadata : InputMetadata) : traced (Tensor R) :=
  let* '(_, tensor_list) := forward_loop self input_ids input_metadata in
  lift (torch_cat tensor_list).

(** The additive bias of one mask entry. *)
Definition mask_bias (z : Z) : spec_float :=
  half_mul (half_sub half_one (half_of_Z z)) finfo_min_half.

(** IEEE negative zero: it compares equal to zero. *)
Definition half_neg_zero : spec_float := S754_zero true.

(** The store once every pair of [weights] has been copied into its parameter,
    in order: a later pair for the same name overwrites an earlier one. *)
Definition copy_all (weights : list (string * Tensor R)) (store : params) : params :=
  foldl (fun st '(name, w) =>
           match st !! name with
           | Some p => <[name := mkTensor (shape p) (data w)]> st
           | None => st
           end) store weights.

(** A pair that loads without error on [store]: its name is a parameter and
    the shapes agree. *)
Definition loadable (store : params) (nw : string * Tensor R) : Prop :=
  exists p, store !! nw.1 = Some p /\ shape p = shape nw.2.

(** The rows [s, min (s + 12) n) of a two-dimensional tensor whose first
    dimension is [n]: the chunk that starts at [s]. *)
Definition chunk_at {A} (t : Tensor A) (s : nat) : result (Tensor A) :=
  getitem_rows t s (s + 12).

(** What the body appends for a chunk, given what the encoder returned for
    it: the normalized first-token embedding for the named variant, the whole
    model output otherwise. *)
Definition is_bge_m3 (self : XLMRobertaModel) : bool :=
  String.eqb (name_or_path (config self)) "BAAI/bge-m3".

(** What the body of the loop appends to [tensor_list] for the slice [ids]
    and the attention mask [mask]: the external modules are run on the slice;
    for the named variant the first-token hidden state is normalized, for any
    other name the whole model output is kept. *)
Inductive appended (self : XLMRobertaModel) (ids mask : Tensor Z) : PyObject -> Prop :=
| appended_dense (tti : Tensor Z) (emb : Tensor R) (args : EncoderArgs)
    (eo : EncoderOutputs) (d : Tensor R) :
    embeddings_call (embeddings self) (named_parameters self) ids None tti None 0
    = Ok emb ->
    encoder_call (encoder self) (named_parameters self) emb args = Ok eo ->
    is_bge_m3 self = true ->
    dense_embedding (enc_getitem0 eo) mask = Ok d ->
    appended self ids mask (PyTensor (normalize d))
| appended_raw (tti : Tensor Z) (emb : Tensor R) (args : EncoderArgs)
    (eo : EncoderOutputs) (o : BaseModelOutputWithPoolingAndCrossAttentions) :
    embeddings_call (embeddings self) (named_parameters self) ids None tti None 0
    = Ok emb ->
    encoder_call (encoder self) (named_parameters self) emb args = Ok eo ->
    is_bge_m3 self = false ->
    last_hidden_state o = enc_getitem0 eo ->
    appended self ids mask (PyModelOutput o).

(** The log entry of a chunk whose attention mask comes from the slot
    mapping. *)
Definition chunk_log (start_index : nat) (ids slots : Tensor Z) : ChunkLog :=
  {| log_start_index := start_index;
     log_ids := ids;
     log_slots := slots;
     log_attention_mask := int (ne slots (-1));
     log_mask_defaulted := false |}.

(** A log entry whose attention mask is the 0/1 integer tensor obtained by
    comparing the logged slice of the slot mapping with -1, with the all-ones
    default not taken. *)
Definition mask_from_slots (input_metadata : InputMetadata) (c : ChunkLog) : Prop :=
  log_mask_defaulted c = false /\
  log_attention_mask c = int (ne (log_slots c) (-1)) /\
  (exists stop,
     getitem_rows (slot_mapping input_metadata) (log_start_index c) stop
     = Ok (log_slots c)) /\
  Forall (fun z => z = 0%Z \/ z = 1%Z) (data (log_attention_mask c)) /\
  (forall idx z,
     item (log_slots c) idx = Some z ->
     item (log_attention_mask c) idx = Some (if Z.eqb z (-1) then 0%Z else 1%Z)).

(** The sum of the squares of the entries of a vector. *)
Definition sum_sq (v : list R) : R := foldr Rplus 0%R (map (fun x => (x * x)%R) v).


(* ===================================================================== *)
(** * Concrete objects on which the adapter is run                         *)
(* ===================================================================== *)

(** A rank-2 mask and a rank-3 mask on which the expansion is run. *)
Definition example_mask2 : Tensor Z := mkTensor [1; 2] [1; 0]%Z.
Definition example_mask3 : Tensor Z := mkTensor [1; 2; 2] [1; 0; 1; 1]%Z.

(** An external model to run the adapter on: its embedding turns each id
    into a vector with the single entry [id * scale], its encoder returns the
    embeddings as the last hidden state, and it has no pooler. *)
Definition example_hf_model_scaled (scale : R) : XLMRobertaModelHF_obj :=
  {| hf_embeddings :=
       {| token_type_ids := None;
          embeddings_call := fun _ ids _ _ _ _ =>
            Ok (mkTensor (shape ids ++ [1])
                         (map (fun z => (IZR z * scale)%R) (data ids))) |};
     hf_encoder :=
       {| encoder_call := fun _ h _ =>
            Ok (EncModelOutput
                  {| enc_last_hidden_state := h;
                     enc_past_key_values := None;
                     enc_hidden_states := None;
                     enc_attentions := None;
                     enc_cross_attentions := None |}) |};
     hf_pooler := None;
     hf_parameters := ∅ |}.

Definition example_hf_model : XLMRobertaModelHF_obj := example_hf_model_scaled 1.

Definition example_config (name : string) : XLMRobertaConfig :=
  {| name_or_path := name;
     output_attentions := false;
     output_hidden_states := false;
     use_return_dict := true;
     is_decoder := false;
     use_cache := true;
     num_hidden_layers := 2 |}.

(** A store with one parameter, and a weight source whose first pair has the
    wrong shape and whose second pair names no parameter. *)
Definition example_store : params :=
  {[ "pooler.dense.bias" := mkTensor [3] [0; 0; 0]%R ]}.

Definition example_bad_source : list (string * Tensor R) :=
  [ ("pooler.dense.bias", mkTensor [2] [1; 1]%R);
    ("lm_head.bias", mkTensor [3] [1; 1; 1]%R) ].

(** A source whose first pair loads and whose second pair names no
    parameter. *)
Definition example_partial_source : list (string * Tensor R) :=
  [ ("pooler.dense.bias", mkTensor [3] [1; 2; 3]%R);
    ("lm_head.bias", mkTensor [3] [1; 1; 1]%R) ].

Definition example_model (name : string) (store : params) : XLMRobertaModel :=
  {| config := example_config name;
     linear_method := None;
     embeddings := hf_embeddings example_hf_model;
     encoder := hf_encoder example_hf_model;
     pooler := hf_pooler example_hf_model;
     named_parameters := store |}.

(** A batch of thirteen sequences of one token each, the last one padding. *)
Definition example_input_ids : Tensor Z :=
  mkTensor [13; 1] (map Z.of_nat (seq 0 13)).

Definition example_input_metadata : InputMetadata :=
  {| slot_mapping := mkTensor [13; 1] (replicate 12 7%Z ++ [(-1)%Z]) |}.




(** A source whose first pair loads and whose second pair, for the same
    parameter, has the wrong shape. *)
Definition example_mismatch_source : list (string * Tensor R) :=
  [ ("pooler.dense.bias", mkTensor [3] [1; 2; 3]%R);
    ("pooler.dense.bias", mkTensor [2] [4; 5]%R) ].

(** A store with two parameters and a source for both. *)
Definition example_store2 : params :=
  <[ "pooler.dense.weight" := mkTensor [1; 2] [0; 0]%R ]>
    {[ "pooler.dense.bias" := mkTensor [3] [0; 0; 0]%R ]}.

Definition example_full_source : list (string * Tensor R) :=
  [ ("pooler.dense.bias", mkTensor [3] [1; 2; 3]%R);
    ("pooler.dense.weight", mkTensor [1; 2] [4; 5]%R) ].

(** A rank-3 mask that is not square, with entries other than 0 and 1. *)
Definition example_mask_2_1_3 : Tensor Z := mkTensor [2; 1; 3] [1; 0; 2; 0; (-1); 1]%Z.

(** A hidden state of two sequences of two tokens with three features. *)
Definition example_hidden : Tensor R :=
  mkTensor [2; 2; 3] [1; 2; 3; 4; 5; 6; 7; 8; 9; 10; 11; 12]%R.

(** A model whose embeddings carry a token-type buffer for four positions. *)
Definition example_model_buffered (name : string) : XLMRobertaModel :=
  {| config := example_config name;
     linear_method := None;
     embeddings :=
       {| token_type_ids := Some (mkTensor [1; 4] [0; 0; 0; 0]%Z);
          embeddings_call := embeddings_call (hf_embeddings example_hf_model) |};
     encoder := hf_encoder example_hf_model;
     pooler := hf_pooler example_hf_model;
     named_parameters := ∅ |}.

(** A batch of two sequences of five tokens, and its slot mapping. *)
Definition example_long_ids : Tensor Z :=
  mkTensor [2; 5] [1; 2; 3; 4; 5; 6; 7; 8; 9; 10]%Z.

Definition example_long_metadata : InputMetadata :=
  {| slot_mapping := mkTensor [2; 5] [0; 1; 2; 3; 4; 5; 6; 7; (-1); (-1)]%Z |}.

(** Metadata whose slot mapping is flat. *)
Definition example_flat_metadata : InputMetadata :=
  {| slot_mapping := mkTensor [13] (replicate 13 7%Z) |}.

(** A model whose embeddings keep the leading dimension of any ids: a vector
    with the single entry [id] for each id. *)
Definition example_rows_model (name : string) : XLMRobertaModel :=
  {| config := example_config name;
     linear_method := None;
     embeddings :=
       {| token_type_ids := None;
          embeddings_call := fun _ ids _ _ _ _ =>
            Ok (mkTensor (hd 0 (shape ids) :: tail (shape ids) ++ [1])
                         (map IZR (data ids))) |};
     encoder := hf_encoder example_hf_model;
     pooler := hf_pooler example_hf_model;
     named_parameters := ∅ |}.

(* ===================================================================== *)
(** * Further definitions: messages, checks and call records               *)
(* ===================================================================== *)

(** The two messages of [__init__]. *)
Definition quantization_message : string :=
  "XLMRobertaModel does not currently support quantization. Please raise an issue if you would like this feature.".

Definition lora_message : string :=
  "XLMRobertaModel does not currently support deployments with LORA Adapters. Please raise an issue if you would like this feature.".

(** The linear methods that construction accepts: none, or the unquantized
    one. *)
Definition accepted_linear_method (lm : option LinearMethodBase) : bool :=
  match lm with
  | Some m => isinstance_UnquantizedLinearMethod m
  | None => true
  end.

(** The shapes of the parameters, by name. *)
Definition param_shapes (store : params) : gmap string (list nat) :=
  shape <$> store.

(** What the object holds besides its parameters. *)
Definition same_modules (a b : XLMRobertaModel) : Prop :=
  config a = config b /\ linear_method a = linear_method b /\
  embeddings a = embeddings b /\ encoder a = encoder b /\ pooler a = pooler b.

(** The token type ids that the body of the loop hands to the embeddings for
    a slice of [batch_size] rows and [seq_length] columns: the buffer of the
    embeddings, cut to the sequence length and repeated for each row, or zeros
    when the embeddings have no buffer. *)
Definition chunk_token_type_ids (self : XLMRobertaModel) (input_shape : list nat)
    (batch_size seq_length : nat) : result (Tensor Z) :=
  match token_type_ids (embeddings self) with
  | Some buffer =>
      let* buffered_token_type_ids := getitem_cols buffer seq_length in
      expand2 buffered_token_type_ids batch_size seq_length
  | None => Ok (zeros input_shape)
  end.

(** The keyword arguments with which the body calls the encoder, given the
    expanded mask. *)
Definition chunk_encoder_args (self : XLMRobertaModel)
    (extended_attention_mask : Tensor spec_float) : EncoderArgs :=
  {| arg_attention_mask := extended_attention_mask;
     arg_head_mask :=
       HeadMaskList (replicate (Z.to_nat (num_hidden_layers (config self))) None);
     arg_encoder_hidden_states := None;
     arg_encoder_attention_mask := None;
     arg_past_key_values := None;
     arg_use_cache := is_decoder (config self) && use_cache (config self);
     arg_output_attentions := output_attentions (config self);
     arg_output_hidden_states := output_hidden_states (config self);
     arg_return_dict := use_return_dict (config self) |}.

(** The pooled output of the body: the pooler applied to the sequence output,
    or nothing when there is no pooler. *)
Definition chunk_pooled_output (self : XLMRobertaModel) (sequence_output : Tensor R)
    : result (option (Tensor R)) :=
  match pooler self with
  | Some p =>
      let* pooled := pooler_call p (named_parameters self) sequence_output in
      Ok (Some pooled)
  | None => Ok None
  end.

(** One completed iteration of the body on the slice [ids] of [b] rows and [l]
    columns, with the slice [slots] of the slot mapping: the calls it made,
    what they returned, and the element [out] it appended. *)
Inductive chunk_run (self : XLMRobertaModel) (ids slots : Tensor Z) (b l : nat)
    : PyObject -> Prop :=
| chunk_run_intro (tti : Tensor Z) (ext : Tensor spec_float) (emb : Tensor R)
    (o : BaseModelOutputWithPastAndCrossAttentions)
    (pooled : option (Tensor R)) (out : PyObject) :
    chunk_token_type_ids self (shape ids) b l = Ok tti ->
    get_extended_attention_mask (int (ne slots (-1))) (shape ids) = Ok ext ->
    embeddings_call (embeddings self) (named_parameters self) ids None tti None 0
    = Ok emb ->
    encoder_call (encoder self) (named_parameters self) emb
                 (chunk_encoder_args self ext)
    = Ok (EncModelOutput o) ->
    chunk_pooled_output self (enc_last_hidden_state o) = Ok pooled ->
    (if is_bge_m3 self
     then exists d,
            dense_embedding (enc_last_hidden_state o) (int (ne slots (-1))) = Ok d /\
            out = PyTensor (normalize d)
     else out = PyModelOutput
                  {| last_hidden_state := enc_last_hidden_state o;
                     pooler_output := pooled;
                     past_key_values := enc_past_key_values o;
                     hidden_states := enc_hidden_states o;
                     attentions := enc_attentions o;
                     cross_attentions := enc_cross_attentions o |}) ->
    chunk_run self ids slots b l out.


(** A token-type buffer that serves sequences of [seq_length] tokens: no
    buffer at all, or one row of at least [seq_length] positions. *)
Definition buffer_covers (self : XLMRobertaModel) (seq_length : nat) : Prop :=
  match token_type_ids (embeddings self) with
  | None => True
  | Some buffer => exists P, shape buffer = [1; P] /\ seq_length <= P
  end.

(** The additive bias of a position, from its slot: the most negative finite
    half-precision number for the marker -1 of an unused position, the
    negative zero for any cache slot. *)
Definition slot_bias (z : Z) : spec_float :=
  if Z.eqb z (-1) then finfo_min_half else half_neg_zero.

(* ===================================================================== *)
(** * Properties of the tensor operations                                  *)
(* ===================================================================== *)

Section TensorFacts.

Context {A B : Type}.

Lemma item_tensor_map (f : A -> B) (t : Tensor A) (idx : list nat) :
  item (tensor_map f t) idx = f <$> item t idx.
Proof.
  unfold item, tensor_map; simpl.
  destruct (ravel (shape t) idx) as [o|]; [|reflexivity].
  apply list_lookup_fmap.
Qed.

Lemma ravel_unit_dim (s idx : list nat) :
  ravel (1 :: s) (0 :: idx) = ravel s idx.
Proof.
  simpl. destruct (ravel s idx) as [o|]; reflexivity.
Qed.

Lemma numel_unit_dim (s : list nat) : numel (1 :: s) = numel s.
Proof. unfold numel; simpl. lia. Qed.

Lemma ravel_none1 (d0 b : nat) (s idx : list nat) :
  ravel (d0 :: 1 :: s) (b :: 0 :: idx) = ravel (d0 :: s) (b :: idx).
Proof.
  change (ravel (d0 :: 1 :: s) (b :: 0 :: idx))
    with (if b <? d0
          then match ravel (1 :: s) (0 :: idx) with
               | Some o => Some (b * numel (1 :: s) + o)
               | None => None
               end
          else None).
  rewrite ravel_unit_dim, numel_unit_dim. reflexivity.
Qed.

Lemma item_getitem_none1 (t : Tensor A) (d0 b : nat) (s idx : list nat) :
  shape t = d0 :: s ->
  item (getitem_none1 t) (b :: 0 :: idx) = item t (b :: idx).
Proof.
  intros Hs. unfold item, getitem_none1. rewrite Hs. cbn [shape data].
  rewrite ravel_none1. reflexivity.
Qed.

Lemma item_getitem_none2 (t : Tensor A) (d0 b : nat) (s idx : list nat) :
  shape t = d0 :: s ->
  item (getitem_none2 t) (b :: 0 :: 0 :: idx) = item t (b :: idx).
Proof.
  intros Hs. unfold item, getitem_none2. rewrite Hs. cbn [shape data].
  rewrite ravel_none1, ravel_none1. reflexivity.
Qed.

End TensorFacts.

(* ===================================================================== *)
(** * Mask expansion                                                       *)
(* ===================================================================== *)

Lemma mask_bias_attended : mask_bias 1 = half_neg_zero.
Proof. reflexivity. Qed.

Lemma mask_bias_masked : mask_bias 0 = finfo_min_half.
Proof. reflexivity. Qed.

Lemma half_neg_zero_is_zero : SFeqb half_neg_zero (half_of_Z 0) = true.
Proof. reflexivity. Qed.

Lemma digits2_pos_bound (m : positive) :
  (Z.pos m < 2 ^ Z.pos (digits2_pos m))%Z.
Proof.
  induction m as [m IH|m IH|]; cbn [digits2_pos].
  - rewrite Pos2Z.inj_succ, Z.pow_succ_r by lia. lia.
  - rewrite Pos2Z.inj_succ, Z.pow_succ_r by lia. lia.
  - reflexivity.
Qed.

Lemma finfo_min_half_value : finfo_min_half = S754_finite true 2047 5.
Proof. reflexivity. Qed.

(** [finfo_min_half] is below every finite half-precision number. *)
Lemma finfo_min_half_least (s : bool) (m : positive) (e : Z) :
  valid_binary half_prec half_emax (S754_finite s m e) = true ->
  SFleb finfo_min_half (S754_finite s m e) = true.
Proof.
  intros Hv. unfold valid_binary, bounded, canonical_mantissa in Hv.
  apply andb_prop in Hv as [Hc He].
  apply Z.leb_le in He. apply Z.eqb_eq in Hc.
  unfold fexp, emin, half_prec, half_emax in Hc, He.
  rewrite finfo_min_half_value.
  unfold SFleb, SFcompare.
  destruct s; [|reflexivity].
  destruct (Z.compare_spec 5 e) as [Heq|Hlt|Hgt]; [|lia|reflexivity].
  subst e.
  assert (Hd : (Z.pos (digits2_pos m) = 11)%Z) by lia.
  pose proof (digits2_pos_bound m) as Hb. rewrite Hd in Hb.
  change (2 ^ 11)%Z with 2048%Z in Hb.
  fold (Pos.compare 2047 m).
  destruct (Pos.compare_spec 2047 m) as [E|E|E]; try reflexivity.
  lia.
Qed.

Lemma get_extended_attention_mask_rank3 (m : Tensor Z) (input_shape : list nat) :
  dim m = 3 ->
  get_extended_attention_mask m input_shape
  = Ok (tensor_map mask_bias (getitem_none1 m)).
Proof.
  intros Hd. unfold get_extended_attention_mask. rewrite Hd. cbn.
  unfold tensor_map; cbn. rewrite map_map. reflexivity.
Qed.

Lemma get_extended_attention_mask_rank2 (m : Tensor Z) (input_shape : list nat) :
  dim m = 2 ->
  get_extended_attention_mask m input_shape
  = Ok (tensor_map mask_bias (getitem_none2 m)).
Proof.
  intros Hd. unfold get_extended_attention_mask. rewrite Hd. cbn.
  unfold tensor_map; cbn. rewrite map_map. reflexivity.
Qed.

Lemma get_extended_attention_mask_other_rank (m : Tensor Z) (input_shape : list nat) :
  dim m <> 2 -> dim m <> 3 ->
  get_extended_attention_mask m input_shape
  = Err (ValueError "Wrong shape for input_ids or attention_mask"
                    [input_shape; shape m]).
Proof.
  intros H2 H3. unfold get_extended_attention_mask.
  apply Nat.eqb_neq in H2, H3. rewrite H2, H3. reflexivity.
Qed.

(** Whatever the rank, a result holds the bias of each entry of the mask, in
    the order of the mask. *)
Lemma get_extended_attention_mask_data (m : Tensor Z) (input_shape : list nat)
    (ext : Tensor spec_float) :
  get_extended_attention_mask m input_shape = Ok ext ->
  data ext = map mask_bias (data m).
Proof.
  unfold get_extended_attention_mask. intros Hext.
  destruct (dim m =? 3) eqn:H3; [|destruct (dim m =? 2) eqn:H2].
  - cbn in Hext. injection Hext as <-. cbn. rewrite map_map.
    unfold getitem_none1. destruct (shape m); reflexivity.
  - cbn in Hext. injection Hext as <-. cbn. rewrite map_map.
    unfold getitem_none2. destruct (shape m); reflexivity.
  - discriminate.
Qed.

(** C3. On a mask of shape (B, L) the expansion returns a tensor of shape
    (B, 1, 1, L), on a mask of shape (B, L, L) one of shape (B, 1, L, L).  The
    entries are half-precision numbers: where the mask holds 1 the result
    holds a zero (the IEEE negative zero, which compares equal to 0), where the
    mask holds 0 it holds [finfo_min_half], the most negative finite
    half-precision number; on a 0/1 mask every entry of the result is one of
    these two, a valid half-precision number. *)
Theorem get_extended_attention_mask_shape_and_values :
  forall (attention_mask : Tensor Z) (input_shape : list nat) (B L : nat),
    (shape attention_mask = [B; L] ->
     exists ext,
       get_extended_attention_mask attention_mask input_shape = Ok ext /\
       shape ext = [B; 1; 1; L] /\
       forall b l,
         (item attention_mask [b; l] = Some 1%Z ->
          item ext [b; 0; 0; l] = Some half_neg_zero) /\
         (item attention_mask [b; l] = Some 0%Z ->
          item ext [b; 0; 0; l] = Some finfo_min_half)) /\
    (shape attention_mask = [B; L; L] ->
     exists ext,
       get_extended_attention_mask attention_mask input_shape = Ok ext /\
       shape ext = [B; 1; L; L] /\
       forall b i l,
         (item attention_mask [b; i; l] = Some 1%Z ->
          item ext [b; 0; i; l] = Some half_neg_zero) /\
         (item attention_mask [b; i; l] = Some 0%Z ->
          item ext [b; 0; i; l] = Some finfo_min_half)) /\
    (Forall (fun z => z = 0%Z \/ z = 1%Z) (data attention_mask) ->
     forall ext,
       get_extended_attention_mask attention_mask input_shape = Ok ext ->
       Forall (fun x => valid_binary half_prec half_emax x = true /\
                        (x = finfo_min_half \/ x = half_neg_zero))
              (data ext)) /\
    SFeqb half_neg_zero (half_of_Z 0) = true /\
    (forall s m e,
       valid_binary half_prec half_emax (S754_finite s m e) = true ->
       SFleb finfo_min_half (S754_finite s m e) = true).
Proof.
  intros mask input_shape B L.
  split; [|split; [|split; [|split; [reflexivity|apply finfo_min_half_least]]]];
    cycle 2.
  - intros Hall ext Hext.
    apply (get_extended_attention_mask_data mask input_shape ext) in Hext.
    rewrite Hext. apply Forall_fmap. eapply Forall_impl; [exact Hall|].
    intros z [-> | ->]; cbn; split; auto.
  - intros Hs. eexists. split.
    + apply get_extended_attention_mask_rank2. unfold dim. rewrite Hs. reflexivity.
    + split.
      * unfold getitem_none2. rewrite Hs. reflexivity.
      * intros b l. rewrite item_tensor_map.
        rewrite (item_getitem_none2 mask B b [L] [l] Hs).
        split; intros ->; cbn [fmap option_fmap option_map];
          [rewrite mask_bias_attended | rewrite mask_bias_masked]; reflexivity.
  - intros Hs. eexists. split.
    + apply get_extended_attention_mask_rank3. unfold dim. rewrite Hs. reflexivity.
    + split.
      * unfold getitem_none1. rewrite Hs. reflexivity.
      * intros b i l. rewrite item_tensor_map.
        rewrite (item_getitem_none1 mask B b [L; L] [i; l] Hs).
        split; intros ->; cbn [fmap option_fmap option_map];
          [rewrite mask_bias_attended | rewrite mask_bias_masked]; reflexivity.
Qed.

(** C4. A mask of rank 1, or of rank 4 or more, makes the expansion raise a
    [ValueError]; it returns no value. *)
Theorem get_extended_attention_mask_bad_rank :
  forall (attention_mask : Tensor Z) (input_shape : list nat),
    dim attention_mask = 1 \/ 4 <= dim attention_mask ->
    exists e,
      get_extended_attention_mask attention_mask input_shape = Err e /\
      is_ValueError e = true.
Proof.
  intros mask input_shape Hd. eexists. split.
  - apply get_extended_attention_mask_other_rank; lia.
  - reflexivity.
Qed.

Lemma get_extended_attention_mask_shape_and_values_witness :
  (exists ext,
     get_extended_attention_mask example_mask2 [1; 2] = Ok ext /\
     shape ext = [1; 1; 1; 2] /\
     forall b l,
       (item example_mask2 [b; l] = Some 1%Z ->
        item ext [b; 0; 0; l] = Some half_neg_zero) /\
       (item example_mask2 [b; l] = Some 0%Z ->
        item ext [b; 0; 0; l] = Some finfo_min_half)) /\
  (exists ext,
     get_extended_attention_mask example_mask3 [1; 2] = Ok ext /\
     shape ext = [1; 1; 2; 2] /\
     forall b i l,
       (item example_mask3 [b; i; l] = Some 1%Z ->
        item ext [b; 0; i; l] = Some half_neg_zero) /\
       (item example_mask3 [b; i; l] = Some 0%Z ->
        item ext [b; 0; i; l] = Some finfo_min_half)).
Proof.
  split.
  - apply (proj1 (get_extended_attention_mask_shape_and_values
                    example_mask2 [1; 2] 1 2)).
    reflexivity.
  - apply (proj1 (proj2 (get_extended_attention_mask_shape_and_values
                           example_mask3 [1; 2] 1 2))).
    reflexivity.
Defined.

Lemma get_extended_attention_mask_bad_rank_witness :
  exists e,
    get_extended_attention_mask (mkTensor [3] [1; 1; 0]%Z) [3] = Err e /\
    is_ValueError e = true.
Proof.
  apply (get_extended_attention_mask_bad_rank (mkTensor [3] [1; 1; 0]%Z) [3]).
  left. reflexivity.
Defined.

(* ===================================================================== *)
(** * Construction                                                         *)
(* ===================================================================== *)

Section ConstructionFacts.

Variable XLMRobertaModelHF : XLMRobertaConfig -> result XLMRobertaModelHF_obj.

Lemma init_quantized (cfg : XLMRobertaConfig) (m : LinearMethodBase)
    (lora : option LoRAConfig) :
  isinstance_UnquantizedLinearMethod m = false ->
  exists msg,
    __init__ XLMRobertaModelHF cfg (Some m) lora
    = ([EvSuperInit], Err (NotImplementedError msg)).
Proof.
  intros Hm. unfold __init__. rewrite Hm. cbn. eexists. reflexivity.
Qed.

Lemma init_lora (cfg : XLMRobertaConfig) (lm : option LinearMethodBase)
    (lora : LoRAConfig) :
  exists msg,
    __init__ XLMRobertaModelHF cfg lm (Some lora)
    = ([EvSuperInit], Err (NotImplementedError msg)).
Proof.
  unfold __init__.
  destruct lm as [[|scheme]|]; cbn; eexists; reflexivity.
Qed.

End ConstructionFacts.

(** C6. When the linear method is given and is not the unquantized one,
    construction raises [NotImplementedError], and no sub-module has been
    built by then, whatever the external constructor, the configuration and
    the adapter configuration are. *)
Theorem init_rejects_quantization :
  forall (XLMRobertaModelHF : XLMRobertaConfig -> result XLMRobertaModelHF_obj)
         (cfg : XLMRobertaConfig) (m : LinearMethodBase) (lora : option LoRAConfig),
    isinstance_UnquantizedLinearMethod m = false ->
    exists events e,
      __init__ XLMRobertaModelHF cfg (Some m) lora = (events, Err e) /\
      is_NotImplementedError e = true /\
      existsb builds_sub_modules events = false.
Proof.
  intros ctor cfg m lora Hm.
  destruct (init_quantized ctor cfg m lora Hm) as [msg ->].
  eexists _, _. split; [reflexivity|]. split; reflexivity.
Qed.

Lemma init_rejects_quantization_witness :
  exists events e,
    __init__ (fun _ => Ok example_hf_model) (example_config "BAAI/bge-m3")
             (Some (QuantizedLinearMethod "awq")) None = (events, Err e) /\
    is_NotImplementedError e = true /\
    existsb builds_sub_modules events = false.
Proof.
  apply (init_rejects_quantization (fun _ => Ok example_hf_model)
           (example_config "BAAI/bge-m3") (QuantizedLinearMethod "awq") None).
  reflexivity.
Defined.

(** C7. Whenever an adapter (LoRA) configuration is given, construction raises
    [NotImplementedError], whatever the adapter configuration holds and
    whatever the other arguments are. *)
Theorem init_rejects_lora :
  forall (XLMRobertaModelHF : XLMRobertaConfig -> result XLMRobertaModelHF_obj)
         (cfg : XLMRobertaConfig) (lm : option LinearMethodBase) (lora : LoRAConfig),
    exists events e,
      __init__ XLMRobertaModelHF cfg lm (Some lora) = (events, Err e) /\
      is_NotImplementedError e = true.
Proof.
  intros ctor cfg lm lora.
  destruct (init_lora ctor cfg lm lora) as [msg ->].
  eexists _, _. split; reflexivity.
Qed.

(** Construction goes through when neither is requested: the rejections
    above do not come from a constructor that always fails. *)
Lemma init_accepts_plain (ctor : XLMRobertaConfig -> result XLMRobertaModelHF_obj)
    (cfg : XLMRobertaConfig) (hf : XLMRobertaModelHF_obj) :
  ctor cfg = Ok hf ->
  forall lm, lm = None \/ lm = Some UnquantizedLinearMethod ->
  exists self,
    __init__ ctor cfg lm None = ([EvSuperInit; EvBuildSubModules cfg], Ok self) /\
    config self = cfg /\ embeddings self = hf_embeddings hf /\
    encoder self = hf_encoder hf /\ pooler self = hf_pooler hf.
Proof.
  intros Hc lm [-> | ->]; unfold __init__; cbn; rewrite Hc;
    eexists; repeat split; reflexivity.
Qed.

(* ===================================================================== *)
(** * Sampling hook                                                        *)
(* ===================================================================== *)

(** C9. [sample] returns the hidden states it is given, unchanged, for every
    sampling metadata. *)
Theorem sample_identity :
  forall (SamplingMetadata : Type) (hidden_states : Tensor R)
         (sampling_metadata : SamplingMetadata),
    sample hidden_states sampling_metadata = hidden_states.
Proof. intros. reflexivity. Qed.

(* ===================================================================== *)
(** * Weight loading                                                       *)
(* ===================================================================== *)

Section LoadingFacts.

Implicit Types (store : params) (weights : list (string * Tensor R)).

Lemma loadable_insert store name (p : Tensor R) (d : list R) nw :
  store !! name = Some p ->
  loadable store nw ->
  loadable (<[name := mkTensor (shape p) d]> store) nw.
Proof.
  intros Hp [q [Hq Hs]]. unfold loadable.
  destruct (decide (name = nw.1)) as [Heq|Hne].
  - rewrite <- Heq in *. rewrite lookup_insert_eq.
    eexists; split; [reflexivity|].
    cbn. rewrite Hp in Hq. injection Hq as ->. exact Hs.
  - rewrite lookup_insert_ne by assumption. eauto.
Qed.

Lemma copy_all_cons store name (w : Tensor R) weights (p : Tensor R) :
  store !! name = Some p ->
  copy_all ((name, w) :: weights) store
  = copy_all weights (<[name := mkTensor (shape p) (data w)]> store).
Proof. intros Hp. unfold copy_all; cbn. rewrite Hp. reflexivity. Qed.

Lemma copy_all_cons_None store name (w : Tensor R) weights :
  store !! name = None ->
  copy_all ((name, w) :: weights) store = copy_all weights store.
Proof. intros Hp. unfold copy_all; cbn. rewrite Hp. reflexivity. Qed.

(** A loadable prefix is copied, and the loop goes on with what follows. *)
Lemma load_weights_loop_prefix pre : forall store rest,
  Forall (loadable store) pre ->
  load_weights_loop (pre ++ rest) store = load_weights_loop rest (copy_all pre store).
Proof.
  induction pre as [|[name w] pre IH]; intros store rest Hall.
  - reflexivity.
  - apply Forall_cons in Hall as [[p [Hp Hs]] Hall]. cbn in Hp, Hs.
    rewrite (copy_all_cons _ _ _ _ _ Hp).
    cbn [app load_weights_loop]. rewrite Hp.
    unfold default_weight_loader. rewrite bool_decide_eq_true_2 by assumption.
    apply IH. eapply Forall_impl; [exact Hall|].
    intros nw. apply loadable_insert. assumption.
Qed.

(** Copying touches no name outside the source. *)
Lemma copy_all_other pre : forall store k,
  k ∉ pre.*1 -> copy_all pre store !! k = store !! k.
Proof.
  induction pre as [|[name w] pre IH]; intros store k Hk.
  - reflexivity.
  - cbn in Hk. apply not_elem_of_cons in Hk as [Hne Hk].
    destruct (store !! name) as [p|] eqn:Hp.
    + rewrite (copy_all_cons _ _ _ _ _ Hp).
      rewrite IH by assumption. apply lookup_insert_ne. congruence.
    + rewrite (copy_all_cons_None _ _ _ _ Hp). apply IH. assumption.
Qed.

(** Copying neither adds nor removes a name. *)
Lemma copy_all_None pre : forall store k,
  store !! k = None -> copy_all pre store !! k = None.
Proof.
  induction pre as [|[name w] pre IH]; intros store k Hk.
  - assumption.
  - destruct (store !! name) as [p|] eqn:Hp.
    + rewrite (copy_all_cons _ _ _ _ _ Hp).
      apply IH. rewrite lookup_insert_ne; [assumption|congruence].
    + rewrite (copy_all_cons_None _ _ _ _ Hp). apply IH. assumption.
Qed.

(** The last pair of a loadable source for a name decides the parameter. *)
Lemma copy_all_last pre : forall store i k (v : Tensor R),
  Forall (loadable store) pre ->
  pre !! i = Some (k, v) ->
  (forall j v', i < j -> pre !! j <> Some (k, v')) ->
  copy_all pre store !! k = Some (mkTensor (shape v) (data v)).
Proof.
  induction pre as [|[name w] pre IH]; intros store i k v Hall Hi Hlast.
  - discriminate.
  - apply Forall_cons in Hall as [[p [Hp Hs]] Hall]. cbn in Hp, Hs.
    rewrite (copy_all_cons _ _ _ _ _ Hp).
    assert (Hall' : Forall (loadable (<[name := mkTensor (shape p) (data w)]> store)) pre).
    { eapply Forall_impl; [exact Hall|]. intros nw. apply loadable_insert. assumption. }
    destruct i as [|i]; cbn in Hi.
    + injection Hi as -> ->.
      rewrite copy_all_other.
      * rewrite lookup_insert_eq, Hs. reflexivity.
      * intros Hin. apply list_elem_of_fmap in Hin as [[k' v'] [Hk Hin]].
        cbn in Hk. subst k'.
        apply list_elem_of_lookup in Hin as [j Hj].
        apply (Hlast (S j) v'); [lia|exact Hj].
    + apply (IH _ i); [exact Hall'|exact Hi|].
      intros j v' Hlt. apply (Hlast (S j) v'). lia.
Qed.

End LoadingFacts.

(** C2, as the code has it.  When the weight source yields a pair whose name
    is no parameter of the model, and every pair before it loads (its name is
    a parameter and the shapes agree), [load_weights] raises [KeyError] for
    that name; the parameters of the object after the call hold the data of
    the pairs yielded before (for each name the last such pair), and every
    other parameter is as before: nothing is rolled back. *)
Theorem load_weights_missing_name :
  forall (hf_model_weights_iterator :
            string -> option string -> string -> option string ->
            list (string * Tensor R))
         (self : XLMRobertaModel) (model_name_or_path : string)
         (cache_dir : option string) (load_format : string)
         (revision : option string)
         (pre post : list (string * Tensor R)) (name : string) (w : Tensor R),
    hf_model_weights_iterator model_name_or_path cache_dir load_format revision
    = pre ++ (name, w) :: post ->
    named_parameters self !! name = None ->
    Forall (loadable (named_parameters self)) pre ->
    exists self',
      load_weights hf_model_weights_iterator self model_name_or_path cache_dir
                   load_format revision
      = (self', Err (KeyError name)) /\
      (forall i k v,
         pre !! i = Some (k, v) ->
         (forall j v', i < j -> pre !! j <> Some (k, v')) ->
         named_parameters self' !! k = Some (mkTensor (shape v) (data v))) /\
      (forall k, k ∉ pre.*1 ->
         named_parameters self' !! k = named_parameters self !! k).
Proof.
  intros it self path cache fmt rev pre post name w Hsrc Hmiss Hall.
  unfold load_weights. rewrite Hsrc.
  rewrite (load_weights_loop_prefix pre _ _ Hall).
  cbn [load_weights_loop].
  rewrite (copy_all_None pre _ _ Hmiss).
  eexists. split; [reflexivity|]. cbn [named_parameters set_named_parameters].
  split.
  - intros i k v Hi Hlast. exact (copy_all_last pre _ i k v Hall Hi Hlast).
  - intros k Hk. apply copy_all_other. exact Hk.
Qed.

Lemma load_weights_missing_name_witness :
  exists self',
    load_weights (fun _ _ _ _ => example_partial_source)
                 (example_model "BAAI/bge-m3" example_store)
                 "BAAI/bge-m3" None "auto" None
    = (self', Err (KeyError "lm_head.bias")) /\
    (forall i k v,
       [("pooler.dense.bias", mkTensor [3] [1; 2; 3]%R)] !! i = Some (k, v) ->
       (forall j v', i < j ->
          [("pooler.dense.bias", mkTensor [3] [1; 2; 3]%R)] !! j <> Some (k, v')) ->
       named_parameters self' !! k = Some (mkTensor (shape v) (data v))) /\
    (forall k, k ∉ [("pooler.dense.bias", mkTensor [3] [1; 2; 3]%R)].*1 ->
       named_parameters self' !! k
       = named_parameters (example_model "BAAI/bge-m3" example_store) !! k).
Proof.
  apply (load_weights_missing_name (fun _ _ _ _ => example_partial_source)
           (example_model "BAAI/bge-m3" example_store)
           "BAAI/bge-m3" None "auto" None
           [("pooler.dense.bias", mkTensor [3] [1; 2; 3]%R)]
           [] "lm_head.bias" (mkTensor [3] [1; 1; 1]%R)).
  - reflexivity.
  - apply lookup_singleton_ne. discriminate.
  - apply Forall_cons. split; [|constructor].
    exists (mkTensor [3] [0; 0; 0]%R). split; [|reflexivity].
    apply lookup_singleton_eq.
Defined.

(** The partial load is observable: after the failed call the parameter holds
    the data copied before the failure. *)
Lemma load_weights_partial_observable :
  let r := load_weights (fun _ _ _ _ => example_partial_source)
                        (example_model "BAAI/bge-m3" example_store)
                        "BAAI/bge-m3" None "auto" None in
  r.2 = Err (KeyError "lm_head.bias") /\
  named_parameters r.1 !! "pooler.dense.bias" = Some (mkTensor [3] [1; 2; 3]%R).
Proof.
  cbv zeta. unfold load_weights, example_partial_source.
  cbn [named_parameters example_model load_weights_loop].
  unfold example_store. rewrite lookup_singleton_eq.
  unfold default_weight_loader. cbn [shape data].
  rewrite bool_decide_eq_true_2 by reflexivity.
  rewrite lookup_insert_ne by discriminate.
  rewrite lookup_singleton_ne by discriminate.
  cbn. split; [reflexivity|]. apply lookup_insert_eq.
Qed.

(** C2, as stated, fails: a source can yield a pair with an absent name and
    yet the load ends in another error, when an earlier pair has the wrong
    shape; the lookup of the absent name is then never reached. *)
Lemma load_weights_shape_error_first :
  (exists name w,
     (name, w) ∈ example_bad_source /\ example_store !! name = None) /\
  (load_weights (fun _ _ _ _ => example_bad_source)
                (example_model "BAAI/bge-m3" example_store)
                "BAAI/bge-m3" None "auto" None).2
  = Err AssertionError /\
  (forall key, Err AssertionError <> @Err unit (KeyError key)).
Proof.
  split; [|split].
  - exists "lm_head.bias", (mkTensor [3] [1; 1; 1]%R). split.
    + unfold example_bad_source. apply list_elem_of_further, list_elem_of_here.
    + apply lookup_singleton_ne. discriminate.
  - unfold load_weights, example_bad_source.
    cbn [named_parameters example_model load_weights_loop].
    unfold example_store. rewrite lookup_singleton_eq.
    unfold default_weight_loader. cbn [shape data].
    rewrite bool_decide_eq_false_2 by discriminate.
    reflexivity.
  - intros key. discriminate.
Qed.

(* ===================================================================== *)
(** * Forward inference: the body of the loop                              *)
(* ===================================================================== *)

Section TracedFacts.

Context {A B : Type}.

Lemma bind_lift_Ok (a : A) (k : A -> traced B) : bind (lift (Ok a)) k = k a.
Proof. cbn. unfold traced_bind. cbn. destruct (k a); reflexivity. Qed.

Lemma bind_lift_Err (e : exn) (k : A -> traced B) :
  bind (lift (Err e)) k = Traced [] (Err e).
Proof. reflexivity. Qed.

Lemma bind_tell (c : ChunkLog) (k : unit -> traced B) :
  bind (tell c) k = Traced (c :: trace (k tt)) (outcome (k tt)).
Proof. reflexivity. Qed.

Lemma trace_bind (c : traced A) (k : A -> traced B) :
  trace (bind c k)
  = trace c ++ match outcome c with Ok a => trace (k a) | Err _ => [] end.
Proof.
  cbn. unfold traced_bind. destruct (outcome c); cbn; [reflexivity|].
  symmetry. apply app_nil_r.
Qed.

Lemma outcome_bind (c : traced A) (k : A -> traced B) :
  outcome (bind c k)
  = match outcome c with Ok a => outcome (k a) | Err e => Err e end.
Proof. cbn. unfold traced_bind. destruct (outcome c); reflexivity. Qed.

End TracedFacts.

(** One step through a call that may raise: either it raised, and the goal is
    about a computation that stopped with an empty log, or it returned. *)
Ltac lift_step H :=
  match goal with
  | |- context [bind (lift ?r) _] =>
      destruct r eqn:H;
      [ rewrite bind_lift_Ok
      | rewrite bind_lift_Err; split; [reflexivity | intros; discriminate] ]
  end.

Section BodyFacts.

Variable self : XLMRobertaModel.
Variable input_ids : Tensor Z.
Variable input_metadata : InputMetadata.

Let body := forward_body self input_ids input_metadata.

(** The three ways the body can stop before it settles the attention mask,
    and what it does once the mask is settled: one log entry, with the mask
    computed from the slot mapping, and, when the body completes, the new
    [batch_size] and one more element of [tensor_list]. *)
Lemma forward_body_spec (s bs : nat) (tl : list PyObject) :
  match getitem_rows input_ids s (s + bs) with
  | Err e => body s (bs, tl) = Traced [] (Err e)
  | Ok ids =>
      match getitem_rows (slot_mapping input_metadata) s (s + bs) with
      | Err e => body s (bs, tl) = Traced [] (Err e)
      | Ok slots =>
          match unpack2 (shape ids) with
          | Err e => body s (bs, tl) = Traced [] (Err e)
          | Ok (b, l) =>
              trace (body s (bs, tl)) = [chunk_log s ids slots] /\
              forall bs' tl',
                outcome (body s (bs, tl)) = Ok (bs', tl') ->
                bs' = b /\
                exists out, tl' = tl ++ [out] /\
                            appended self ids (int (ne slots (-1))) out
          end
      end
  end.
Proof.
  unfold body, forward_body.
  destruct (getitem_rows input_ids s (s + bs)) as [ids|e];
    [rewrite bind_lift_Ok | reflexivity].
  destruct (getitem_rows (slot_mapping input_metadata) s (s + bs)) as [slots|e];
    [rewrite bind_lift_Ok | reflexivity].
  destruct (unpack2 (shape ids)) as [[b l]|e];
    [rewrite bind_lift_Ok | reflexivity].
  rewrite bind_tell. cbn [trace outcome]. fold (chunk_log s ids slots).
  match goal with
  | |- (_ :: trace ?T = _) /\ _ =>
      cut (trace T = [] /\
           forall bs' tl', outcome T = Ok (bs', tl') ->
             bs' = b /\ exists out, tl' = tl ++ [out] /\
                                    appended self ids (int (ne slots (-1))) out)
  end.
  { intros [-> H]. split; [reflexivity | exact H]. }
  lift_step Htti. lift_step Hext. lift_step Hhead. lift_step Hemb.
  lift_step Henc. lift_step Hpool. lift_step Hpkv. lift_step Hhs.
  lift_step Hatt. lift_step Hcross.
  destruct (String.eqb (name_or_path (config self)) "BAAI/bge-m3") eqn:Hname.
  - lift_step Hdense. cbn [ret traced_monad trace outcome].
    split; [reflexivity|]. intros bs' tl' Heq. injection Heq as <- <-.
    split; [reflexivity|]. eexists. split; [reflexivity|].
    eapply appended_dense; eauto.
  - cbn [ret traced_monad trace outcome].
    split; [reflexivity|]. intros bs' tl' Heq. injection Heq as <- <-.
    split; [reflexivity|]. eexists. split; [reflexivity|].
    eapply appended_raw; eauto.
Qed.

End BodyFacts.

(* ===================================================================== *)
(** * Forward inference: the loop                                          *)
(* ===================================================================== *)

Section RangeFacts.

Lemma range_fuel_lookup (fuel : nat) : forall s n step i x,
  range_fuel fuel s n step !! i = Some x -> x = s + i * step /\ x < n.
Proof.
  induction fuel as [|fuel IH]; intros s n step i x Hx;
    cbn [range_fuel] in Hx; [rewrite lookup_nil in Hx; discriminate|].
  destruct (s <? n) eqn:Hlt; [|rewrite lookup_nil in Hx; discriminate].
  apply Nat.ltb_lt in Hlt.
  destruct i as [|i]; cbn in Hx.
  - injection Hx as <-. lia.
  - apply IH in Hx. lia.
Qed.

Lemma range_fuel_length (fuel : nat) : forall s n,
  n - s <= fuel -> length (range_fuel fuel s n 12) = (n - s + 11) / 12.
Proof.
  induction fuel as [|fuel IH]; intros s n Hf.
  - cbn [range_fuel length]. replace (n - s) with 0 by lia. reflexivity.
  - cbn [range_fuel]. destruct (s <? n) eqn:Hlt.
    + apply Nat.ltb_lt in Hlt. cbn [length]. rewrite IH by lia.
      destruct (le_lt_dec 12 (n - s)) as [Hge|Hsmall].
      * replace (n - s + 11) with (n - (s + 12) + 11 + 1 * 12) by lia.
        rewrite Nat.div_add by lia. lia.
      * replace (n - (s + 12)) with 0 by lia.
        rewrite (Nat.div_small (0 + 11)) by lia.
        apply (Nat.div_unique _ 12 1 (n - s - 1)); lia.
    + apply Nat.ltb_ge in Hlt. cbn [length]. replace (n - s) with 0 by lia.
      reflexivity.
Qed.

End RangeFacts.

Section LoopFacts.

Variable self : XLMRobertaModel.
Variable input_ids : Tensor Z.
Variable input_metadata : InputMetadata.

Let body := forward_body self input_ids input_metadata.

Lemma for_each_nil {S} (f : nat -> S -> traced S) (st : S) :
  for_each f [] st = Traced [] (Ok st).
Proof. reflexivity. Qed.

Lemma for_each_cons {S} (f : nat -> S -> traced S) (i : nat) (l : list nat) (st : S) :
  for_each f (i :: l) st = bind (f i st) (fun st' => for_each f l st').
Proof. reflexivity. Qed.

(** Whatever holds of the log entries of each run of the body holds of the
    log of the loop. *)
Lemma for_each_trace_Forall {S} (f : nat -> S -> traced S) (P : ChunkLog -> Prop) :
  (forall i st, Forall P (trace (f i st))) ->
  forall l st, Forall P (trace (for_each f l st)).
Proof.
  intros Hf l. induction l as [|i l IH]; intros st.
  - constructor.
  - rewrite for_each_cons, trace_bind. apply Forall_app. split; [apply Hf|].
    destruct (outcome (f i st)); [apply IH | constructor].
Qed.

(** The slice of [forward]'s first two steps on a two-dimensional tensor. *)
Lemma getitem_rows_shape {A} (t : Tensor A) (n L s stop : nat) :
  shape t = [n; L] ->
  exists c, getitem_rows t s stop = Ok c /\
            shape c = [Nat.max (Nat.min s n) (Nat.min stop n) - Nat.min s n; L].
Proof.
  intros Hs. unfold getitem_rows. rewrite Hs. eexists. split; reflexivity.
Qed.

(** A completed run of the loop from start index [s], entered with
    [batch_size = 12]: every start index of the range has its log entry,
    whose slice of the ids is the chunk of twelve rows at that index, and
    its element of [tensor_list]. *)
Lemma for_each_body_chunks (n L : nat) :
  shape input_ids = [n; L] ->
  forall fuel s bs tl bs' tl',
    (s < n -> bs = 12) ->
    outcome (for_each body (range_fuel fuel s n 12) (bs, tl)) = Ok (bs', tl') ->
    exists outs,
      tl' = tl ++ outs /\
      Forall2 (fun c st => log_start_index c = st /\
                           chunk_at input_ids st = Ok (log_ids c))
              (trace (for_each body (range_fuel fuel s n 12) (bs, tl)))
              (range_fuel fuel s n 12) /\
      Forall2 (fun c out => appended self (log_ids c) (log_attention_mask c) out)
              (trace (for_each body (range_fuel fuel s n 12) (bs, tl)))
              outs.
Proof.
  intros Hshape fuel. induction fuel as [|fuel IH]; intros s bs tl bs' tl' Hbs Hok.
  - cbn [range_fuel] in *. rewrite for_each_nil in *. cbn [outcome trace] in *.
    injection Hok as <- <-.
    exists []. rewrite app_nil_r. repeat split; constructor.
  - cbn [range_fuel] in *. destruct (s <? n) eqn:Hlt.
    2:{ rewrite for_each_nil in *. cbn [outcome trace] in *.
        injection Hok as <- <-.
        exists []. rewrite app_nil_r. repeat split; constructor. }
    apply Nat.ltb_lt in Hlt. rewrite (Hbs Hlt) in *.
    rewrite for_each_cons in *. rewrite outcome_bind in Hok. rewrite trace_bind.
    pose proof (forward_body_spec self input_ids input_metadata s 12 tl) as Hb.
    fold body in Hb.
    destruct (getitem_rows_shape input_ids n L s (s + 12) Hshape) as [ids [Hids Hsh]].
    rewrite Hids in Hb.
    destruct (getitem_rows (slot_mapping input_metadata) s (s + 12)) as [slots|e];
      [|rewrite Hb in Hok; discriminate].
    rewrite Hsh in Hb. cbn [unpack2] in Hb. destruct Hb as [Htr Hout].
    destruct (outcome (body s (12, tl))) as [[b1 tl1]|e] eqn:Ho; [|discriminate].
    destruct (Hout b1 tl1 eq_refl) as [Hb1 [out [-> Happ]]].
    destruct (IH (s + 12) b1 (tl ++ [out]) bs' tl') as [outs [-> [Hst Hap]]];
      [lia | exact Hok |].
    exists (out :: outs). rewrite <- app_assoc. split; [reflexivity|].
    rewrite Htr. cbn [app]. split.
    + constructor; [|exact Hst]. split; [reflexivity|]. exact Hids.
    + constructor; [|exact Hap]. exact Happ.
Qed.

Lemma forward_loop_unfold (n : nat) (rest : list nat) :
  shape input_ids = n :: rest ->
  forward_loop self input_ids input_metadata
  = for_each body (range_fuel n 0 n 12) (12, []).
Proof.
  intros Hs. unfold forward_loop, shape0. rewrite Hs, bind_lift_Ok.
  unfold range. cbn [Nat.eqb]. rewrite bind_lift_Ok. reflexivity.
Qed.

(** Any run of the loop, completed or stopped by an exception: its log
    entries are, in order, the chunks at the first start indices of the
    range. *)
Lemma for_each_body_chunks_prefix (n L : nat) :
  shape input_ids = [n; L] ->
  forall fuel s bs tl,
    (s < n -> bs = 12) ->
    exists k,
      Forall2 (fun c st => log_start_index c = st /\
                           chunk_at input_ids st = Ok (log_ids c))
              (trace (for_each body (range_fuel fuel s n 12) (bs, tl)))
              (take k (range_fuel fuel s n 12)).
Proof.
  intros Hshape fuel. induction fuel as [|fuel IH]; intros s bs tl Hbs.
  - exists 0. cbn [range_fuel]. rewrite for_each_nil. constructor.
  - cbn [range_fuel]. destruct (s <? n) eqn:Hlt.
    2:{ exists 0. rewrite for_each_nil. constructor. }
    apply Nat.ltb_lt in Hlt. rewrite (Hbs Hlt).
    rewrite for_each_cons, trace_bind.
    pose proof (forward_body_spec self input_ids input_metadata s 12 tl) as Hb.
    fold body in Hb.
    destruct (getitem_rows_shape input_ids n L s (s + 12) Hshape) as [ids [Hids Hsh]].
    rewrite Hids in Hb.
    destruct (getitem_rows (slot_mapping input_metadata) s (s + 12)) as [slots|e].
    2:{ exists 0. rewrite Hb. constructor. }
    rewrite Hsh in Hb. cbn [unpack2] in Hb. destruct Hb as [Htr Hout].
    rewrite Htr.
    destruct (outcome (body s (12, tl))) as [[b1 tl1]|e] eqn:Ho.
    + destruct (Hout b1 tl1 eq_refl) as [Hb1 _].
      destruct (IH (s + 12) b1 tl1) as [k Hk]; [lia|].
      exists (S k). cbn [take app]. constructor; [|exact Hk].
      split; [reflexivity | exact Hids].
    + exists 1. cbn [take app]. rewrite take_0.
      constructor; [|constructor]. split; [reflexivity | exact Hids].
Qed.

End LoopFacts.

(* ===================================================================== *)
(** * Forward inference: the attention mask                                *)
(* ===================================================================== *)

Section MaskFacts.

Variable self : XLMRobertaModel.
Variable input_ids : Tensor Z.
Variable positions : Tensor Z.
Variable kv_caches : list KVCache.
Variable input_metadata : InputMetadata.

Lemma int_ne_entries (slots : Tensor Z) :
  Forall (fun z => z = 0%Z \/ z = 1%Z) (data (int (ne slots (-1)))).
Proof.
  unfold int, ne, tensor_map. cbn [data]. rewrite map_map.
  apply Forall_forall. intros z Hz.
  apply list_elem_of_fmap in Hz as [x [-> _]].
  destruct (Z.eqb x (-1)); cbn; auto.
Qed.

Lemma int_ne_item (slots : Tensor Z) (idx : list nat) (z : Z) :
  item slots idx = Some z ->
  item (int (ne slots (-1))) idx = Some (if Z.eqb z (-1) then 0%Z else 1%Z).
Proof.
  intros Hz. unfold int, ne. rewrite !item_tensor_map, Hz. cbn.
  destruct (Z.eqb z (-1)); reflexivity.
Qed.

Lemma chunk_log_mask_from_slots (s stop : nat) (ids slots : Tensor Z) :
  getitem_rows (slot_mapping input_metadata) s stop = Ok slots ->
  mask_from_slots input_metadata (chunk_log s ids slots).
Proof.
  intros Hs. unfold mask_from_slots, chunk_log. cbn.
  split; [reflexivity|]. split; [reflexivity|]. split; [eauto|].
  split; [apply int_ne_entries | apply int_ne_item].
Qed.

Lemma forward_body_mask_from_slots (s : nat) (st : nat * list PyObject) :
  Forall (mask_from_slots input_metadata)
         (trace (forward_body self input_ids input_metadata s st)).
Proof.
  destruct st as [bs tl].
  pose proof (forward_body_spec self input_ids input_metadata s bs tl) as Hb.
  destruct (getitem_rows input_ids s (s + bs)) as [ids|e];
    [|rewrite Hb; constructor].
  destruct (getitem_rows (slot_mapping input_metadata) s (s + bs))
    as [slots|e] eqn:Hslots; [|rewrite Hb; constructor].
  destruct (unpack2 (shape ids)) as [[b l]|e]; [|rewrite Hb; constructor].
  destruct Hb as [-> _]. constructor; [|constructor].
  eapply chunk_log_mask_from_slots. exact Hslots.
Qed.

Lemma forward_loop_mask_from_slots :
  Forall (mask_from_slots input_metadata)
         (trace (forward_loop self input_ids input_metadata)).
Proof.
  unfold forward_loop.
  destruct (shape0 input_ids) as [n|e];
    [rewrite bind_lift_Ok | rewrite bind_lift_Err; constructor].
  destruct (range 0 n 12) as [starts|e];
    [rewrite bind_lift_Ok | rewrite bind_lift_Err; constructor].
  apply for_each_trace_Forall. apply forward_body_mask_from_slots.
Qed.

Lemma forward_trace :
  trace (forward self input_ids positions kv_caches input_metadata)
  = trace (forward_loop self input_ids input_metadata).
Proof.
  unfold forward. rewrite trace_bind.
  destruct (outcome (forward_loop self input_ids input_metadata)) as [[bs tl]|e];
    cbn [lift trace]; apply app_nil_r.
Qed.

End MaskFacts.


(* ===================================================================== *)
(** * Forward inference: the chunks                                        *)
(* ===================================================================== *)

Section ChunkFacts.

Context {A : Type}.
Variable t : Tensor A.
Variables n L : nat.
Hypothesis Hshape : shape t = [n; L].

Lemma chunk_at_inv (s : nat) (c : Tensor A) :
  chunk_at t s = Ok c ->
  s < n ->
  shape c = [Nat.min 12 (n - s); L] /\
  data c = take (Nat.min 12 (n - s) * numel [L]) (drop (s * numel [L]) (data t)).
Proof.
  unfold chunk_at, getitem_rows. rewrite Hshape. intros Hc Hlt.
  injection Hc as <-. cbn [shape data].
  replace (Nat.max (Nat.min s n) (Nat.min (s + 12) n) - Nat.min s n)
    with (Nat.min 12 (n - s)) by lia.
  replace (Nat.min s n) with s by lia.
  split; reflexivity.
Qed.

(** The chunks at the start indices of the range, one after the other, are
    the rows from the first start index on. *)
Lemma chunks_concat (fuel : nat) : forall s (cs : list (Tensor A)),
  n - s <= fuel ->
  Forall2 (fun c st => chunk_at t st = Ok c) cs (range_fuel fuel s n 12) ->
  concat (map data cs)
  = drop (s * numel [L]) (take (n * numel [L]) (data t)).
Proof.
  set (w := numel [L]).
  induction fuel as [|fuel IH]; intros s cs Hf Hcs; cbn [range_fuel] in Hcs.
  - apply Forall2_nil_inv_r in Hcs as ->. cbn.
    symmetry. apply drop_ge. rewrite length_take. nia.
  - destruct (s <? n) eqn:Hlt.
    + apply Nat.ltb_lt in Hlt.
      apply Forall2_cons_inv_r in Hcs as [c [cs' [Hc [Hcs' ->]]]].
      destruct (chunk_at_inv s c Hc Hlt) as [_ Hd]. fold w in Hd.
      cbn [map concat]. rewrite (IH (s + 12) cs') by (lia || assumption).
      rewrite Hd.
      destruct (le_lt_dec (s + 12) n) as [Hge|Hsmall].
      * replace (Nat.min 12 (n - s)) with 12 by lia.
        rewrite <- (take_drop (12 * w) (drop (s * w) (take (n * w) (data t)))).
        rewrite drop_drop. replace (s * w + 12 * w) with ((s + 12) * w) by lia.
        f_equal. rewrite !take_drop_commute, take_take. f_equal. f_equal. nia.
      * replace (Nat.min 12 (n - s)) with (n - s) by lia.
        rewrite (drop_ge (take (n * w) (data t)) ((s + 12) * w))
          by (rewrite length_take; nia).
        rewrite app_nil_r, take_drop_commute. f_equal. f_equal. nia.
    + apply Nat.ltb_ge in Hlt. apply Forall2_nil_inv_r in Hcs as ->. cbn.
      symmetry. apply drop_ge. rewrite length_take. nia.
Qed.

End ChunkFacts.

(** C5. On an input of shape (n, L), the loop of [forward] goes through the
    chunks of twelve rows at 0, 12, 24, ... in order: in every run, chunk [i]
    is [input_ids[12*i : 12*i + 12, :]], of [min 12 (n - 12*i)] rows.  In a
    run of the loop that completes, each chunk has its element in
    [tensor_list]; if 12 divides n there are n / 12 chunks, all of twelve
    rows; otherwise there are n / 12 + 1 and the last has n mod 12 rows; and
    together the chunks hold the rows of the input, in order. *)
Theorem forward_chunks_of_twelve :
  forall (self : XLMRobertaModel) (input_ids : Tensor Z)
         (input_metadata : InputMetadata) (n L : nat),
    shape input_ids = [n; L] ->
    let chunks := map log_ids (trace (forward_loop self input_ids input_metadata)) in
    (forall i c, chunks !! i = Some c ->
       chunk_at input_ids (12 * i) = Ok c /\
       shape c = [Nat.min 12 (n - 12 * i); L]) /\
    (forall bs' tl',
       outcome (forward_loop self input_ids input_metadata) = Ok (bs', tl') ->
       length tl' = length chunks /\
       (n mod 12 = 0 ->
          length chunks = n / 12 /\ Forall (fun c => shape c = [12; L]) chunks) /\
       (n mod 12 <> 0 ->
          length chunks = S (n / 12) /\
          exists c, last chunks = Some c /\ shape c = [n mod 12; L]) /\
       (wf input_ids -> concat (map data chunks) = data input_ids)).
Proof.
  intros self input_ids meta n L Hshape chunks.
  subst chunks. rewrite (forward_loop_unfold self input_ids meta n [L] Hshape).
  set (tr := trace (for_each (forward_body self input_ids meta)
                             (range_fuel n 0 n 12) (12, []))).
  assert (Hchunk : forall i c, map log_ids tr !! i = Some c ->
            12 * i < n /\ chunk_at input_ids (12 * i) = Ok c /\
            shape c = [Nat.min 12 (n - 12 * i); L]).
  { destruct (for_each_body_chunks_prefix self input_ids meta n L Hshape
                n 0 12 [] (fun _ => eq_refl)) as [k Hk]. fold tr in Hk.
    intros i c Hi. rewrite list_lookup_fmap in Hi.
    destruct (tr !! i) as [cl|] eqn:Hcl; [|discriminate]. injection Hi as <-.
    destruct (Forall2_lookup_l _ _ _ _ _ Hk Hcl) as [st [Hsti [_ Hc]]].
    apply lookup_take_Some in Hsti as [Hsti _].
    apply range_fuel_lookup in Hsti as [-> Hlt].
    replace (12 * i) with (0 + i * 12) by lia.
    split; [exact Hlt|]. split; [exact Hc|].
    apply (chunk_at_inv input_ids n L Hshape _ _ Hc Hlt). }
  split; [intros i c Hi; apply Hchunk in Hi; tauto|].
  intros bs' tl' Hok.
  destruct (for_each_body_chunks self input_ids meta n L Hshape n 0 12 [] bs' tl'
              (fun _ => eq_refl) Hok) as [outs [-> [Hst Hap]]].
  fold tr in Hst, Hap.
  assert (Hlen : length (map log_ids tr) = (n + 11) / 12).
  { rewrite length_map, (Forall2_length _ _ _ Hst), range_fuel_length by lia.
    f_equal. lia. }
  pose proof (Nat.div_mod_eq n 12) as Hdm.
  pose proof (Nat.mod_upper_bound n 12 ltac:(lia)) as Hmod.
  split; [|split; [|split]].
  - rewrite length_map. cbn [app]. symmetry. exact (Forall2_length _ _ _ Hap).
  - intros H0.
    assert (Hn : (n + 11) / 12 = n / 12).
    { symmetry. apply (Nat.div_unique _ 12 _ 11); lia. }
    split; [congruence|].
    apply Forall_lookup. intros i c Hi.
    destruct (Hchunk i c Hi) as [Hlt [_ ->]].
    pose proof (lookup_lt_Some _ _ _ Hi) as Hil. rewrite Hlen, Hn in Hil.
    f_equal. nia.
  - intros H0.
    assert (Hn : (n + 11) / 12 = S (n / 12)).
    { symmetry. apply (Nat.div_unique _ 12 _ (n mod 12 - 1)); lia. }
    split; [congruence|].
    rewrite last_lookup, Hlen, Hn. cbn [Nat.pred].
    destruct (map log_ids tr !! (n / 12)) as [c|] eqn:Hc.
    + exists c. split; [reflexivity|].
      destruct (Hchunk _ c Hc) as [_ [_ ->]]. f_equal. lia.
    + apply lookup_ge_None in Hc. lia.
  - intros Hwf. unfold wf in Hwf. rewrite Hshape in Hwf.
    assert (Hcs : Forall2 (fun c st => chunk_at input_ids st = Ok c)
                          (map log_ids tr) (range_fuel n 0 n 12)).
    { apply Forall2_fmap_l. eapply Forall2_impl; [exact Hst|].
      cbn. intros ? ? [_ ?]. assumption. }
    rewrite (chunks_concat input_ids n L Hshape n 0 _ ltac:(lia) Hcs).
    cbn [Nat.mul drop]. apply take_ge. rewrite Hwf. cbn. lia.
Qed.

Lemma forward_chunks_of_twelve_witness :
  let chunks :=
    map log_ids (trace (forward_loop (example_model "xlm-roberta-base" ∅)
                                     example_input_ids example_input_metadata)) in
  (forall i c, chunks !! i = Some c ->
     chunk_at example_input_ids (12 * i) = Ok c /\
     shape c = [Nat.min 12 (13 - 12 * i); 1]) /\
  (forall bs' tl',
     outcome (forward_loop (example_model "xlm-roberta-base" ∅)
                           example_input_ids example_input_metadata)
     = Ok (bs', tl') ->
     length tl' = length chunks /\
     (13 mod 12 = 0 ->
        length chunks = 13 / 12 /\ Forall (fun c => shape c = [12; 1]) chunks) /\
     (13 mod 12 <> 0 ->
        length chunks = S (13 / 12) /\
        exists c, last chunks = Some c /\ shape c = [13 mod 12; 1]) /\
     (wf example_input_ids -> concat (map data chunks) = data example_input_ids)) /\
  is_ok (outcome (forward_loop (example_model "xlm-roberta-base" ∅)
                               example_input_ids example_input_metadata)) = true.
Proof.
  split; [|split].
  - apply (forward_chunks_of_twelve (example_model "xlm-roberta-base" ∅)
             example_input_ids example_input_metadata 13 1). reflexivity.
  - apply (forward_chunks_of_twelve (example_model "xlm-roberta-base" ∅)
             example_input_ids example_input_metadata 13 1). reflexivity.
  - reflexivity.
Defined.

(* ===================================================================== *)
(** * Forward inference: the concatenation                                 *)
(* ===================================================================== *)

Section ConcatFacts.

Variable self : XLMRobertaModel.
Variable input_ids : Tensor Z.
Variable input_metadata : InputMetadata.

Let body := forward_body self input_ids input_metadata.

(** The loop cannot complete on an input that is not two-dimensional, unless
    the input has no row. *)
Lemma forward_loop_needs_rank2 (n : nat) (rest : list nat) (st : nat * list PyObject) :
  shape input_ids = n :: rest ->
  1 <= n ->
  outcome (forward_loop self input_ids input_metadata) = Ok st ->
  exists L, rest = [L].
Proof.
  intros Hs Hn Hok. rewrite (forward_loop_unfold self input_ids input_metadata n rest Hs) in Hok.
  destruct n as [|n]; [lia|]. cbn [range_fuel Nat.ltb Nat.leb] in Hok.
  rewrite for_each_cons, outcome_bind in Hok.
  pose proof (forward_body_spec self input_ids input_metadata 0 12 []) as Hb.
  unfold getitem_rows in Hb at 1. rewrite Hs in Hb.
  destruct rest as [|d1 [|d2 rest]].
  - rewrite Hb in Hok. discriminate.
  - exists d1. reflexivity.
  - destruct (getitem_rows (slot_mapping input_metadata) 0 (0 + 12)) as [slots|e];
      [|rewrite Hb in Hok; discriminate].
    cbn [shape unpack2] in Hb. rewrite Hb in Hok. discriminate.
Qed.

Lemma as_tensors_model_output (outs : list PyObject) :
  outs <> [] ->
  Forall (fun out => exists o, out = PyModelOutput o) outs ->
  exists msg, torch_cat outs = Err (TypeError msg).
Proof.
  intros Hne Hall. destruct outs as [|out outs]; [congruence|].
  apply Forall_cons in Hall as [[o ->] _].
  eexists. reflexivity.
Qed.

(** For any name but the named variant, [forward] never returns on an input
    with at least one row: when the loop completes, [tensor_list] holds
    model-output objects and the concatenation raises [TypeError]. *)
Lemma forward_other_name_never_returns (positions : Tensor Z)
    (kv_caches : list KVCache) (n : nat) (rest : list nat) :
  is_bge_m3 self = false ->
  shape input_ids = n :: rest ->
  1 <= n ->
  (forall t, outcome (forward self input_ids positions kv_caches input_metadata)
             <> Ok t) /\
  (forall st, outcome (forward_loop self input_ids input_metadata) = Ok st ->
     exists msg,
       outcome (forward self input_ids positions kv_caches input_metadata)
       = Err (TypeError msg)).
Proof.
  intros Hname Hs Hn.
  assert (Hloop : forall st,
            outcome (forward_loop self input_ids input_metadata) = Ok st ->
            exists msg,
              outcome (forward self input_ids positions kv_caches input_metadata)
              = Err (TypeError msg)).
  { intros [bs' tl'] Hok.
    destruct (forward_loop_needs_rank2 n rest _ Hs Hn Hok) as [L ->].
    unfold forward. rewrite outcome_bind, Hok. cbn [lift outcome].
    rewrite (forward_loop_unfold self input_ids input_metadata n [L] Hs) in Hok.
    destruct (for_each_body_chunks self input_ids input_metadata n L Hs
                n 0 12 [] bs' tl' (fun _ => eq_refl) Hok)
      as [outs [-> [Hst Hap]]].
    cbn [app]. apply as_tensors_model_output.
    - intros ->. apply Forall2_length in Hap. apply Forall2_length in Hst.
      rewrite Hap in Hst. rewrite range_fuel_length in Hst by lia.
      cbn [length] in Hst.
      assert (1 <= (n - 0 + 11) / 12).
      { apply (Nat.div_le_lower_bound); lia. }
      lia.
    - clear - Hap Hname. induction Hap as [|c out tr outs Hc _ IH]; constructor.
      + destruct Hc as [? ? ? ? ? _ _ Hb _ | ? ? ? ? o _ _ _ _].
        * congruence.
        * exists o. reflexivity.
      + exact IH. }
  split; [|exact Hloop].
  intros t Ht.
  destruct (outcome (forward_loop self input_ids input_metadata)) as [st|e] eqn:Ho.
  - destruct (Hloop st eq_refl) as [msg Hmsg]. congruence.
  - unfold forward in Ht. rewrite outcome_bind, Ho in Ht. discriminate.
Qed.

End ConcatFacts.

(** C1, on an input the code can receive: with a model name other than the
    named variant, a batch of thirteen rows goes through both chunks and then
    [forward] raises [TypeError] at the concatenation; it returns no tensor,
    hence none of leading dimension 13. *)
Theorem forward_other_name_raises_TypeError :
  map (fun c => shape (log_ids c))
      (trace (forward (example_model "xlm-roberta-base" ∅)
                      example_input_ids example_input_ids []
                      example_input_metadata))
  = [[12; 1]; [1; 1]] /\
  outcome (forward (example_model "xlm-roberta-base" ∅)
                   example_input_ids example_input_ids [] example_input_metadata)
  = Err (TypeError "expected Tensor as element of argument tensors").
Proof. split; reflexivity. Qed.

(* ===================================================================== *)
(** * Forward inference: the normalized dense embedding                    *)
(* ===================================================================== *)

Section NormFacts.
Local Open Scope R_scope.

Lemma l2norm_sum_sq v : l2norm v = sqrt (sum_sq v).
Proof. reflexivity. Qed.

Lemma sum_sq_nonneg v : 0 <= sum_sq v.
Proof.
  induction v as [|x v IH]; cbn; [lra|].
  fold (sum_sq v). nra.
Qed.

Lemma sum_sq_scale (c : R) v :
  sum_sq (map (fun x => x / c) v) = sum_sq v * (/ c * / c).
Proof.
  induction v as [|x v IH]; cbn; [lra|].
  fold (sum_sq (map (fun x => x / c) v)). fold (sum_sq v). rewrite IH.
  unfold Rdiv. ring.
Qed.

Lemma normalize_eps_pos : 0 < normalize_eps.
Proof. unfold normalize_eps. apply Rinv_0_lt_compat, pow_lt. lra. Qed.

Lemma l2norm_nonneg v : 0 <= l2norm v.
Proof. apply sqrt_pos. Qed.

Lemma l2norm_scale (c : R) v :
  0 < c -> l2norm (map (fun x => x / c) v) = l2norm v / c.
Proof.
  intros Hc. rewrite !l2norm_sum_sq, sum_sq_scale.
  rewrite sqrt_mult_alt by apply sum_sq_nonneg.
  rewrite sqrt_square by (left; apply Rinv_0_lt_compat; exact Hc).
  reflexivity.
Qed.

Lemma l2norm_normalize_row v :
  l2norm (normalize_row v) = l2norm v / Rmax (l2norm v) normalize_eps.
Proof.
  unfold normalize_row. apply l2norm_scale.
  eapply Rlt_le_trans; [apply normalize_eps_pos | apply Rmax_r].
Qed.


Lemma l2norm_normalize_row_small v :
  l2norm v < normalize_eps -> l2norm (normalize_row v) < 1.
Proof.
  intros H. rewrite l2norm_normalize_row, Rmax_right by lra.
  pose proof normalize_eps_pos as Hp.
  apply (Rmult_lt_reg_r normalize_eps); [exact Hp|].
  unfold Rdiv. rewrite Rmult_assoc, Rinv_l by lra. lra.
Qed.

End NormFacts.

Section BlockFacts.
Context {A : Type}.

Lemma blocks_fuel_concat (w : nat) (bl : list (list A)) : forall fuel,
  1 <= w ->
  Forall (fun b => length b = w) bl ->
  length (concat bl) <= fuel ->
  blocks_fuel fuel w (concat bl) = bl.
Proof.
  induction bl as [|b bl IH]; intros fuel Hw Hall Hf.
  - destruct fuel; reflexivity.
  - apply Forall_cons in Hall as [Hb Hall].
    cbn [concat] in *. rewrite length_app in Hf.
    destruct fuel as [|fuel]; [lia|].
    destruct b as [|x b]; [cbn in Hb; lia|].
    cbn [blocks_fuel app].
    change (x :: b ++ concat bl) with ((x :: b) ++ concat bl).
    rewrite take_app_length' by (symmetry; exact Hb).
    rewrite drop_app_length' by (symmetry; exact Hb).
    rewrite IH; [reflexivity|exact Hw|exact Hall|cbn in Hf; lia].
Qed.

Lemma blocks_concat (w : nat) (bl : list (list A)) :
  1 <= w -> Forall (fun b => length b = w) bl -> blocks w (concat bl) = bl.
Proof. intros Hw Hall. apply blocks_fuel_concat; auto. Qed.

Lemma split_blocks (w k : nat) : forall l : list A,
  length l = k * w ->
  exists bl, l = concat bl /\ Forall (fun b => length b = w) bl /\ length bl = k.
Proof.
  induction k as [|k IH]; intros l Hl.
  - exists []. destruct l; [|discriminate]. repeat split. constructor.
  - destruct (IH (drop w l)) as [bl [Hc [Hall Hlen]]].
    { rewrite length_drop. lia. }
    exists (take w l :: bl). cbn [concat]. rewrite <- Hc, take_drop.
    split; [reflexivity|]. split; [|cbn; lia].
    constructor; [|exact Hall]. rewrite length_take. lia.
Qed.


End BlockFacts.

Section SelectFacts.
Context {A : Type}.

Lemma ravel_lt (s : list nat) : forall idx o,
  ravel s idx = Some o -> o < numel s.
Proof.
  induction s as [|d s IH]; intros [|i idx] o Ho; cbn [ravel] in Ho;
    try discriminate.
  - injection Ho as <-. cbn. lia.
  - destruct (i <? d) eqn:Hlt; [|discriminate]. apply Nat.ltb_lt in Hlt.
    destruct (ravel s idx) as [o'|] eqn:Ho'; [|discriminate].
    injection Ho as <-. apply IH in Ho'.
    change (numel (d :: s)) with (d * numel s). nia.
Qed.

Lemma concat_lookup_uniform (w : nat) (bl : list (list A)) : forall b o,
  Forall (fun blk => length blk = w) bl ->
  o < w ->
  concat bl !! (b * w + o) = bl !! b ≫= (fun blk => blk !! o).
Proof.
  induction bl as [|blk bl IH]; intros b o Hall Ho.
  - cbn. rewrite !lookup_nil. reflexivity.
  - apply Forall_cons in Hall as [Hb Hall]. cbn [concat].
    destruct b as [|b]; cbn [lookup list_lookup mbind option_bind].
    + cbn [Nat.mul Nat.add]. apply lookup_app_l. lia.
    + rewrite lookup_app_r by (rewrite Hb; lia).
      rewrite Hb. replace (S b * w + o - w) with (b * w + o) by lia.
      apply IH; assumption.
Qed.

Lemma length_concat_uniform (w : nat) (bl : list (list A)) :
  Forall (fun blk => length blk = w) bl -> length (concat bl) = length bl * w.
Proof.
  induction 1 as [|blk bl Hb _ IH]; [reflexivity|].
  cbn [concat length]. rewrite length_app, IH, Hb. lia.
Qed.

(** [t[:, i]] of a well-formed tensor: its shape, and its entries. *)
Lemma select_dim1_spec (t d : Tensor A) (i : nat) :
  wf t ->
  select_dim1 t i = Ok d ->
  exists d0 d1 rest,
    shape t = d0 :: d1 :: rest /\ i < d1 /\
    shape d = d0 :: rest /\ wf d /\
    forall b idx, item d (b :: idx) = item t (b :: i :: idx).
Proof.
  unfold wf, select_dim1. intros Hwf Hsel.
  destruct (shape t) as [|d0 [|d1 rest]] eqn:Hs; try discriminate.
  destruct (i <? d1) eqn:Hi; [|discriminate]. apply Nat.ltb_lt in Hi.
  injection Hsel as <-. exists d0, d1, rest.
  split; [reflexivity|]. split; [exact Hi|]. split; [reflexivity|].
  set (inner := numel rest) in *.
  change (numel (d0 :: d1 :: rest)) with (d0 * (d1 * inner)) in Hwf.
  destruct (split_blocks (d1 * inner) d0 (data t) Hwf) as [bl [Hc [Hall Hlen]]].
  destruct (Nat.eq_dec inner 0) as [H0|H0].
  - assert (Hnil : data t = []).
    { apply length_zero_iff_nil. rewrite Hwf, H0. lia. }
    rewrite Hnil. unfold blocks. cbn [length blocks_fuel map concat data shape].
    split.
    + change (numel (d0 :: rest)) with (d0 * inner). rewrite H0. lia.
    + intros b idx. unfold item. cbn [data shape]. rewrite Hs, Hnil.
      destruct (ravel _ _); destruct (ravel _ _); rewrite ?lookup_nil; reflexivity.
  - assert (Hw : 1 <= d1 * inner) by nia.
    rewrite Hc, (blocks_concat _ _ Hw Hall).
    set (f := fun blk : list A => take inner (drop (i * inner) blk)).
    assert (Hf : Forall (fun blk => length blk = inner) (map f bl)).
    { apply Forall_fmap. eapply Forall_impl; [exact Hall|].
      intros blk Hb. cbn. unfold f. rewrite length_take, length_drop, Hb. nia. }
    split.
    + cbn [shape data]. rewrite (length_concat_uniform _ _ Hf), length_map, Hlen.
      reflexivity.
    + intros b idx. unfold item. cbn [shape data]. rewrite Hs, Hc. cbn [ravel].
      destruct (b <? d0) eqn:Hb; [|reflexivity].
      rewrite (proj2 (Nat.ltb_lt i d1) Hi).
      destruct (ravel rest idx) as [o|] eqn:Ho; [|reflexivity].
      pose proof (ravel_lt _ _ _ Ho) as Hol. fold inner in Hol.
      fold inner. change (numel (d1 :: rest)) with (d1 * inner).
      rewrite (concat_lookup_uniform inner _ b o Hf Hol).
      rewrite (concat_lookup_uniform (d1 * inner) bl b (i * inner + o) Hall)
        by nia.
      rewrite list_lookup_fmap.
      destruct (bl !! b) as [blk|]; [|reflexivity].
      cbn. unfold f. rewrite lookup_take_lt by exact Hol.
      rewrite lookup_drop. reflexivity.
Qed.

End SelectFacts.


Section DenseFacts.

Variable self : XLMRobertaModel.
Variable input_ids : Tensor Z.
Variable input_metadata : InputMetadata.

Let body := forward_body self input_ids input_metadata.




End DenseFacts.




(* ===================================================================== *)
(** * Forward inference: the leading dimension for the named variant       *)
(* ===================================================================== *)

Section LeadingFacts.

Variable self : XLMRobertaModel.
Variable input_ids : Tensor Z.
Variable input_metadata : InputMetadata.

(** The external modules keep the leading dimension: the embeddings of a
    slice of [b] rows have [b] rows, and so has the encoder's last hidden
    state. *)
Hypothesis embeddings_keep_rows : forall ids tti emb,
  embeddings_call (embeddings self) (named_parameters self) ids None tti None 0
  = Ok emb ->
  hd 0 (shape emb) = hd 0 (shape ids).
Hypothesis encoder_keeps_rows : forall emb args eo,
  encoder_call (encoder self) (named_parameters self) emb args = Ok eo ->
  hd 0 (shape (enc_getitem0 eo)) = hd 0 (shape emb).
Hypothesis named_variant : is_bge_m3 self = true.

Lemma appended_rows (ids mask : Tensor Z) (out : PyObject) :
  appended self ids mask out ->
  exists t, out = PyTensor t /\ hd 0 (shape t) = hd 0 (shape ids).
Proof.
  intros [tti emb args eo d Hemb Henc _ Hd | ? ? ? ? ? _ _ Hb _]; [|congruence].
  eexists. split; [reflexivity|]. cbn [normalize shape].
  rewrite <- (embeddings_keep_rows _ _ _ Hemb), <- (encoder_keeps_rows _ _ _ Henc).
  unfold dense_embedding, select_dim1 in Hd.
  destruct (shape (enc_getitem0 eo)) as [|d0 [|d1 rest]]; try discriminate.
  destruct (0 <? d1); [|discriminate]. injection Hd as <-. reflexivity.
Qed.

Lemma filter_legacy_empty (ts : list (Tensor R)) :
  Forall (fun t => 1 <= hd 0 (shape t)) ts ->
  List.filter (fun t => negb (legacy_empty t)) ts = ts.
Proof.
  induction 1 as [|t ts Ht _ IH]; [reflexivity|].
  cbn [List.filter]. unfold legacy_empty at 1.
  rewrite bool_decide_eq_false_2; [cbn; rewrite IH; reflexivity|].
  intros Heq. rewrite Heq in Ht. cbn in Ht. lia.
Qed.

Lemma cat_tensors_rows (ts : list (Tensor R)) (t : Tensor R) :
  Forall (fun t => 1 <= hd 0 (shape t)) ts ->
  cat_tensors ts = Ok t ->
  hd 0 (shape t) = sum_list (map (fun t => hd 0 (shape t)) ts).
Proof.
  intros Hall Hcat. unfold cat_tensors in Hcat.
  destruct ts as [|t0 ts']; [discriminate|].
  rewrite (filter_legacy_empty _ Hall) in Hcat.
  destruct (shape t0) as [|d0 tl]; [discriminate|].
  destruct (forallb (same_trailing tl) (t0 :: ts')); [|discriminate].
  injection Hcat as <-. reflexivity.
Qed.

Lemma sum_chunk_rows (n fuel : nat) : forall s,
  n - s <= fuel ->
  sum_list (map (fun st => Nat.min 12 (n - st)) (range_fuel fuel s n 12)) = n - s.
Proof.
  induction fuel as [|fuel IH]; intros s Hf; cbn [range_fuel].
  - cbn. lia.
  - destruct (s <? n) eqn:Hlt.
    + apply Nat.ltb_lt in Hlt. cbn [map sum_list_with]. rewrite IH by lia.
      unfold Datatypes.id. lia.
    + apply Nat.ltb_ge in Hlt. cbn. lia.
Qed.

Lemma appended_tensors (n L : nat) :
  shape input_ids = [n; L] ->
  forall tr starts outs,
    Forall2 (fun c st => log_start_index c = st /\
                         chunk_at input_ids st = Ok (log_ids c)) tr starts ->
    Forall2 (fun c out => appended self (log_ids c) (log_attention_mask c) out)
            tr outs ->
    Forall (fun st => st < n) starts ->
    exists ts,
      as_tensors outs = Ok ts /\
      map (fun t => hd 0 (shape t)) ts = map (fun st => Nat.min 12 (n - st)) starts.
Proof.
  intros Hshape tr starts outs Hst. revert outs.
  induction Hst as [|c st tr starts [_ Hc] _ IH]; intros outs Hap Hlt.
  - apply Forall2_nil_inv_l in Hap as ->. exists []. split; reflexivity.
  - apply Forall2_cons_inv_l in Hap as [out [outs' [Happ [Hap ->]]]].
    apply Forall_cons in Hlt as [Hlt Hlts].
    destruct (IH outs' Hap Hlts) as [ts [Hts Hmap]].
    destruct (appended_rows _ _ _ Happ) as [t [-> Ht]].
    exists (t :: ts). cbn [as_tensors map]. rewrite Hts. split; [reflexivity|].
    f_equal; [|exact Hmap].
    destruct (chunk_at_inv input_ids n L Hshape st _ Hc Hlt) as [Hsh _].
    rewrite Ht, Hsh. reflexivity.
Qed.

(** For the named variant, with external modules that keep the leading
    dimension: whenever [forward] returns on an input of shape (n, L), the
    input has at least one row and the tensor returned has leading dimension
    n. *)
Lemma forward_bge_leading_dimension (positions : Tensor Z)
    (kv_caches : list KVCache) (n L : nat) (t : Tensor R) :
  shape input_ids = [n; L] ->
  outcome (forward self input_ids positions kv_caches input_metadata) = Ok t ->
  1 <= n /\ hd 0 (shape t) = n.
Proof.
  intros Hshape Hok. unfold forward in Hok. rewrite outcome_bind in Hok.
  destruct (outcome (forward_loop self input_ids input_metadata))
    as [[bs' tl']|e] eqn:Hloop; [|discriminate].
  cbn [lift outcome] in Hok.
  rewrite (forward_loop_unfold self input_ids input_metadata n [L] Hshape) in Hloop.
  destruct (for_each_body_chunks self input_ids input_metadata n L Hshape
              n 0 12 [] bs' tl' (fun _ => eq_refl) Hloop)
    as [outs [-> [Hst Hap]]].
  cbn [app] in Hok.
  assert (Hlt : Forall (fun st => st < n) (range_fuel n 0 n 12)).
  { apply Forall_lookup. intros i st Hi. apply range_fuel_lookup in Hi. lia. }
  destruct (appended_tensors n L Hshape _ _ _ Hst Hap Hlt) as [ts [Hts Hmap]].
  destruct outs as [|out outs]; [discriminate|].
  unfold torch_cat in Hok. rewrite Hts in Hok. cbn [bind result_monad result_bind] in Hok.
  assert (Hrows : Forall (fun t => 1 <= hd 0 (shape t)) ts).
  { apply Forall_lookup. intros i t' Hi.
    assert (Hm : map (fun t => hd 0 (shape t)) ts !! i = Some (hd 0 (shape t')))
      by (rewrite list_lookup_fmap, Hi; reflexivity).
    rewrite Hmap, list_lookup_fmap in Hm.
    destruct (range_fuel n 0 n 12 !! i) as [st|] eqn:Hst'; [|discriminate].
    apply (inj Some) in Hm. apply range_fuel_lookup in Hst' as [_ Hst'].
    rewrite <- Hm. lia. }
  rewrite (cat_tensors_rows ts t Hrows Hok), Hmap, sum_chunk_rows by lia.
  split; [|lia].
  destruct n as [|n]; [|lia].
  apply Forall2_length in Hst. apply Forall2_length in Hap.
  rewrite Hst in Hap. discriminate.
Qed.

End LeadingFacts.

(** The named variant on the batch of thirteen rows: [forward] returns a
    tensor of thirteen rows. *)
Example forward_bge_thirteen_rows :
  exists t,
    outcome (forward (example_model "BAAI/bge-m3" ∅)
                     example_input_ids example_input_ids [] example_input_metadata)
    = Ok t /\
    shape t = [13; 1].
Proof. eexists. split; reflexivity. Qed.

(* ===================================================================== *)
(** * Construction: the three outcomes                                     *)
(* ===================================================================== *)

(** X1. Construction returns an object exactly when the linear method is
    absent or unquantized, no adapter configuration is given and the external
    constructor succeeds; the object then holds the configuration, the linear
    method, and the three sub-modules and the parameters of the external
    model, which was built once, after the parent constructor. *)
Theorem init_succeeds_iff :
  forall (XLMRobertaModelHF : XLMRobertaConfig -> result XLMRobertaModelHF_obj)
         (cfg : XLMRobertaConfig) (lm : option LinearMethodBase)
         (lora : option LoRAConfig) (self : XLMRobertaModel),
    (__init__ XLMRobertaModelHF cfg lm lora).2 = Ok self <->
    accepted_linear_method lm = true /\
    lora = None /\
    (__init__ XLMRobertaModelHF cfg lm lora).1 = [EvSuperInit; EvBuildSubModules cfg] /\
    exists hf,
      XLMRobertaModelHF cfg = Ok hf /\
      self = {| config := cfg;
                linear_method := lm;
                embeddings := hf_embeddings hf;
                encoder := hf_encoder hf;
                pooler := hf_pooler hf;
                named_parameters := hf_parameters hf |}.
Proof.
  intros ctor cfg lm lora self. unfold __init__, accepted_linear_method.
  destruct lm as [[|scheme]|]; cbn [isinstance_UnquantizedLinearMethod negb];
    destruct lora as [l|]; cbn [fst snd app];
    try (split; [discriminate | intros [H1 [H2 _]]; discriminate]).
  - destruct (ctor cfg) as [hf|e]; cbn [fst snd].
    + split.
      * intros H. injection H as <-. repeat split. exists hf. split; reflexivity.
      * intros [_ [_ [_ [hf' [Hhf ->]]]]]. injection Hhf as <-. reflexivity.
    + split; [discriminate|]. intros [_ [_ [_ [hf' [Hhf _]]]]]. discriminate.
  - destruct (ctor cfg) as [hf|e]; cbn [fst snd].
    + split.
      * intros H. injection H as <-. repeat split. exists hf. split; reflexivity.
      * intros [_ [_ [_ [hf' [Hhf ->]]]]]. injection Hhf as <-. reflexivity.
    + split; [discriminate|]. intros [_ [_ [_ [hf' [Hhf _]]]]]. discriminate.
Qed.

Lemma init_succeeds_iff_witness :
  (__init__ (fun _ => Ok example_hf_model) (example_config "BAAI/bge-m3")
            (Some UnquantizedLinearMethod) None).2
  = Ok {| config := example_config "BAAI/bge-m3";
          linear_method := Some UnquantizedLinearMethod;
          embeddings := hf_embeddings example_hf_model;
          encoder := hf_encoder example_hf_model;
          pooler := hf_pooler example_hf_model;
          named_parameters := hf_parameters example_hf_model |}.
Proof.
  apply (proj2 (init_succeeds_iff (fun _ => Ok example_hf_model)
                  (example_config "BAAI/bge-m3")
                  (Some UnquantizedLinearMethod) None _)).
  split; [reflexivity|]. split; [reflexivity|]. split; [reflexivity|].
  exists example_hf_model. split; reflexivity.
Defined.

(** X2. The checks of construction in their order: a quantized linear method
    is refused with the quantization message, whether an adapter
    configuration is given or not; otherwise an adapter configuration is
    refused with the adapter message; in both cases the external model is not
    built.  Otherwise the external model is built once, and an exception of
    its constructor is the exception of construction. *)
Theorem init_checks_in_order :
  forall (XLMRobertaModelHF : XLMRobertaConfig -> result XLMRobertaModelHF_obj)
         (cfg : XLMRobertaConfig) (lm : option LinearMethodBase)
         (lora : option LoRAConfig),
    (accepted_linear_method lm = false ->
     __init__ XLMRobertaModelHF cfg lm lora
     = ([EvSuperInit], Err (NotImplementedError quantization_message))) /\
    (accepted_linear_method lm = true -> lora <> None ->
     __init__ XLMRobertaModelHF cfg lm lora
     = ([EvSuperInit], Err (NotImplementedError lora_message))) /\
    (accepted_linear_method lm = true -> lora = None ->
     forall e, XLMRobertaModelHF cfg = Err e ->
     __init__ XLMRobertaModelHF cfg lm lora
     = ([EvSuperInit; EvBuildSubModules cfg], Err e)).
Proof.
  intros ctor cfg lm lora. unfold __init__, accepted_linear_method.
  destruct lm as [[|scheme]|]; cbn [isinstance_UnquantizedLinearMethod negb];
    (split; [|split]); try discriminate; try reflexivity.
  all: try (intros _ Hl; destruct lora; [reflexivity|congruence]).
  all: intros _ -> e ->; reflexivity.
Qed.

Lemma init_checks_in_order_witness :
  __init__ (fun _ => Ok example_hf_model) (example_config "BAAI/bge-m3")
           (Some (QuantizedLinearMethod "gptq"))
           (Some {| max_lora_rank := 8; max_loras := 1 |})
  = ([EvSuperInit], Err (NotImplementedError quantization_message)) /\
  __init__ (fun _ => Ok example_hf_model) (example_config "BAAI/bge-m3")
           None (Some {| max_lora_rank := 8; max_loras := 1 |})
  = ([EvSuperInit], Err (NotImplementedError lora_message)) /\
  __init__ (fun _ => Err (RuntimeError "out of memory"))
           (example_config "BAAI/bge-m3") None None
  = ([EvSuperInit; EvBuildSubModules (example_config "BAAI/bge-m3")],
     Err (RuntimeError "out of memory")).
Proof.
  split; [|split].
  - apply (proj1 (init_checks_in_order (fun _ => Ok example_hf_model)
                    (example_config "BAAI/bge-m3")
                    (Some (QuantizedLinearMethod "gptq"))
                    (Some {| max_lora_rank := 8; max_loras := 1 |}))).
    reflexivity.
  - apply (proj1 (proj2 (init_checks_in_order (fun _ => Ok example_hf_model)
                           (example_config "BAAI/bge-m3") None
                           (Some {| max_lora_rank := 8; max_loras := 1 |}))));
      [reflexivity | discriminate].
  - apply (proj2 (proj2 (init_checks_in_order
                           (fun _ => Err (RuntimeError "out of memory"))
                           (example_config "BAAI/bge-m3") None None)));
      reflexivity.
Defined.

(* ===================================================================== *)
(** * Weight loading: success, invariants, composition                     *)
(* ===================================================================== *)

Section MoreLoadingFacts.

Implicit Types (store : params) (weights : list (string * Tensor R)).

Lemma loadable_shapes store nw :
  loadable store nw <-> param_shapes store !! nw.1 = Some (shape nw.2).
Proof.
  unfold loadable, param_shapes. rewrite lookup_fmap. split.
  - intros [p [-> <-]]. reflexivity.
  - destruct (store !! nw.1) as [p|]; [|discriminate].
    cbn. intros H. exists p. split; [reflexivity|]. congruence.
Qed.

Lemma param_shapes_insert store name (p : Tensor R) (d : list R) :
  store !! name = Some p ->
  param_shapes (<[name := mkTensor (shape p) d]> store) = param_shapes store.
Proof.
  intros Hp. unfold param_shapes. rewrite fmap_insert. cbn [shape].
  apply insert_id. rewrite lookup_fmap, Hp. reflexivity.
Qed.

(** The loop of [load_weights] never changes the names or the shapes of the
    parameters, whether it completes or stops. *)
Lemma load_weights_loop_shapes weights : forall store,
  param_shapes (load_weights_loop weights store).1 = param_shapes store.
Proof.
  induction weights as [|[name w] weights IH]; intros store; [reflexivity|].
  cbn [load_weights_loop]. destruct (store !! name) as [p|] eqn:Hp; [|reflexivity].
  unfold default_weight_loader. case_bool_decide; [|reflexivity].
  rewrite IH. apply param_shapes_insert. exact Hp.
Qed.

Lemma load_weights_loop_all weights store :
  Forall (loadable store) weights ->
  load_weights_loop weights store = (copy_all weights store, Ok tt).
Proof.
  intros Hall. rewrite <- (app_nil_r weights) at 1.
  rewrite (load_weights_loop_prefix weights store [] Hall). reflexivity.
Qed.

Lemma copy_all_shapes weights store :
  Forall (loadable store) weights ->
  param_shapes (copy_all weights store) = param_shapes store.
Proof.
  intros Hall. pose proof (load_weights_loop_shapes weights store) as H.
  rewrite (load_weights_loop_all weights store Hall) in H. exact H.
Qed.

Lemma copy_all_loadable weights store :
  Forall (loadable store) weights ->
  Forall (loadable (copy_all weights store)) weights.
Proof.
  intros Hall. eapply Forall_impl; [exact Hall|]. intros nw.
  rewrite !loadable_shapes, (copy_all_shapes weights store Hall). trivial.
Qed.

(** Every name of a source has a last pair in it. *)
Lemma last_pair_exists weights : forall k,
  k ∈ weights.*1 ->
  exists i v, weights !! i = Some (k, v) /\
              forall j v', i < j -> weights !! j <> Some (k, v').
Proof.
  induction weights as [|[k0 v0] weights IH]; intros k Hk.
  - apply elem_of_nil in Hk as [].
  - destruct (decide (k ∈ weights.*1)) as [Hin|Hnin].
    + destruct (IH k Hin) as [i [v [Hi Hlast]]].
      exists (S i), v. split; [exact Hi|].
      intros [|j] v' Hlt; [lia|]. cbn. apply Hlast. lia.
    + cbn in Hk. apply elem_of_cons in Hk as [->|Hk]; [|contradiction].
      exists 0, v0. split; [reflexivity|].
      intros [|j] v' Hlt Hj; [lia|]. cbn in Hj.
      apply Hnin. apply list_elem_of_fmap. exists (k0, v'). split; [reflexivity|].
      apply list_elem_of_lookup. eauto.
Qed.

Lemma copy_all_twice weights store :
  Forall (loadable store) weights ->
  copy_all weights (copy_all weights store) = copy_all weights store.
Proof.
  intros Hall. apply map_eq. intros k.
  destruct (decide (k ∈ weights.*1)) as [Hin|Hnin].
  - destruct (last_pair_exists weights k Hin) as [i [v [Hi Hlast]]].
    rewrite (copy_all_last weights _ i k v (copy_all_loadable _ _ Hall) Hi Hlast).
    rewrite (copy_all_last weights _ i k v Hall Hi Hlast). reflexivity.
  - rewrite copy_all_other by exact Hnin. reflexivity.
Qed.

Lemma copy_all_app weights1 weights2 store :
  copy_all (weights1 ++ weights2) store = copy_all weights2 (copy_all weights1 store).
Proof. unfold copy_all. apply foldl_app. Qed.

Lemma copy_all_NoDup weights store k (v : Tensor R) :
  NoDup weights.*1 ->
  Forall (loadable store) weights ->
  (k, v) ∈ weights ->
  copy_all weights store !! k = Some (mkTensor (shape v) (data v)).
Proof.
  intros Hnd Hall Hin. apply list_elem_of_lookup in Hin as [i Hi].
  apply (copy_all_last weights store i k v Hall Hi).
  intros j v' Hlt Hj.
  assert (Hki : weights.*1 !! i = Some k) by (rewrite list_lookup_fmap, Hi; reflexivity).
  assert (Hkj : weights.*1 !! j = Some k) by (rewrite list_lookup_fmap, Hj; reflexivity).
  pose proof (NoDup_lookup _ _ _ _ Hnd Hki Hkj). lia.
Qed.

Lemma copy_all_permutation weights weights' store :
  NoDup weights.*1 ->
  weights ≡ₚ weights' ->
  Forall (loadable store) weights ->
  copy_all weights store = copy_all weights' store.
Proof.
  intros Hnd Hperm Hall.
  assert (Hnd' : NoDup weights'.*1) by (rewrite <- Hperm; exact Hnd).
  assert (Hall' : Forall (loadable store) weights') by (rewrite <- Hperm; exact Hall).
  apply map_eq. intros k.
  destruct (decide (k ∈ weights.*1)) as [Hin|Hnin].
  - apply list_elem_of_fmap in Hin as [[k' v] [Hk Hin]]. cbn in Hk. subst k'.
    rewrite (copy_all_NoDup weights store k v Hnd Hall Hin).
    rewrite Hperm in Hin.
    rewrite (copy_all_NoDup weights' store k v Hnd' Hall' Hin). reflexivity.
  - rewrite copy_all_other by exact Hnin.
    rewrite Hperm in Hnin. rewrite copy_all_other by exact Hnin. reflexivity.
Qed.

End MoreLoadingFacts.

(** X3. When every pair of the weight source names a parameter of the model
    and has that parameter's shape, [load_weights] completes: each parameter
    named in the source holds the data of the last pair for its name, every
    other parameter is as before, and the configuration and the sub-modules
    of the object are untouched. *)
Theorem load_weights_all_loadable :
  forall (hf_model_weights_iterator :
            string -> option string -> string -> option string ->
            list (string * Tensor R))
         (self : XLMRobertaModel) (model_name_or_path : string)
         (cache_dir : option string) (load_format : string)
         (revision : option string),
    let weights :=
      hf_model_weights_iterator model_name_or_path cache_dir load_format revision in
    Forall (loadable (named_parameters self)) weights ->
    exists self',
      load_weights hf_model_weights_iterator self model_name_or_path cache_dir
                   load_format revision
      = (self', Ok tt) /\
      same_modules self' self /\
      (forall i k v,
         weights !! i = Some (k, v) ->
         (forall j v', i < j -> weights !! j <> Some (k, v')) ->
         named_parameters self' !! k = Some (mkTensor (shape v) (data v))) /\
      (forall k, k ∉ weights.*1 ->
         named_parameters self' !! k = named_parameters self !! k).
Proof.
  intros it self path cache fmt rev weights Hall.
  unfold load_weights. fold weights.
  rewrite (load_weights_loop_all weights _ Hall).
  eexists. split; [reflexivity|].
  split; [repeat split|]. cbn [named_parameters set_named_parameters].
  split.
  - intros i k v Hi Hlast. exact (copy_all_last weights _ i k v Hall Hi Hlast).
  - intros k Hk. apply copy_all_other. exact Hk.
Qed.

Lemma example_full_source_loadable :
  Forall (loadable example_store2) example_full_source.
Proof.
  unfold example_full_source, example_store2.
  apply Forall_cons. split; [|apply Forall_cons; split; [|constructor]].
  - exists (mkTensor [3] [0; 0; 0]%R). split; [|reflexivity]. cbn [fst].
    rewrite lookup_insert_ne by discriminate. apply lookup_singleton_eq.
  - exists (mkTensor [1; 2] [0; 0]%R). split; [|reflexivity]. cbn [fst].
    apply lookup_insert_eq.
Defined.

Lemma load_weights_all_loadable_witness :
  exists self',
    load_weights (fun _ _ _ _ => example_full_source)
                 (example_model "BAAI/bge-m3" example_store2)
                 "BAAI/bge-m3" None "auto" None
    = (self', Ok tt) /\
    same_modules self' (example_model "BAAI/bge-m3" example_store2) /\
    (forall i k v,
       example_full_source !! i = Some (k, v) ->
       (forall j v', i < j -> example_full_source !! j <> Some (k, v')) ->
       named_parameters self' !! k = Some (mkTensor (shape v) (data v))) /\
    (forall k, k ∉ example_full_source.*1 ->
       named_parameters self' !! k
       = named_parameters (example_model "BAAI/bge-m3" example_store2) !! k).
Proof.
  apply (load_weights_all_loadable (fun _ _ _ _ => example_full_source)
           (example_model "BAAI/bge-m3" example_store2)
           "BAAI/bge-m3" None "auto" None).
  exact example_full_source_loadable.
Defined.

(** X4. In every run of [load_weights], completed or stopped by an exception,
    the object keeps its configuration and sub-modules, no parameter is added
    or removed, and no parameter changes its shape. *)
Theorem load_weights_keeps_names_and_shapes :
  forall (hf_model_weights_iterator :
            string -> option string -> string -> option string ->
            list (string * Tensor R))
         (self : XLMRobertaModel) (model_name_or_path : string)
         (cache_dir : option string) (load_format : string)
         (revision : option string) (k : string),
    let self' :=
      (load_weights hf_model_weights_iterator self model_name_or_path cache_dir
                    load_format revision).1 in
    same_modules self' self /\
    shape <$> (named_parameters self' !! k) = shape <$> (named_parameters self !! k).
Proof.
  intros it self path cache fmt rev k. cbv zeta. unfold load_weights.
  pose proof (load_weights_loop_shapes (it path cache fmt rev) (named_parameters self))
    as Hs.
  destruct (load_weights_loop (it path cache fmt rev) (named_parameters self))
    as [store r]. cbn [fst named_parameters set_named_parameters] in *.
  split; [repeat split|].
  unfold param_shapes in Hs. rewrite <- !lookup_fmap, Hs. reflexivity.
Qed.

(** X5. When the first pair of the weight source that does not load names a
    parameter but has another shape, [load_weights] stops there with the
    assertion error of the loader, the pairs after it are not read, and the
    parameters hold the copies made before it. *)
Theorem load_weights_shape_mismatch :
  forall (hf_model_weights_iterator :
            string -> option string -> string -> option string ->
            list (string * Tensor R))
         (self : XLMRobertaModel) (model_name_or_path : string)
         (cache_dir : option string) (load_format : string)
         (revision : option string)
         (pre post : list (string * Tensor R)) (name : string) (w p : Tensor R),
    hf_model_weights_iterator model_name_or_path cache_dir load_format revision
    = pre ++ (name, w) :: post ->
    Forall (loadable (named_parameters self)) pre ->
    named_parameters self !! name = Some p ->
    shape p <> shape w ->
    exists self',
      load_weights hf_model_weights_iterator self model_name_or_path cache_dir
                   load_format revision
      = (self', Err AssertionError) /\
      named_parameters self' = copy_all pre (named_parameters self) /\
      (forall i k v,
         pre !! i = Some (k, v) ->
         (forall j v', i < j -> pre !! j <> Some (k, v')) ->
         named_parameters self' !! k = Some (mkTensor (shape v) (data v))) /\
      (forall k, k ∉ pre.*1 ->
         named_parameters self' !! k = named_parameters self !! k).
Proof.
  intros it self path cache fmt rev pre post name w p Hsrc Hall Hp Hne.
  unfold load_weights. rewrite Hsrc.
  rewrite (load_weights_loop_prefix pre _ _ Hall).
  cbn [load_weights_loop].
  assert (Hshape : param_shapes (copy_all pre (named_parameters self)) !! name
                   = Some (shape p)).
  { rewrite (copy_all_shapes pre _ Hall). unfold param_shapes.
    rewrite lookup_fmap, Hp. reflexivity. }
  unfold param_shapes in Hshape. rewrite lookup_fmap in Hshape.
  destruct (copy_all pre (named_parameters self) !! name) as [q|]; [|discriminate].
  cbn in Hshape. unfold default_weight_loader.
  rewrite bool_decide_eq_false_2 by congruence.
  eexists. split; [reflexivity|]. cbn [named_parameters set_named_parameters].
  split; [reflexivity|]. split.
  - intros i k v Hi Hlast. exact (copy_all_last pre _ i k v Hall Hi Hlast).
  - intros k Hk. apply copy_all_other. exact Hk.
Qed.

Lemma load_weights_shape_mismatch_witness :
  exists self',
    load_weights (fun _ _ _ _ => example_mismatch_source)
                 (example_model "BAAI/bge-m3" example_store)
                 "BAAI/bge-m3" None "auto" None
    = (self', Err AssertionError) /\
    named_parameters self'
    = copy_all [("pooler.dense.bias", mkTensor [3] [1; 2; 3]%R)]
               (named_parameters (example_model "BAAI/bge-m3" example_store)) /\
    (forall i k v,
       [("pooler.dense.bias", mkTensor [3] [1; 2; 3]%R)] !! i = Some (k, v) ->
       (forall j v', i < j ->
          [("pooler.dense.bias", mkTensor [3] [1; 2; 3]%R)] !! j <> Some (k, v')) ->
       named_parameters self' !! k = Some (mkTensor (shape v) (data v))) /\
    (forall k, k ∉ [("pooler.dense.bias", mkTensor [3] [1; 2; 3]%R)].*1 ->
       named_parameters self' !! k
       = named_parameters (example_model "BAAI/bge-m3" example_store) !! k).
Proof.
  apply (load_weights_shape_mismatch (fun _ _ _ _ => example_mismatch_source)
           (example_model "BAAI/bge-m3" example_store)
           "BAAI/bge-m3" None "auto" None
           [("pooler.dense.bias", mkTensor [3] [1; 2; 3]%R)] []
           "pooler.dense.bias" (mkTensor [2] [4; 5]%R) (mkTensor [3] [0; 0; 0]%R)).
  - reflexivity.
  - apply Forall_cons. split; [|constructor].
    exists (mkTensor [3] [0; 0; 0]%R). split; [|reflexivity].
    apply lookup_singleton_eq.
  - apply lookup_singleton_eq.
  - discriminate.
Defined.

(** X6. Loading is idempotent: after a load that completed, loading the same
    source again completes and leaves the object as it is. *)
Theorem load_weights_twice :
  forall (hf_model_weights_iterator :
            string -> option string -> string -> option string ->
            list (string * Tensor R))
         (self : XLMRobertaModel) (model_name_or_path : string)
         (cache_dir : option string) (load_format : string)
         (revision : option string),
    Forall (loadable (named_parameters self))
           (hf_model_weights_iterator model_name_or_path cache_dir load_format
                                      revision) ->
    let self1 :=
      (load_weights hf_model_weights_iterator self model_name_or_path cache_dir
                    load_format revision).1 in
    load_weights hf_model_weights_iterator self1 model_name_or_path cache_dir
                 load_format revision
    = (self1, Ok tt).
Proof.
  intros it self path cache fmt rev Hall. cbv zeta. unfold load_weights.
  rewrite (load_weights_loop_all _ _ Hall).
  cbn [fst named_parameters set_named_parameters].
  rewrite (load_weights_loop_all _ _ (copy_all_loadable _ _ Hall)).
  rewrite (copy_all_twice _ _ Hall). reflexivity.
Qed.

Lemma load_weights_twice_witness :
  load_weights (fun _ _ _ _ => example_full_source)
    (load_weights (fun _ _ _ _ => example_full_source)
                  (example_model "BAAI/bge-m3" example_store2)
                  "BAAI/bge-m3" None "auto" None).1
    "BAAI/bge-m3" None "auto" None
  = ((load_weights (fun _ _ _ _ => example_full_source)
                   (example_model "BAAI/bge-m3" example_store2)
                   "BAAI/bge-m3" None "auto" None).1, Ok tt).
Proof.
  apply (load_weights_twice (fun _ _ _ _ => example_full_source)
           (example_model "BAAI/bge-m3" example_store2)
           "BAAI/bge-m3" None "auto" None).
  exact example_full_source_loadable.
Defined.

(** X7. The order of the pairs does not matter when no name occurs twice: two
    weight sources that yield the same pairs in different orders, all of which
    load, leave the object in the same state. *)
Theorem load_weights_order_irrelevant :
  forall (iterator1 iterator2 :
            string -> option string -> string -> option string ->
            list (string * Tensor R))
         (self : XLMRobertaModel) (model_name_or_path : string)
         (cache_dir : option string) (load_format : string)
         (revision : option string),
    let weights := iterator1 model_name_or_path cache_dir load_format revision in
    NoDup weights.*1 ->
    weights ≡ₚ iterator2 model_name_or_path cache_dir load_format revision ->
    Forall (loadable (named_parameters self)) weights ->
    load_weights iterator1 self model_name_or_path cache_dir load_format revision
    = load_weights iterator2 self model_name_or_path cache_dir load_format revision.
Proof.
  intros it1 it2 self path cache fmt rev weights Hnd Hperm Hall.
  unfold load_weights. fold weights.
  assert (Hall' : Forall (loadable (named_parameters self)) (it2 path cache fmt rev))
    by (rewrite <- Hperm; exact Hall).
  rewrite (load_weights_loop_all _ _ Hall), (load_weights_loop_all _ _ Hall').
  rewrite (copy_all_permutation weights _ _ Hnd Hperm Hall). reflexivity.
Qed.

Lemma load_weights_order_irrelevant_witness :
  load_weights (fun _ _ _ _ => example_full_source)
               (example_model "BAAI/bge-m3" example_store2)
               "BAAI/bge-m3" None "auto" None
  = load_weights (fun _ _ _ _ => reverse example_full_source)
                 (example_model "BAAI/bge-m3" example_store2)
                 "BAAI/bge-m3" None "auto" None.
Proof.
  apply (load_weights_order_irrelevant (fun _ _ _ _ => example_full_source)
           (fun _ _ _ _ => reverse example_full_source)
           (example_model "BAAI/bge-m3" example_store2)
           "BAAI/bge-m3" None "auto" None).
  - cbn. apply NoDup_cons. split; [|apply NoDup_singleton].
    intros H. apply list_elem_of_singleton in H. discriminate.
  - symmetry. apply reverse_Permutation.
  - exact example_full_source_loadable.
Defined.

(* ===================================================================== *)
(** * Mask expansion: which masks are accepted, and every entry            *)
(* ===================================================================== *)

Lemma getitem_none1_wf {A} (t : Tensor A) : wf t -> wf (getitem_none1 t).
Proof.
  unfold wf, getitem_none1. destruct (shape t) as [|d0 rest] eqn:Hs; cbn [shape data].
  - rewrite Hs. trivial.
  - intros ->. change (numel (d0 :: 1 :: rest)) with (d0 * numel (1 :: rest)).
    rewrite numel_unit_dim. reflexivity.
Qed.

Lemma getitem_none2_wf {A} (t : Tensor A) : wf t -> wf (getitem_none2 t).
Proof.
  unfold wf, getitem_none2. destruct (shape t) as [|d0 rest] eqn:Hs; cbn [shape data].
  - rewrite Hs. trivial.
  - intros ->. change (numel (d0 :: 1 :: 1 :: rest)) with (d0 * numel (1 :: 1 :: rest)).
    rewrite !numel_unit_dim. reflexivity.
Qed.

Lemma get_extended_attention_mask_rank_cases (m : Tensor Z) (s : list nat) :
  (is_ok (get_extended_attention_mask m s) = true <-> dim m = 2 \/ dim m = 3) /\
  (is_ok (get_extended_attention_mask m s) = false ->
   get_extended_attention_mask m s
   = Err (ValueError "Wrong shape for input_ids or attention_mask" [s; shape m])).
Proof.
  destruct (Nat.eq_dec (dim m) 2) as [H2|H2]; [|destruct (Nat.eq_dec (dim m) 3) as [H3|H3]].
  - rewrite (get_extended_attention_mask_rank2 m s H2). cbn [is_ok].
    split; [tauto|discriminate].
  - rewrite (get_extended_attention_mask_rank3 m s H3). cbn [is_ok].
    split; [tauto|discriminate].
  - rewrite (get_extended_attention_mask_other_rank m s H2 H3). cbn [is_ok].
    split; [split; [discriminate|tauto]|reflexivity].
Qed.

(** X8. The expansion returns a value exactly on masks of rank 2 or 3; the
    value does not depend on [input_shape].  On any other rank, rank 0
    included, it raises the [ValueError] that carries [input_shape] and the
    shape of the mask. *)
Theorem get_extended_attention_mask_ok_iff :
  forall (attention_mask : Tensor Z) (input_shape : list nat),
    (is_ok (get_extended_attention_mask attention_mask input_shape) = true <->
     dim attention_mask = 2 \/ dim attention_mask = 3) /\
    (is_ok (get_extended_attention_mask attention_mask input_shape) = true ->
     forall input_shape',
       get_extended_attention_mask attention_mask input_shape'
       = get_extended_attention_mask attention_mask input_shape) /\
    (is_ok (get_extended_attention_mask attention_mask input_shape) = false ->
     get_extended_attention_mask attention_mask input_shape
     = Err (ValueError "Wrong shape for input_ids or attention_mask"
                       [input_shape; shape attention_mask])).
Proof.
  intros m s.
  destruct (Nat.eq_dec (dim m) 2) as [H2|H2]; [|destruct (Nat.eq_dec (dim m) 3) as [H3|H3]].
  - rewrite (get_extended_attention_mask_rank2 m s H2). cbn [is_ok].
    split; [tauto|]. split; [|discriminate].
    intros _ s'. apply get_extended_attention_mask_rank2. exact H2.
  - rewrite (get_extended_attention_mask_rank3 m s H3). cbn [is_ok].
    split; [tauto|]. split; [|discriminate].
    intros _ s'. apply get_extended_attention_mask_rank3. exact H3.
  - rewrite (get_extended_attention_mask_other_rank m s H2 H3). cbn [is_ok].
    split; [split; [discriminate|tauto]|]. split; [discriminate|reflexivity].
Qed.

Lemma get_extended_attention_mask_ok_iff_witness :
  is_ok (get_extended_attention_mask example_mask3 [1; 2]) = true /\
  get_extended_attention_mask (mkTensor [] [1%Z]) [1; 2]
  = Err (ValueError "Wrong shape for input_ids or attention_mask" [[1; 2]; []]).
Proof.
  split.
  - apply (proj2 (proj1 (get_extended_attention_mask_ok_iff example_mask3 [1; 2]))).
    right. reflexivity.
  - apply (proj2 (proj2 (get_extended_attention_mask_ok_iff (mkTensor [] [1%Z]) [1; 2]))).
    reflexivity.
Defined.

(** X9. The expansion of a well-formed mask of shape (B, L) or (B, M, L), with
    M and L unrelated and any integer entries, is a well-formed tensor of
    shape (B, 1, 1, L) or (B, 1, M, L) that holds, at (b, 0, 0, l) or
    (b, 0, m, l), the bias of the mask's entry at (b, l) or (b, m, l), and
    nothing at an index whose inserted dimension is not 0. *)
Theorem get_extended_attention_mask_entries :
  forall (attention_mask : Tensor Z) (input_shape : list nat) (B M L : nat),
    wf attention_mask ->
    (shape attention_mask = [B; L] ->
     exists ext,
       get_extended_attention_mask attention_mask input_shape = Ok ext /\
       shape ext = [B; 1; 1; L] /\ wf ext /\
       (forall b l, item ext [b; 0; 0; l] = mask_bias <$> item attention_mask [b; l]) /\
       (forall b i j l, item ext [b; S i; j; l] = None /\
                        item ext [b; i; S j; l] = None)) /\
    (shape attention_mask = [B; M; L] ->
     exists ext,
       get_extended_attention_mask attention_mask input_shape = Ok ext /\
       shape ext = [B; 1; M; L] /\ wf ext /\
       (forall b m l,
          item ext [b; 0; m; l] = mask_bias <$> item attention_mask [b; m; l]) /\
       (forall b i m l, item ext [b; S i; m; l] = None)).
Proof.
  intros mask input_shape B M L Hwf. split; intros Hs.
  - exists (tensor_map mask_bias (getitem_none2 mask)). split.
    { apply get_extended_attention_mask_rank2. unfold dim. rewrite Hs. reflexivity. }
    split; [unfold getitem_none2; rewrite Hs; reflexivity|].
    split.
    { pose proof (getitem_none2_wf mask Hwf) as H. unfold wf in *.
      unfold tensor_map. cbn [shape data]. rewrite length_map. exact H. }
    split.
    + intros b l. rewrite item_tensor_map.
      rewrite (item_getitem_none2 mask B b [L] [l] Hs). reflexivity.
    + intros b i j l. unfold item, tensor_map, getitem_none2. rewrite Hs.
      cbn [shape data ravel]. destruct (b <? B); split; try reflexivity.
      destruct (i <? 1); reflexivity.
  - exists (tensor_map mask_bias (getitem_none1 mask)). split.
    { apply get_extended_attention_mask_rank3. unfold dim. rewrite Hs. reflexivity. }
    split; [unfold getitem_none1; rewrite Hs; reflexivity|].
    split.
    { pose proof (getitem_none1_wf mask Hwf) as H. unfold wf in *.
      unfold tensor_map. cbn [shape data]. rewrite length_map. exact H. }
    split.
    + intros b m l. rewrite item_tensor_map.
      rewrite (item_getitem_none1 mask B b [M; L] [m; l] Hs). reflexivity.
    + intros b i m l. unfold item, tensor_map, getitem_none1. rewrite Hs.
      cbn [shape data ravel]. destruct (b <? B); reflexivity.
Qed.

Lemma get_extended_attention_mask_entries_witness :
  exists ext,
    get_extended_attention_mask example_mask_2_1_3 [2; 3] = Ok ext /\
    shape ext = [2; 1; 1; 3] /\ wf ext /\
    (forall b m l,
       item ext [b; 0; m; l] = mask_bias <$> item example_mask_2_1_3 [b; m; l]) /\
    (forall b i m l, item ext [b; S i; m; l] = None).
Proof.
  apply (proj2 (get_extended_attention_mask_entries example_mask_2_1_3 [2; 3] 2 1 3
                  eq_refl)).
  reflexivity.
Defined.

(* ===================================================================== *)
(** * Head mask and dense embedding                                        *)
(* ===================================================================== *)

(** X10. Without a head mask, [get_head_mask] returns one absent entry per
    hidden layer, none when the number of layers is not positive; with a head
    mask it never returns, whatever [is_attention_chunked] is: it raises an
    attribute error, the class having no [_convert_head_mask_to_5d]. *)
Theorem get_head_mask_cases :
  forall (head_mask : option (Tensor R)) (num_hidden_layers : Z)
         (is_attention_chunked : bool),
    (head_mask = None ->
     exists l,
       get_head_mask head_mask num_hidden_layers is_attention_chunked
       = Ok (HeadMaskList l) /\
       Z.of_nat (length l) = Z.max 0 num_hidden_layers /\
       Forall (fun m => m = None) l) /\
    (head_mask <> None ->
     exists msg,
       get_head_mask head_mask num_hidden_layers is_attention_chunked
       = Err (AttributeError msg)).
Proof.
  intros hm n chunked. split.
  - intros ->. eexists. split; [reflexivity|]. split.
    + rewrite length_replicate. lia.
    + apply Forall_replicate. reflexivity.
  - intros Hne. destruct hm as [t|]; [|congruence]. eexists. reflexivity.
Qed.

Lemma get_head_mask_cases_witness :
  (exists l,
     get_head_mask None (-3) true = Ok (HeadMaskList l) /\
     Z.of_nat (length l) = Z.max 0 (-3) /\
     Forall (fun m => m = None) l) /\
  (exists msg,
     get_head_mask (Some example_hidden) 12 false = Err (AttributeError msg)).
Proof.
  split.
  - apply (proj1 (get_head_mask_cases None (-3) true)). reflexivity.
  - apply (proj2 (get_head_mask_cases (Some example_hidden) 12 false)). discriminate.
Defined.

(** X11. [dense_embedding] never reads the mask.  On a well-formed hidden
    state of shape (B, L, ...) with at least one token per sequence it returns
    a well-formed tensor of shape (B, ...) whose entry (b, ...) is the entry
    (b, 0, ...) of the hidden state; on sequences without a token, and on a
    hidden state of rank below 2, it raises an index error. *)
Theorem dense_embedding_first_token :
  forall (M : Type) (hidden_state : Tensor R) (mask : M),
    (forall (M' : Type) (mask' : M'),
       dense_embedding hidden_state mask' = dense_embedding hidden_state mask) /\
    (wf hidden_state ->
     forall B L rest, shape hidden_state = B :: L :: rest -> 1 <= L ->
     exists d,
       dense_embedding hidden_state mask = Ok d /\
       shape d = B :: rest /\ wf d /\
       forall b idx, item d (b :: idx) = item hidden_state (b :: 0 :: idx)) /\
    (forall B rest, shape hidden_state = B :: 0 :: rest ->
     exists msg, dense_embedding hidden_state mask = Err (IndexError msg)) /\
    (length (shape hidden_state) < 2 ->
     exists msg, dense_embedding hidden_state mask = Err (IndexError msg)).
Proof.
  intros M h mask. split; [reflexivity|]. split; [|split].
  - intros Hwf B L rest Hs HL.
    assert (Hsel : exists d, dense_embedding h mask = Ok d).
    { unfold dense_embedding, select_dim1. rewrite Hs.
      rewrite (proj2 (Nat.ltb_lt 0 L)) by lia. eexists. reflexivity. }
    destruct Hsel as [d Hd]. exists d. split; [exact Hd|].
    destruct (select_dim1_spec h d 0 Hwf Hd) as [d0 [d1 [rest' [Hs' [_ [Hsd [Hwfd Hitem]]]]]]].
    rewrite Hs in Hs'. injection Hs' as <- <- <-.
    split; [exact Hsd|]. split; [exact Hwfd | exact Hitem].
  - intros B rest Hs. unfold dense_embedding, select_dim1. rewrite Hs.
    eexists. reflexivity.
  - intros Hr. unfold dense_embedding, select_dim1.
    destruct (shape h) as [|d0 [|d1 rest]]; cbn in Hr; try lia; eexists; reflexivity.
Qed.

Lemma dense_embedding_first_token_witness :
  (exists d,
     dense_embedding example_hidden example_mask2 = Ok d /\
     shape d = [2; 3] /\ wf d /\
     forall b idx, item d (b :: idx) = item example_hidden (b :: 0 :: idx)) /\
  (exists msg,
     dense_embedding (mkTensor [2; 0; 3] []) example_mask2 = Err (IndexError msg)) /\
  (exists msg,
     dense_embedding (mkTensor [3] [1; 2; 3]%R) example_mask2 = Err (IndexError msg)).
Proof.
  split; [|split].
  - apply (proj1 (proj2 (dense_embedding_first_token _ example_hidden example_mask2))
             eq_refl 2 2 [3] eq_refl).
    lia.
  - apply (proj1 (proj2 (proj2 (dense_embedding_first_token _ (mkTensor [2; 0; 3] [])
                                  example_mask2))) 2 [3]).
    reflexivity.
  - apply (proj2 (proj2 (proj2 (dense_embedding_first_token _ (mkTensor [3] [1; 2; 3]%R)
                                  example_mask2)))).
    cbn. lia.
Defined.

(* ===================================================================== *)
(** * Forward inference: what one iteration does                           *)
(* ===================================================================== *)

Section BodyRunFacts.

Variable self : XLMRobertaModel.
Variable input_ids : Tensor Z.
Variable input_metadata : InputMetadata.

Let body := forward_body self input_ids input_metadata.

Lemma use_cache_andb (c : XLMRobertaConfig) :
  (if is_decoder c then use_cache c else false) = is_decoder c && use_cache c.
Proof. destruct (is_decoder c); reflexivity. Qed.

(** The body, once its slices are taken and the shape of the slice of the ids
    is unpacked: a run of the monadic steps that follow the log entry. *)
Lemma forward_body_tail (s bs : nat) (tl : list PyObject) (ids slots : Tensor Z)
    (b l : nat) :
  getitem_rows input_ids s (s + bs) = Ok ids ->
  getitem_rows (slot_mapping input_metadata) s (s + bs) = Ok slots ->
  unpack2 (shape ids) = Ok (b, l) ->
  body s (bs, tl)
  = (let* _ := tell (chunk_log s ids slots) in
     let* token_type_ids := lift (chunk_token_type_ids self (shape ids) b l) in
     let* extended_attention_mask :=
       lift (get_extended_attention_mask (int (ne slots (-1))) (shape ids)) in
     let* embedding_output :=
       lift (embeddings_call (embeddings self) (named_parameters self)
               ids None token_type_ids None 0) in
     let* encoder_outputs :=
       lift (encoder_call (encoder self) (named_parameters self) embedding_output
               (chunk_encoder_args self extended_attention_mask)) in
     let* pooled_output :=
       lift (chunk_pooled_output self (enc_getitem0 encoder_outputs)) in
     let* o_past_key_values :=
       lift (enc_getattr enc_past_key_values "past_key_values" encoder_outputs) in
     let* o_hidden_states :=
       lift (enc_getattr enc_hidden_states "hidden_states" encoder_outputs) in
     let* o_attentions :=
       lift (enc_getattr enc_attentions "attentions" encoder_outputs) in
     let* o_cross_attentions :=
       lift (enc_getattr enc_cross_attentions "cross_attentions" encoder_outputs) in
     if is_bge_m3 self
     then
       let* output :=
         lift (dense_embedding (enc_getitem0 encoder_outputs) (int (ne slots (-1)))) in
       ret (b, tl ++ [PyTensor (normalize output)])
     else
       ret (b, tl ++ [PyModelOutput
                        {| last_hidden_state := enc_getitem0 encoder_outputs;
                           pooler_output := pooled_output;
                           past_key_values := o_past_key_values;
                           hidden_states := o_hidden_states;
                           attentions := o_attentions;
                           cross_attentions := o_cross_attentions |}])).
Proof.
  intros Hids Hslots Hun. unfold body, forward_body.
  rewrite Hids, bind_lift_Ok, Hslots, bind_lift_Ok, Hun, bind_lift_Ok.
  unfold chunk_encoder_args. rewrite <- use_cache_andb.
  reflexivity.
Qed.

(** A completed iteration is a [chunk_run], and conversely. *)
Lemma forward_body_outcome (s bs : nat) (tl : list PyObject) (ids slots : Tensor Z)
    (b l : nat) :
  getitem_rows input_ids s (s + bs) = Ok ids ->
  getitem_rows (slot_mapping input_metadata) s (s + bs) = Ok slots ->
  unpack2 (shape ids) = Ok (b, l) ->
  forall bs' tl',
    outcome (body s (bs, tl)) = Ok (bs', tl') <->
    bs' = b /\ exists out, tl' = tl ++ [out] /\ chunk_run self ids slots b l out.
Proof.
  intros Hids Hslots Hun bs' tl'.
  rewrite (forward_body_tail s bs tl ids slots b l Hids Hslots Hun).
  rewrite bind_tell. cbn [outcome]. split.
  - match goal with
    | |- outcome ?T = _ -> _ =>
        cut (@nil ChunkLog = [] /\
             forall bs' tl', outcome T = Ok (bs', tl') ->
               bs' = b /\ exists out, tl' = tl ++ [out] /\
                                      chunk_run self ids slots b l out)
    end.
    { intros [_ H]. apply H. }
    lift_step Htti.
    lift_step Hext.
    lift_step Hemb.
    lift_step Henc.
    lift_step Hpool.
    match goal with
    | H : encoder_call _ _ _ _ = Ok ?eo |- _ => destruct eo as [first others|o]
    end.
    { cbn [enc_getattr]. rewrite bind_lift_Err. split; [reflexivity|intros; discriminate]. }
    cbn [enc_getattr enc_getitem0] in *. rewrite !bind_lift_Ok.
    destruct (is_bge_m3 self) eqn:Hname.
    + lift_step Hdense.
      split; [reflexivity|]. cbn [ret traced_monad outcome].
      intros bs'' tl'' Heq. injection Heq as <- <-.
      split; [reflexivity|]. eexists. split; [reflexivity|].
      eapply chunk_run_intro; eauto. rewrite Hname. eauto.
    + split; [reflexivity|]. cbn [ret traced_monad outcome].
      intros bs'' tl'' Heq. injection Heq as <- <-.
      split; [reflexivity|]. eexists. split; [reflexivity|].
      eapply chunk_run_intro; eauto. rewrite Hname. reflexivity.
  - intros [-> [out [-> Hrun]]].
    destruct Hrun as [tti ext emb o pooled out Htti Hext Hemb Henc Hpool Hout].
    rewrite Htti, bind_lift_Ok, Hext, bind_lift_Ok, Hemb, bind_lift_Ok.
    rewrite Henc, bind_lift_Ok. cbn [enc_getitem0 enc_getattr].
    rewrite Hpool, !bind_lift_Ok.
    destruct (is_bge_m3 self).
    + destruct Hout as [d [Hd ->]]. rewrite Hd, bind_lift_Ok. reflexivity.
    + rewrite Hout. reflexivity.
Qed.

(** When a step that follows the log entry raises, the iteration ends with
    that exception and with its log entry. *)
Lemma forward_body_token_type_ids_error (s bs : nat) (tl : list PyObject)
    (ids slots : Tensor Z) (b l : nat) (e : exn) :
  getitem_rows input_ids s (s + bs) = Ok ids ->
  getitem_rows (slot_mapping input_metadata) s (s + bs) = Ok slots ->
  unpack2 (shape ids) = Ok (b, l) ->
  chunk_token_type_ids self (shape ids) b l = Err e ->
  body s (bs, tl) = Traced [chunk_log s ids slots] (Err e).
Proof.
  intros Hids Hslots Hun He.
  rewrite (forward_body_tail s bs tl ids slots b l Hids Hslots Hun).
  rewrite bind_tell, He, bind_lift_Err. reflexivity.
Qed.

Lemma forward_body_mask_error (s bs : nat) (tl : list PyObject)
    (ids slots tti : Tensor Z) (b l : nat) (e : exn) :
  getitem_rows input_ids s (s + bs) = Ok ids ->
  getitem_rows (slot_mapping input_metadata) s (s + bs) = Ok slots ->
  unpack2 (shape ids) = Ok (b, l) ->
  chunk_token_type_ids self (shape ids) b l = Ok tti ->
  get_extended_attention_mask (int (ne slots (-1))) (shape ids) = Err e ->
  body s (bs, tl) = Traced [chunk_log s ids slots] (Err e).
Proof.
  intros Hids Hslots Hun Htti He.
  rewrite (forward_body_tail s bs tl ids slots b l Hids Hslots Hun).
  rewrite bind_tell, Htti, bind_lift_Ok, He, bind_lift_Err. reflexivity.
Qed.

(** An exception in the first iteration is the exception of [forward]. *)
Lemma forward_first_chunk_error (positions : Tensor Z) (kv_caches : list KVCache)
    (n : nat) (rest : list nat) (tr : list ChunkLog) (e : exn) :
  shape input_ids = n :: rest ->
  1 <= n ->
  body 0 (12, []) = Traced tr (Err e) ->
  forward self input_ids positions kv_caches input_metadata = Traced tr (Err e).
Proof.
  intros Hs Hn Hb. unfold forward.
  rewrite (forward_loop_unfold self input_ids input_metadata n rest Hs).
  destruct n as [|n]; [lia|]. cbn [range_fuel Nat.ltb Nat.leb].
  rewrite for_each_cons. fold body. rewrite Hb. cbn.
  rewrite ?app_nil_r. reflexivity.
Qed.

End BodyRunFacts.

(* ===================================================================== *)
(** * Forward inference: inputs on which it raises                         *)
(* ===================================================================== *)

Lemma forward_no_rows (self : XLMRobertaModel) (input_ids positions : Tensor Z)
    (kv_caches : list KVCache) (input_metadata : InputMetadata) (rest : list nat) :
  shape input_ids = 0 :: rest ->
  forward self input_ids positions kv_caches input_metadata
  = Traced [] (Err (RuntimeError "torch.cat(): expected a non-empty list of Tensors")).
Proof.
  intros Hs. unfold forward.
  rewrite (forward_loop_unfold self input_ids input_metadata 0 rest Hs). reflexivity.
Qed.

Lemma forward_scalar_ids (self : XLMRobertaModel) (input_ids positions : Tensor Z)
    (kv_caches : list KVCache) (input_metadata : InputMetadata) :
  shape input_ids = [] ->
  forward self input_ids positions kv_caches input_metadata
  = Traced [] (Err (IndexError "tuple index out of range")).
Proof.
  intros Hs. unfold forward, forward_loop, shape0. rewrite Hs. reflexivity.
Qed.

(** X12. On a batch without rows [forward] raises for every model: no chunk
    is gone through, no external module is called, and the concatenation of
    the empty list raises a runtime error. *)
Theorem forward_empty_batch :
  forall (self : XLMRobertaModel) (input_ids positions : Tensor Z)
         (kv_caches : list KVCache) (input_metadata : InputMetadata)
         (rest : list nat),
    shape input_ids = 0 :: rest ->
    forward self input_ids positions kv_caches input_metadata
    = Traced [] (Err (RuntimeError "torch.cat(): expected a non-empty list of Tensors")).
Proof.
  intros self input_ids positions kv meta rest Hs.
  exact (forward_no_rows self input_ids positions kv meta rest Hs).
Qed.

Lemma forward_empty_batch_witness :
  forward (example_model "BAAI/bge-m3" ∅) (mkTensor [0; 5] []) (mkTensor [0] [])
          [] example_input_metadata
  = Traced [] (Err (RuntimeError "torch.cat(): expected a non-empty list of Tensors")).
Proof.
  apply (forward_empty_batch (example_model "BAAI/bge-m3" ∅) (mkTensor [0; 5] [])
           (mkTensor [0] []) [] example_input_metadata [5]).
  reflexivity.
Defined.

(** X13. [forward] needs two-dimensional ids.  On a 0-dimensional tensor it
    raises an index error at [shape[0]]; on a flat tensor with at least one
    entry it raises an index error at the first slice; on a tensor of rank 3
    or more with at least one row, when the slot mapping can be sliced, it
    raises a value error at the unpacking of the shape.  In all three cases
    no chunk reaches its attention mask and no external module is called. *)
Theorem forward_input_rank :
  forall (self : XLMRobertaModel) (input_ids positions : Tensor Z)
         (kv_caches : list KVCache) (input_metadata : InputMetadata),
    (shape input_ids = [] ->
     forward self input_ids positions kv_caches input_metadata
     = Traced [] (Err (IndexError "tuple index out of range"))) /\
    (forall n, shape input_ids = [n] -> 1 <= n ->
     forward self input_ids positions kv_caches input_metadata
     = Traced [] (Err (IndexError "too many indices for tensor"))) /\
    (forall n d1 d2 rest, shape input_ids = n :: d1 :: d2 :: rest -> 1 <= n ->
     2 <= dim (slot_mapping input_metadata) ->
     forward self input_ids positions kv_caches input_metadata
     = Traced [] (Err (ValueError "too many values to unpack (expected 2)"
                                  [Nat.min 12 n :: d1 :: d2 :: rest]))).
Proof.
  intros self input_ids positions kv meta. split; [|split].
  - exact (forward_scalar_ids self input_ids positions kv meta).
  - intros n Hs Hn.
    apply (forward_first_chunk_error self input_ids meta positions kv n [] _ _ Hs Hn).
    pose proof (forward_body_spec self input_ids meta 0 12 []) as Hb.
    unfold getitem_rows in Hb at 1. rewrite Hs in Hb. exact Hb.
  - intros n d1 d2 rest Hs Hn Hslots.
    apply (forward_first_chunk_error self input_ids meta positions kv n _ _ _ Hs Hn).
    pose proof (forward_body_spec self input_ids meta 0 12 []) as Hb.
    unfold getitem_rows in Hb at 1. rewrite Hs in Hb.
    unfold dim in Hslots.
    unfold getitem_rows in Hb at 1.
    destruct (shape (slot_mapping meta)) as [|m0 [|m1 mrest]]; cbn in Hslots; try lia.
    cbn [shape unpack2] in Hb. rewrite Hb. do 3 f_equal.
    f_equal. f_equal. lia.
Qed.

Lemma forward_input_rank_witness :
  forward (example_model "BAAI/bge-m3" ∅) (mkTensor [] [3%Z]) (mkTensor [] [0%Z])
          [] example_input_metadata
  = Traced [] (Err (IndexError "tuple index out of range")) /\
  forward (example_model "BAAI/bge-m3" ∅) (mkTensor [13] (replicate 13 5%Z))
          (mkTensor [13] (replicate 13 0%Z)) [] example_flat_metadata
  = Traced [] (Err (IndexError "too many indices for tensor")) /\
  forward (example_model "BAAI/bge-m3" ∅) (mkTensor [13; 1; 1] (replicate 13 5%Z))
          (mkTensor [13] (replicate 13 0%Z)) [] example_input_metadata
  = Traced [] (Err (ValueError "too many values to unpack (expected 2)"
                               [[Nat.min 12 13; 1; 1]])).
Proof.
  split; [|split].
  - apply (proj1 (forward_input_rank (example_model "BAAI/bge-m3" ∅)
                    (mkTensor [] [3%Z]) (mkTensor [] [0%Z]) [] example_input_metadata)).
    reflexivity.
  - apply (proj1 (proj2 (forward_input_rank (example_model "BAAI/bge-m3" ∅)
                           (mkTensor [13] (replicate 13 5%Z))
                           (mkTensor [13] (replicate 13 0%Z)) []
                           example_flat_metadata)) 13);
      [reflexivity | lia].
  - apply (proj2 (proj2 (forward_input_rank (example_model "BAAI/bge-m3" ∅)
                           (mkTensor [13; 1; 1] (replicate 13 5%Z))
                           (mkTensor [13] (replicate 13 0%Z)) []
                           example_input_metadata)) 13 1 1 []);
      [reflexivity | lia | cbn; lia].
Defined.

Section ForwardConditions.

Variable self : XLMRobertaModel.
Variable input_ids : Tensor Z.
Variable input_metadata : InputMetadata.

Lemma unpack2_inv (s : list nat) (b l : nat) :
  unpack2 s = Ok (b, l) -> s = [b; l].
Proof.
  destruct s as [|a [|c [|d s]]]; cbn; try discriminate.
  intros H. injection H as <- <-. reflexivity.
Qed.

Lemma getitem_rows_dim {A} (t c : Tensor A) (s stop : nat) :
  getitem_rows t s stop = Ok c -> dim c = dim t /\ 2 <= dim t.
Proof.
  unfold getitem_rows, dim. destruct (shape t) as [|d0 [|d1 rest]]; try discriminate.
  intros H. injection H as <-. cbn. lia.
Qed.

(** A first iteration that completes has sliced the slot mapping, and the
    expansion has accepted the mask of the slice. *)
Lemma first_chunk_slot_rank (n L b1 : nat) (tl1 : list PyObject) :
  shape input_ids = [n; L] ->
  outcome (forward_body self input_ids input_metadata 0 (12, [])) = Ok (b1, tl1) ->
  dim (slot_mapping input_metadata) = 2 \/ dim (slot_mapping input_metadata) = 3.
Proof.
  intros Hs Hok.
  pose proof (forward_body_spec self input_ids input_metadata 0 12 []) as Hb.
  destruct (getitem_rows_shape input_ids n L 0 (0 + 12) Hs) as [ids [Hids Hsh]].
  rewrite Hids in Hb.
  destruct (getitem_rows (slot_mapping input_metadata) 0 (0 + 12))
    as [slots|e] eqn:Hslots; [|rewrite Hb in Hok; discriminate].
  clear Hb.
  assert (Hun : unpack2 (shape ids) = Ok (Nat.max (Nat.min 0 n) (Nat.min (0 + 12) n)
                                          - Nat.min 0 n, L))
    by (rewrite Hsh; reflexivity).
  destruct (proj1 (forward_body_outcome self input_ids input_metadata 0 12 []
                     ids slots _ _ Hids Hslots Hun b1 tl1) Hok)
    as [_ [out [_ Hrun]]].
  inversion Hrun as [tti ext emb o pooled out' Htti Hext Hemb Henc Hpool Hout Heq].
  assert (Hacc : is_ok (get_extended_attention_mask (int (ne slots (-1))) (shape ids))
                 = true) by (rewrite Hext; reflexivity).
  apply (proj1 (proj1 (get_extended_attention_mask_rank_cases _ _))) in Hacc.
  destruct (getitem_rows_dim _ _ _ _ Hslots) as [Hd _].
  unfold dim in *. cbn [int ne tensor_map shape] in Hacc. rewrite <- Hd. exact Hacc.
Qed.

End ForwardConditions.

(** X14. What [forward] needs in order to return: whenever it returns a
    tensor, the ids are two-dimensional with at least one row, the slot
    mapping has rank 2 or 3, and the name of the configuration is
    "BAAI/bge-m3". *)
Theorem forward_returns_only_if :
  forall (self : XLMRobertaModel) (input_ids positions : Tensor Z)
         (kv_caches : list KVCache) (input_metadata : InputMetadata) (t : Tensor R),
    outcome (forward self input_ids positions kv_caches input_metadata) = Ok t ->
    (exists n L, shape input_ids = [n; L] /\ 1 <= n) /\
    (dim (slot_mapping input_metadata) = 2 \/ dim (slot_mapping input_metadata) = 3) /\
    name_or_path (config self) = "BAAI/bge-m3".
Proof.
  intros self input_ids positions kv meta t Hok.
  destruct (shape input_ids) as [|n rest] eqn:Hs.
  { rewrite (forward_scalar_ids self input_ids positions kv meta Hs) in Hok.
    discriminate. }
  destruct n as [|n].
  { rewrite (forward_no_rows self input_ids positions kv meta rest Hs) in Hok.
    discriminate. }
  assert (Hloop : exists st, outcome (forward_loop self input_ids meta) = Ok st).
  { unfold forward in Hok. rewrite outcome_bind in Hok.
    destruct (outcome (forward_loop self input_ids meta)) as [st|e];
      [eauto | discriminate]. }
  destruct Hloop as [st Hloop].
  destruct (forward_loop_needs_rank2 self input_ids meta (S n) rest st Hs
              ltac:(lia) Hloop) as [L ->].
  split; [exists (S n), L; split; [reflexivity|lia]|].
  split.
  - rewrite (forward_loop_unfold self input_ids meta (S n) [L] Hs) in Hloop.
    cbn [range_fuel Nat.ltb Nat.leb] in Hloop.
    rewrite for_each_cons, outcome_bind in Hloop.
    destruct (outcome (forward_body self input_ids meta 0 (12, [])))
      as [[b1 tl1]|e] eqn:Hb; [|discriminate].
    exact (first_chunk_slot_rank self input_ids meta (S n) L b1 tl1 Hs Hb).
  - destruct (is_bge_m3 self) eqn:Hname.
    + apply String.eqb_eq. exact Hname.
    + exfalso.
      apply (proj1 (forward_other_name_never_returns self input_ids meta positions kv
                      (S n) [L] Hname Hs ltac:(lia)) t).
      exact Hok.
Qed.

Lemma forward_returns_only_if_witness :
  exists t,
    outcome (forward (example_model "BAAI/bge-m3" ∅)
                     example_input_ids example_input_ids [] example_input_metadata)
    = Ok t /\
    (exists n L, shape example_input_ids = [n; L] /\ 1 <= n) /\
    (dim (slot_mapping example_input_metadata) = 2 \/
     dim (slot_mapping example_input_metadata) = 3) /\
    name_or_path (config (example_model "BAAI/bge-m3" ∅)) = "BAAI/bge-m3".
Proof.
  assert (H : exists t,
             outcome (forward (example_model "BAAI/bge-m3" ∅) example_input_ids
                              example_input_ids [] example_input_metadata) = Ok t).
  { eexists. reflexivity. }
  destruct H as [t H]. exists t. split; [exact H|].
  exact (forward_returns_only_if (example_model "BAAI/bge-m3" ∅) example_input_ids
           example_input_ids [] example_input_metadata t H).
Defined.

(** X15. When the embeddings carry a token-type buffer for fewer positions
    than the sequence length (and not for exactly one position), [forward]
    raises a runtime error in its first chunk, at the expansion of the buffer,
    after the attention mask has been settled and before the embeddings or the
    encoder are called. *)
Theorem forward_token_type_buffer_too_short :
  forall (self : XLMRobertaModel) (input_ids positions : Tensor Z)
         (kv_caches : list KVCache) (input_metadata : InputMetadata)
         (n L r P : nat) (buffer : Tensor Z),
    shape input_ids = [n; L] ->
    1 <= n ->
    2 <= dim (slot_mapping input_metadata) ->
    token_type_ids (embeddings self) = Some buffer ->
    shape buffer = [r; P] ->
    P < L ->
    P <> 1 ->
    exists c,
      forward self input_ids positions kv_caches input_metadata
      = Traced [c]
          (Err (RuntimeError
                  "The expanded size of the tensor must match the existing size")) /\
      log_start_index c = 0 /\
      chunk_at input_ids 0 = Ok (log_ids c).
Proof.
  intros self input_ids positions kv meta n L r P buffer Hs Hn Hslots Hbuf Hsb HP HP1.
  destruct (getitem_rows_shape input_ids n L 0 (0 + 12) Hs) as [ids [Hids Hsh]].
  assert (Hsl : exists slots, getitem_rows (slot_mapping meta) 0 (0 + 12) = Ok slots).
  { unfold getitem_rows, dim in *.
    destruct (shape (slot_mapping meta)) as [|m0 [|m1 mrest]]; cbn in Hslots;
      try lia; eexists; reflexivity. }
  destruct Hsl as [slots Hsl].
  exists (chunk_log 0 ids slots). split; [|split; [reflexivity|exact Hids]].
  apply (forward_first_chunk_error self input_ids meta positions kv n [L] _ _ Hs Hn).
  eapply forward_body_token_type_ids_error;
    [exact Hids | exact Hsl | rewrite Hsh; reflexivity |].
  unfold chunk_token_type_ids. rewrite Hbuf.
  unfold getitem_cols. rewrite Hsb. cbn [bind result_monad result_bind].
  unfold expand2. cbn [shape].
  replace (Nat.min L P) with P by lia.
  rewrite (proj2 (Nat.eqb_neq P L)) by lia.
  rewrite (proj2 (Nat.eqb_neq P 1)) by lia.
  rewrite andb_false_r. reflexivity.
Qed.

Lemma forward_token_type_buffer_too_short_witness :
  exists c,
    forward (example_model_buffered "BAAI/bge-m3") example_long_ids example_long_ids
            [] example_long_metadata
    = Traced [c]
        (Err (RuntimeError
                "The expanded size of the tensor must match the existing size")) /\
    log_start_index c = 0 /\
    chunk_at example_long_ids 0 = Ok (log_ids c).
Proof.
  apply (forward_token_type_buffer_too_short (example_model_buffered "BAAI/bge-m3")
           example_long_ids example_long_ids [] example_long_metadata
           2 5 1 4 (mkTensor [1; 4] [0; 0; 0; 0]%Z));
    try reflexivity; cbn; lia.
Defined.

(* ===================================================================== *)
(** * Forward inference: the calls of a completed run                      *)
(* ===================================================================== *)

Section CallFacts.

Variable self : XLMRobertaModel.
Variable input_ids : Tensor Z.
Variable input_metadata : InputMetadata.

Let body := forward_body self input_ids input_metadata.

Lemma for_each_body_runs (starts : list nat) : forall bs tl bs' tl',
  outcome (for_each body starts (bs, tl)) = Ok (bs', tl') ->
  exists outs,
    tl' = tl ++ outs /\
    Forall2 (fun c out =>
               exists b l, shape (log_ids c) = [b; l] /\
                           chunk_run self (log_ids c) (log_slots c) b l out)
            (trace (for_each body starts (bs, tl))) outs.
Proof.
  induction starts as [|s starts IH]; intros bs tl bs' tl' Hok.
  - rewrite for_each_nil in *. injection Hok as <- <-.
    exists []. rewrite app_nil_r. split; [reflexivity|constructor].
  - rewrite for_each_cons in *. rewrite outcome_bind in Hok. rewrite trace_bind.
    pose proof (forward_body_spec self input_ids input_metadata s bs tl) as Hb.
    fold body in Hb.
    destruct (outcome (body s (bs, tl))) as [[b1 tl1]|e] eqn:Ho; [|discriminate].
    destruct (getitem_rows input_ids s (s + bs)) as [ids|e] eqn:Hids;
      [|rewrite Hb in Ho; discriminate].
    destruct (getitem_rows (slot_mapping input_metadata) s (s + bs))
      as [slots|e] eqn:Hslots; [|rewrite Hb in Ho; discriminate].
    destruct (unpack2 (shape ids)) as [[b l]|e] eqn:Hun;
      [|rewrite Hb in Ho; discriminate].
    destruct Hb as [Htr _]. rewrite Htr.
    destruct (proj1 (forward_body_outcome self input_ids input_metadata s bs tl
                       ids slots b l Hids Hslots Hun b1 tl1) Ho)
      as [-> [out [-> Hrun]]].
    destruct (IH _ _ _ _ Hok) as [outs [-> Hall]].
    exists (out :: outs). rewrite <- app_assoc. split; [reflexivity|].
    cbn [app]. constructor; [|exact Hall].
    exists b, l. split; [exact (unpack2_inv _ _ _ Hun) | exact Hrun].
Qed.

End CallFacts.

Lemma forward_loop_runs (self : XLMRobertaModel) (input_ids : Tensor Z)
    (input_metadata : InputMetadata) (bs' : nat) (tl' : list PyObject) :
  outcome (forward_loop self input_ids input_metadata) = Ok (bs', tl') ->
  Forall2 (fun c out =>
             exists b l, shape (log_ids c) = [b; l] /\
                         chunk_run self (log_ids c) (log_slots c) b l out)
          (trace (forward_loop self input_ids input_metadata)) tl'.
Proof.
  unfold forward_loop.
  destruct (shape0 input_ids) as [n|e];
    [rewrite bind_lift_Ok | rewrite bind_lift_Err; discriminate].
  destruct (range 0 n 12) as [starts|e];
    [rewrite bind_lift_Ok | rewrite bind_lift_Err; discriminate].
  intros Hok.
  destruct (for_each_body_runs self input_ids input_metadata _ _ _ _ _ Hok)
    as [outs [-> Hall]].
  exact Hall.
Qed.

(** X16. In a run of the loop of [forward] that completes, element [i] of
    [tensor_list] comes from chunk [i] by exactly these calls: the token type
    ids are the zeros, or the embeddings' buffer cut and repeated; the
    embeddings are called on the slice with these token type ids, without
    position ids or input embeddings and with past length 0; the encoder is
    called on the embeddings with the expansion of the chunk's mask, one absent
    head mask per hidden layer, no encoder hidden states, no encoder attention
    mask, no past key values, [use_cache] false unless the configuration is a
    decoder, and the output flags of the configuration; the encoder has
    returned a model-output object, not a tuple; the pooler, if any, is called
    on its last hidden state; and the element is the normalized dense
    embedding for the named variant, the whole model output otherwise. *)
Theorem forward_chunk_calls :
  forall (self : XLMRobertaModel) (input_ids : Tensor Z)
         (input_metadata : InputMetadata) (bs' : nat) (tl' : list PyObject),
    outcome (forward_loop self input_ids input_metadata) = Ok (bs', tl') ->
    Forall2 (fun c out =>
               exists b l, shape (log_ids c) = [b; l] /\
                           chunk_run self (log_ids c) (log_slots c) b l out)
            (trace (forward_loop self input_ids input_metadata)) tl'.
Proof.
  intros self input_ids meta bs' tl'. apply forward_loop_runs.
Qed.

Lemma forward_chunk_calls_witness :
  exists (bs' : nat) (tl' : list PyObject),
    outcome (forward_loop (example_model "xlm-roberta-base" ∅)
                          example_input_ids example_input_metadata)
    = Ok (bs', tl') /\
    Forall2 (fun c out =>
               exists b l, shape (log_ids c) = [b; l] /\
                           chunk_run (example_model "xlm-roberta-base" ∅)
                                     (log_ids c) (log_slots c) b l out)
            (trace (forward_loop (example_model "xlm-roberta-base" ∅)
                                 example_input_ids example_input_metadata)) tl'.
Proof.
  assert (H : exists st,
             outcome (forward_loop (example_model "xlm-roberta-base" ∅)
                                   example_input_ids example_input_metadata)
             = Ok st).
  { eexists. reflexivity. }
  destruct H as [[bs' tl'] H]. exists bs', tl'. split; [exact H|].
  exact (forward_chunk_calls (example_model "xlm-roberta-base" ∅)
           example_input_ids example_input_metadata bs' tl' H).
Defined.

(* ===================================================================== *)
(** * Forward inference: the result for the named variant and for others   *)
(* ===================================================================== *)

(** X17. For the named variant, with external modules that keep the number of
    rows (the embeddings of a slice have as many rows as the slice, the
    encoder's last hidden state as many as the embeddings): whenever [forward]
    returns on ids of shape (n, L), n is at least 1 and the tensor returned has
    leading dimension n. *)
Theorem forward_named_variant_rows :
  forall (self : XLMRobertaModel) (input_ids positions : Tensor Z)
         (kv_caches : list KVCache) (input_metadata : InputMetadata)
         (n L : nat) (t : Tensor R),
    name_or_path (config self) = "BAAI/bge-m3" ->
    (forall ids tti emb,
       embeddings_call (embeddings self) (named_parameters self) ids None tti None 0
       = Ok emb ->
       hd 0 (shape emb) = hd 0 (shape ids)) ->
    (forall emb args eo,
       encoder_call (encoder self) (named_parameters self) emb args = Ok eo ->
       hd 0 (shape (enc_getitem0 eo)) = hd 0 (shape emb)) ->
    shape input_ids = [n; L] ->
    outcome (forward self input_ids positions kv_caches input_metadata) = Ok t ->
    1 <= n /\ hd 0 (shape t) = n.
Proof.
  intros self input_ids positions kv meta n L t Hname Hemb Henc Hs Hok.
  assert (Hb : is_bge_m3 self = true).
  { unfold is_bge_m3. rewrite Hname. reflexivity. }
  exact (forward_bge_leading_dimension self input_ids meta Hemb Henc Hb
           positions kv n L t Hs Hok).
Qed.

Lemma forward_named_variant_rows_witness :
  exists t,
    outcome (forward (example_rows_model "BAAI/bge-m3") example_input_ids
                     example_input_ids [] example_input_metadata) = Ok t /\
    1 <= 13 /\ hd 0 (shape t) = 13.
Proof.
  assert (H : exists t,
             outcome (forward (example_rows_model "BAAI/bge-m3") example_input_ids
                              example_input_ids [] example_input_metadata) = Ok t).
  { eexists. reflexivity. }
  destruct H as [t H]. exists t. split; [exact H|].
  apply (forward_named_variant_rows (example_rows_model "BAAI/bge-m3")
           example_input_ids example_input_ids [] example_input_metadata 13 1 t).
  - reflexivity.
  - intros ids tti emb Hemb. cbn in Hemb. injection Hemb as <-. reflexivity.
  - intros emb args eo Henc. cbn in Henc. injection Henc as <-. reflexivity.
  - reflexivity.
  - exact H.
Defined.

(** X18. For any name but "BAAI/bge-m3", on ids with at least one row,
    [forward] never returns; when its loop completes, the exception is the
    type error of the concatenation, whose list holds model-output objects. *)
Theorem forward_other_name_always_raises :
  forall (self : XLMRobertaModel) (input_ids positions : Tensor Z)
         (kv_caches : list KVCache) (input_metadata : InputMetadata)
         (n : nat) (rest : list nat),
    name_or_path (config self) <> "BAAI/bge-m3" ->
    shape input_ids = n :: rest ->
    1 <= n ->
    is_ok (outcome (forward self input_ids positions kv_caches input_metadata))
    = false /\
    (is_ok (outcome (forward_loop self input_ids input_metadata)) = true ->
     exists e,
       outcome (forward self input_ids positions kv_caches input_metadata) = Err e /\
       is_TypeError e = true).
Proof.
  intros self input_ids positions kv meta n rest Hname Hs Hn.
  assert (Hb : is_bge_m3 self = false).
  { unfold is_bge_m3. apply String.eqb_neq. exact Hname. }
  destruct (forward_other_name_never_returns self input_ids meta positions kv n rest
              Hb Hs Hn) as [Hnever Hloop].
  split.
  - destruct (outcome (forward self input_ids positions kv meta)) as [t|e] eqn:Ho;
      [|reflexivity].
    exfalso. exact (Hnever t eq_refl).
  - intros Hok.
    destruct (outcome (forward_loop self input_ids meta)) as [st|e] eqn:Ho;
      [|discriminate].
    destruct (Hloop st eq_refl) as [msg Hmsg].
    exists (TypeError msg). split; [exact Hmsg|reflexivity].
Qed.

Lemma forward_other_name_always_raises_witness :
  is_ok (outcome (forward (example_model "xlm-roberta-large" ∅) example_long_ids
                          example_long_ids [] example_long_metadata)) = false /\
  (is_ok (outcome (forward_loop (example_model "xlm-roberta-large" ∅)
                                example_long_ids example_long_metadata)) = true ->
   exists e,
     outcome (forward (example_model "xlm-roberta-large" ∅) example_long_ids
                      example_long_ids [] example_long_metadata) = Err e /\
     is_TypeError e = true).
Proof.
  apply (forward_other_name_always_raises (example_model "xlm-roberta-large" ∅)
           example_long_ids example_long_ids [] example_long_metadata 2 [5]).
  - discriminate.
  - reflexivity.
  - lia.
Defined.

Section UnitBallFacts.

Local Open Scope R_scope.




End UnitBallFacts.





(* ===================================================================== *)
(** * Forward inference: when it returns                                   *)
(* ===================================================================== *)

Section ReturnsFacts.

Variable self : XLMRobertaModel.
Variable input_ids : Tensor Z.
Variable input_metadata : InputMetadata.
Variables n L m L' H : nat.

Hypothesis named_variant : is_bge_m3 self = true.
Hypothesis ids_shape : shape input_ids = [n; L].
Hypothesis one_token : 1 <= L.
Hypothesis slots_shape : shape (slot_mapping input_metadata) = [m; L'].
Hypothesis token_type_ids_ok : forall b,
  is_ok (chunk_token_type_ids self [b; L] b L) = true.
Hypothesis embeddings_total : forall ids tti,
  exists emb,
    embeddings_call (embeddings self) (named_parameters self) ids None tti None 0
    = Ok emb /\
    shape emb = shape ids ++ [H].
Hypothesis encoder_total : forall emb args,
  exists o,
    encoder_call (encoder self) (named_parameters self) emb args
    = Ok (EncModelOutput o) /\
    shape (enc_last_hidden_state o) = shape emb.
Hypothesis pooler_total : forall h, is_ok (chunk_pooled_output self h) = true.

Let body := forward_body self input_ids input_metadata.

Lemma body_returns (s : nat) (tl : list PyObject) :
  s < n ->
  exists t,
    outcome (body s (12, tl)) = Ok (Nat.min 12 (n - s), tl ++ [PyTensor t]) /\
    shape t = [Nat.min 12 (n - s); H].
Proof.
  intros Hlt.
  destruct (getitem_rows_shape input_ids n L s (s + 12) ids_shape) as [ids [Hids Hsh]].
  replace (Nat.max (Nat.min s n) (Nat.min (s + 12) n) - Nat.min s n)
    with (Nat.min 12 (n - s)) in Hsh by lia.
  destruct (getitem_rows_shape (slot_mapping input_metadata) m L' s (s + 12)
              slots_shape) as [slots [Hslots Hssh]].
  set (b := Nat.min 12 (n - s)) in *.
  assert (Hun : unpack2 (shape ids) = Ok (b, L)) by (rewrite Hsh; reflexivity).
  destruct (chunk_token_type_ids self (shape ids) b L) as [tti|e] eqn:Htti.
  2:{ pose proof (token_type_ids_ok b) as Hok. rewrite Hsh in Htti.
      rewrite Htti in Hok. discriminate. }
  assert (Hext : get_extended_attention_mask (int (ne slots (-1))) (shape ids)
                 = Ok (tensor_map mask_bias (getitem_none2 (int (ne slots (-1)))))).
  { apply get_extended_attention_mask_rank2. unfold dim. cbn [int ne tensor_map shape].
    rewrite Hssh. reflexivity. }
  destruct (embeddings_total ids tti) as [emb [Hemb Hembs]].
  destruct (encoder_total emb (chunk_encoder_args self
              (tensor_map mask_bias (getitem_none2 (int (ne slots (-1)))))))
    as [o [Henc Hos]].
  destruct (chunk_pooled_output self (enc_last_hidden_state o)) as [pooled|e] eqn:Hpool.
  2:{ pose proof (pooler_total (enc_last_hidden_state o)) as Hok.
      rewrite Hpool in Hok. discriminate. }
  assert (Hhid : shape (enc_last_hidden_state o) = [b; L; H]).
  { rewrite Hos, Hembs, Hsh. reflexivity. }
  assert (Hd : exists d,
             dense_embedding (enc_last_hidden_state o) (int (ne slots (-1))) = Ok d /\
             shape d = [b; H]).
  { unfold dense_embedding, select_dim1. rewrite Hhid.
    rewrite (proj2 (Nat.ltb_lt 0 L)) by lia. eexists. split; reflexivity. }
  destruct Hd as [d [Hd Hds]].
  exists (normalize d). split; [|exact Hds].
  apply (forward_body_outcome self input_ids input_metadata s 12 tl ids slots b L
           Hids Hslots Hun).
  split; [reflexivity|]. eexists. split; [reflexivity|].
  eapply chunk_run_intro; eauto.
  rewrite named_variant. eauto.
Qed.

Lemma loop_returns (fuel : nat) : forall s bs tl,
  (s < n -> bs = 12) ->
  exists bs' ts,
    outcome (for_each body (range_fuel fuel s n 12) (bs, tl))
    = Ok (bs', tl ++ map PyTensor ts) /\
    Forall2 (fun st t => shape t = [Nat.min 12 (n - st); H])
            (range_fuel fuel s n 12) ts.
Proof.
  induction fuel as [|fuel IH]; intros s bs tl Hbs; cbn [range_fuel].
  - exists bs, []. rewrite for_each_nil, app_nil_r. split; [reflexivity|constructor].
  - destruct (s <? n) eqn:Hlt.
    2:{ exists bs, []. rewrite for_each_nil, app_nil_r.
        split; [reflexivity|constructor]. }
    apply Nat.ltb_lt in Hlt. rewrite (Hbs Hlt).
    destruct (body_returns s tl Hlt) as [t [Hb Hts]].
    destruct (IH (s + 12) (Nat.min 12 (n - s)) (tl ++ [PyTensor t]))
      as [bs' [ts [Hok Hall]]]; [lia|].
    exists bs', (t :: ts). rewrite for_each_cons, outcome_bind. fold body.
    rewrite Hb, Hok. cbn [map]. rewrite <- app_assoc. split; [reflexivity|].
    constructor; assumption.
Qed.

Lemma as_tensors_map (ts : list (Tensor R)) : as_tensors (map PyTensor ts) = Ok ts.
Proof.
  induction ts as [|t ts IH]; [reflexivity|]. cbn [map as_tensors]. rewrite IH.
  reflexivity.
Qed.

Lemma cat_tensors_chunks (starts : list nat) (ts : list (Tensor R)) :
  Forall (fun st => st < n) starts ->
  Forall2 (fun st t => shape t = [Nat.min 12 (n - st); H]) starts ts ->
  ts <> [] ->
  exists t,
    cat_tensors ts = Ok t /\
    shape t = [sum_list (map (fun st => Nat.min 12 (n - st)) starts); H].
Proof.
  intros Hlt Hall Hne.
  assert (Hrows : Forall (fun t => 1 <= hd 0 (shape t)) ts).
  { clear Hne. induction Hall as [|st t starts ts Ht _ IH]; [constructor|].
    apply Forall_cons in Hlt as [Hst Hlt].
    constructor; [rewrite Ht; cbn [hd]; lia | exact (IH Hlt)]. }
  assert (Htrail : forallb (same_trailing [H]) ts = true).
  { clear - Hall. induction Hall as [|st t starts ts Ht _ IH]; [reflexivity|].
    cbn [forallb]. rewrite IH, andb_true_r. unfold same_trailing. rewrite Ht.
    apply bool_decide_eq_true_2. reflexivity. }
  assert (Hsum : map (fun t => hd 0 (shape t)) ts
                 = map (fun st => Nat.min 12 (n - st)) starts).
  { clear - Hall. induction Hall as [|st t starts ts Ht _ IH]; [reflexivity|].
    cbn [map]. rewrite IH, Ht. reflexivity. }
  unfold cat_tensors. destruct ts as [|t0 ts']; [congruence|].
  rewrite (filter_legacy_empty _ Hrows).
  apply Forall2_cons_inv_r in Hall as [st0 [starts' [Ht0 [_ ->]]]].
  rewrite Ht0, Htrail. eexists. split; [reflexivity|].
  cbn [shape]. rewrite Hsum. reflexivity.
Qed.

Lemma forward_returns (positions : Tensor Z) (kv_caches : list KVCache) :
  1 <= n ->
  exists t,
    outcome (forward self input_ids positions kv_caches input_metadata) = Ok t /\
    shape t = [n; H].
Proof.
  intros Hn.
  destruct (loop_returns n 0 12 [] (fun _ => eq_refl)) as [bs' [ts [Hok Hall]]].
  cbn [app] in Hok.
  assert (Hlt : Forall (fun st => st < n) (range_fuel n 0 n 12)).
  { apply Forall_lookup. intros i st Hi. apply range_fuel_lookup in Hi. lia. }
  assert (Hne : ts <> []).
  { intros ->. apply Forall2_length in Hall. rewrite range_fuel_length in Hall by lia.
    cbn [length] in Hall.
    assert (1 <= (n - 0 + 11) / 12) by (apply Nat.div_le_lower_bound; lia). lia. }
  destruct (cat_tensors_chunks _ ts Hlt Hall Hne) as [t [Hcat Hsh]].
  exists t. rewrite sum_chunk_rows in Hsh by lia.
  split; [|rewrite Hsh; f_equal; lia].
  unfold forward. rewrite outcome_bind.
  rewrite (forward_loop_unfold self input_ids input_metadata n [L] ids_shape).
  fold body. rewrite Hok. cbn [lift outcome]. unfold torch_cat.
  destruct ts as [|t0 ts']; [congruence|].
  cbn [map]. change (PyTensor t0 :: map PyTensor ts') with (map PyTensor (t0 :: ts')).
  rewrite as_tensors_map. exact Hcat.
Qed.

End ReturnsFacts.

Lemma chunk_token_type_ids_ok (self : XLMRobertaModel) (b L : nat) :
  buffer_covers self L ->
  is_ok (chunk_token_type_ids self [b; L] b L) = true.
Proof.
  unfold buffer_covers, chunk_token_type_ids.
  destruct (token_type_ids (embeddings self)) as [buf|]; [|reflexivity].
  intros [P [Hs HP]]. unfold getitem_cols. rewrite Hs.
  cbn [bind result_monad result_bind]. unfold expand2. cbn [shape].
  replace (Nat.min L P) with L by lia.
  rewrite !(Nat.eqb_refl L). cbn [Nat.eqb orb andb]. rewrite orb_true_r. reflexivity.
Qed.

(** X20. For the named variant [forward] returns, with a tensor of shape
    (n, H), on ids of shape (n, L) with at least one row and one token per
    sequence and a two-dimensional slot mapping, when the token-type buffer of
    the embeddings is absent or covers the sequence length, the embeddings
    return a tensor of the shape of the slice with a feature dimension H, the
    encoder returns a model output whose last hidden state has the shape of
    the embeddings, and the pooler, if any, returns. *)
Theorem forward_named_variant_returns :
  forall (self : XLMRobertaModel) (input_ids positions : Tensor Z)
         (kv_caches : list KVCache) (input_metadata : InputMetadata)
         (n L m L' H : nat),
    name_or_path (config self) = "BAAI/bge-m3" ->
    shape input_ids = [n; L] ->
    1 <= n ->
    1 <= L ->
    shape (slot_mapping input_metadata) = [m; L'] ->
    buffer_covers self L ->
    (forall ids tti,
       exists emb,
         embeddings_call (embeddings self) (named_parameters self) ids None tti None 0
         = Ok emb /\
         shape emb = shape ids ++ [H]) ->
    (forall emb args,
       exists o,
         encoder_call (encoder self) (named_parameters self) emb args
         = Ok (EncModelOutput o) /\
         shape (enc_last_hidden_state o) = shape emb) ->
    (forall h, is_ok (chunk_pooled_output self h) = true) ->
    exists t,
      outcome (forward self input_ids positions kv_caches input_metadata) = Ok t /\
      shape t = [n; H].
Proof.
  intros self input_ids positions kv meta n L m L' H Hname Hs Hn HL Hsl Hbuf
         Hemb Henc Hpool.
  assert (Hb : is_bge_m3 self = true).
  { unfold is_bge_m3. rewrite Hname. reflexivity. }
  exact (forward_returns self input_ids meta n L m L' H Hb Hs HL Hsl
           (fun b => chunk_token_type_ids_ok self b L Hbuf) Hemb Henc Hpool
           positions kv Hn).
Qed.

Lemma forward_named_variant_returns_witness :
  exists t,
    outcome (forward (example_model "BAAI/bge-m3" ∅) example_input_ids
                     example_input_ids [] example_input_metadata) = Ok t /\
    shape t = [13; 1].
Proof.
  apply (forward_named_variant_returns (example_model "BAAI/bge-m3" ∅)
           example_input_ids example_input_ids [] example_input_metadata
           13 1 13 1 1).
  - reflexivity.
  - reflexivity.
  - lia.
  - lia.
  - reflexivity.
  - exact I.
  - intros ids tti. eexists. split; reflexivity.
  - intros emb args. eexists. split; reflexivity.
  - intros h. reflexivity.
Defined.

(* ===================================================================== *)
(** * Forward inference: the rows behind each attention mask               *)
(* ===================================================================== *)

Section SlotFacts.

Variable self : XLMRobertaModel.
Variable input_ids : Tensor Z.
Variable input_metadata : InputMetadata.

Let body := forward_body self input_ids input_metadata.

Lemma for_each_body_slots_prefix (n L : nat) :
  shape input_ids = [n; L] ->
  forall fuel s bs tl,
    (s < n -> bs = 12) ->
    exists k,
      Forall2 (fun c st => log_start_index c = st /\
                           chunk_at (slot_mapping input_metadata) st = Ok (log_slots c) /\
                           chunk_at input_ids st = Ok (log_ids c))
              (trace (for_each body (range_fuel fuel s n 12) (bs, tl)))
              (take k (range_fuel fuel s n 12)).
Proof.
  intros Hshape fuel. induction fuel as [|fuel IH]; intros s bs tl Hbs.
  - exists 0. cbn [range_fuel]. rewrite for_each_nil. constructor.
  - cbn [range_fuel]. destruct (s <? n) eqn:Hlt.
    2:{ exists 0. rewrite for_each_nil. constructor. }
    apply Nat.ltb_lt in Hlt. rewrite (Hbs Hlt).
    rewrite for_each_cons, trace_bind.
    pose proof (forward_body_spec self input_ids input_metadata s 12 tl) as Hb.
    fold body in Hb.
    destruct (getitem_rows_shape input_ids n L s (s + 12) Hshape) as [ids [Hids Hsh]].
    rewrite Hids in Hb.
    destruct (getitem_rows (slot_mapping input_metadata) s (s + 12))
      as [slots|e] eqn:Hslots.
    2:{ exists 0. rewrite Hb. constructor. }
    rewrite Hsh in Hb. cbn [unpack2] in Hb. destruct Hb as [Htr Hout].
    rewrite Htr.
    destruct (outcome (body s (12, tl))) as [[b1 tl1]|e] eqn:Ho.
    + destruct (Hout b1 tl1 eq_refl) as [Hb1 _].
      destruct (IH (s + 12) b1 tl1) as [k Hk]; [lia|].
      exists (S k). cbn [take app]. constructor; [|exact Hk].
      split; [reflexivity|]. split; [exact Hslots | exact Hids].
    + exists 1. cbn [take app]. rewrite take_0.
      constructor; [|constructor].
      split; [reflexivity|]. split; [exact Hslots | exact Hids].
Qed.

End SlotFacts.

Lemma forward_mask_never_defaulted_aux (self : XLMRobertaModel)
    (input_ids positions : Tensor Z) (kv_caches : list KVCache)
    (input_metadata : InputMetadata) :
  Forall (mask_from_slots input_metadata)
         (trace (forward self input_ids positions kv_caches input_metadata)).
Proof. rewrite forward_trace. apply forward_loop_mask_from_slots. Qed.

(** X21. On ids of shape (n, L), in every run of [forward], the attention mask
    of chunk [i] is computed from the rows [12*i, 12*i + 12) of the slot
    mapping, the rows of its slice of the ids; when the slot mapping has the
    shape of the ids, each mask has the shape of its slice of the ids. *)
Theorem forward_mask_rows :
  forall (self : XLMRobertaModel) (input_ids positions : Tensor Z)
         (kv_caches : list KVCache) (input_metadata : InputMetadata)
         (n L i : nat) (c : ChunkLog),
    shape input_ids = [n; L] ->
    trace (forward self input_ids positions kv_caches input_metadata) !! i = Some c ->
    log_start_index c = 12 * i /\
    chunk_at input_ids (12 * i) = Ok (log_ids c) /\
    chunk_at (slot_mapping input_metadata) (12 * i) = Ok (log_slots c) /\
    log_attention_mask c = int (ne (log_slots c) (-1)) /\
    (shape (slot_mapping input_metadata) = [n; L] ->
     shape (log_attention_mask c) = shape (log_ids c)).
Proof.
  intros self input_ids positions kv meta n L i c Hs Hi.
  pose proof (forward_mask_never_defaulted_aux self input_ids positions kv meta) as Hm.
  rewrite forward_trace in Hi, Hm.
  rewrite (forward_loop_unfold self input_ids meta n [L] Hs) in Hi, Hm.
  destruct (for_each_body_slots_prefix self input_ids meta n L Hs n 0 12 []
              (fun _ => eq_refl)) as [k Hk].
  destruct (Forall2_lookup_l _ _ _ _ _ Hk Hi) as [st [Hst [Hstart [Hslots Hids]]]].
  apply lookup_take_Some in Hst as [Hst _].
  apply range_fuel_lookup in Hst as [-> Hlt].
  replace (0 + i * 12) with (12 * i) in * by lia.
  rewrite Forall_lookup in Hm. destruct (Hm i c Hi) as [_ [Hmask _]].
  repeat (split; [assumption|]).
  intros Hss.
  destruct (chunk_at_inv input_ids n L Hs _ _ Hids Hlt) as [-> _].
  destruct (chunk_at_inv (slot_mapping meta) n L Hss _ _ Hslots Hlt) as [Hsh _].
  rewrite Hmask. cbn [int ne tensor_map shape]. exact Hsh.
Qed.

Lemma forward_mask_rows_witness :
  exists c,
    trace (forward (example_model "BAAI/bge-m3" ∅) example_input_ids
                   example_input_ids [] example_input_metadata) !! 1 = Some c /\
    log_start_index c = 12 * 1 /\
    chunk_at example_input_ids (12 * 1) = Ok (log_ids c) /\
    chunk_at (slot_mapping example_input_metadata) (12 * 1) = Ok (log_slots c) /\
    log_attention_mask c = int (ne (log_slots c) (-1)) /\
    (shape (slot_mapping example_input_metadata) = [13; 1] ->
     shape (log_attention_mask c) = shape (log_ids c)).
Proof.
  assert (H : exists c,
             trace (forward (example_model "BAAI/bge-m3" ∅) example_input_ids
                            example_input_ids [] example_input_metadata) !! 1
             = Some c).
  { eexists. reflexivity. }
  destruct H as [c H]. exists c. split; [exact H|].
  exact (forward_mask_rows (example_model "BAAI/bge-m3" ∅) example_input_ids
           example_input_ids [] example_input_metadata 13 1 1 c eq_refl H).
Defined.

(* ===================================================================== *)
(** * Forward inference: the token type ids                                *)
(* ===================================================================== *)

Section TokenTypeFacts.

Lemma mjoin_replicate_singleton {A} (b : nat) (xs : list A) :
  mjoin (replicate b [xs]) = replicate b xs.
Proof.
  induction b as [|b IH]; [reflexivity|]. cbn [replicate].
  change (mjoin ([xs] :: replicate b [xs])) with ([xs] ++ mjoin (replicate b [xs])).
  rewrite IH. reflexivity.
Qed.

Lemma mjoin_replicate_nil {A} (b : nat) : mjoin (replicate b (@nil (list A))) = [].
Proof.
  induction b as [|b IH]; [reflexivity|]. cbn [replicate].
  change (mjoin ([] :: replicate b (@nil (list A))))
    with (@nil (list A) ++ mjoin (replicate b [])).
  exact IH.
Qed.

Lemma concat_replicate_nil {A} (b : nat) : concat (replicate b (@nil A)) = [].
Proof. induction b as [|b IH]; [reflexivity|]. cbn. exact IH. Qed.

Lemma blocks_whole {A} (w : nat) (xs : list A) :
  1 <= w -> length xs = w -> blocks w xs = [xs].
Proof.
  intros Hw Hl. rewrite <- (app_nil_r xs) at 1.
  change (xs ++ []) with (concat [xs]).
  apply blocks_concat; [exact Hw|]. constructor; [exact Hl|constructor].
Qed.

(** The buffer of one row, cut to [L] positions and repeated [b] times. *)
Lemma expand_buffer (buffer : Tensor Z) (P b L : nat) :
  wf buffer ->
  shape buffer = [1; P] ->
  L <= P ->
  (let* x := getitem_cols buffer L in expand2 x b L)
  = Ok (mkTensor [b; L] (concat (replicate b (take L (data buffer))))).
Proof.
  intros Hwf Hs HL. unfold wf in Hwf. rewrite Hs in Hwf.
  change (numel [1; P]) with (1 * (P * 1)) in Hwf.
  unfold getitem_cols. rewrite Hs. cbn [bind result_monad result_bind].
  change (numel []) with 1. replace (Nat.min L P) with L by lia.
  assert (Hcut : concat (map (take (L * 1)) (blocks (P * 1) (data buffer)))
                 = take L (data buffer)).
  { destruct (Nat.eq_dec P 0) as [->|HP].
    - assert (data buffer = []) as -> by (apply length_zero_iff_nil; lia).
      replace L with 0 by lia. reflexivity.
    - rewrite blocks_whole by lia. cbn [map concat]. rewrite app_nil_r.
      f_equal. lia. }
  rewrite Hcut. unfold expand2. cbn [shape data].
  rewrite !(Nat.eqb_refl L). cbn [Nat.eqb orb andb]. rewrite orb_true_r.
  f_equal. f_equal.
  destruct (Nat.eq_dec L 0) as [->|HL0].
  - rewrite take_0. unfold blocks. cbn [length blocks_fuel].
    rewrite concat_replicate_nil, mjoin_replicate_nil.
    destruct b as [|[|b]]; reflexivity.
  - rewrite blocks_whole by (try lia; rewrite length_take; lia).
    rewrite mjoin_replicate_singleton.
    destruct b as [|[|b]]; reflexivity.
Qed.

End TokenTypeFacts.

(** X22. The token type ids that the body hands to the embeddings for a slice
    of [b] rows and [L] columns: without a buffer, the zeros of the shape of
    the slice; with a well-formed buffer of one row of at least [L] positions,
    a well-formed tensor of shape (b, L) whose every row holds the first [L]
    entries of the buffer. *)
Theorem chunk_token_type_ids_entries :
  forall (self : XLMRobertaModel) (input_shape : list nat) (b L : nat),
    (token_type_ids (embeddings self) = None ->
     chunk_token_type_ids self input_shape b L = Ok (zeros input_shape) /\
     wf (zeros input_shape) /\
     Forall (fun z => z = 0%Z) (data (zeros input_shape))) /\
    (forall buffer P,
       token_type_ids (embeddings self) = Some buffer ->
       wf buffer -> shape buffer = [1; P] -> L <= P ->
       exists tti,
         chunk_token_type_ids self input_shape b L = Ok tti /\
         shape tti = [b; L] /\ wf tti /\
         forall i j, i < b -> j < L -> item tti [i; j] = item buffer [0; j]).
Proof.
  intros self s b L. split.
  - intros Hnone. unfold chunk_token_type_ids. rewrite Hnone.
    split; [reflexivity|]. split.
    + unfold wf, zeros. cbn [shape data]. apply length_replicate.
    + unfold zeros. cbn [data]. apply Forall_replicate. reflexivity.
  - intros buffer P Hbuf Hwf Hs HL. unfold chunk_token_type_ids. rewrite Hbuf.
    rewrite (expand_buffer buffer P b L Hwf Hs HL).
    eexists. split; [reflexivity|]. split; [reflexivity|].
    assert (Hlen : length (data buffer) = P).
    { unfold wf in Hwf. rewrite Hs in Hwf. rewrite Hwf. cbn. lia. }
    assert (Hall : Forall (fun r => length r = L)
                          (replicate b (take L (data buffer)))).
    { apply Forall_replicate. rewrite length_take. lia. }
    split.
    + unfold wf. cbn [shape data].
      rewrite (length_concat_uniform _ _ Hall), length_replicate. cbn. lia.
    + intros i j Hi Hj. unfold item. cbn [shape data ravel]. rewrite Hs.
      cbn [ravel].
      rewrite (proj2 (Nat.ltb_lt i b) Hi), (proj2 (Nat.ltb_lt j L) Hj).
      rewrite (proj2 (Nat.ltb_lt 0 1)) by lia.
      rewrite (proj2 (Nat.ltb_lt j P)) by lia.
      change (numel []) with 1. change (numel [L]) with (L * 1).
      change (numel [P]) with (P * 1).
      replace (i * (L * 1) + (j * 1 + 0)) with (i * L + j) by lia.
      replace (0 * (P * 1) + (j * 1 + 0)) with j by lia.
      rewrite (concat_lookup_uniform L _ i j Hall Hj).
      rewrite lookup_replicate_2 by exact Hi. cbn.
      apply lookup_take_lt. exact Hj.
Qed.

Lemma chunk_token_type_ids_entries_witness :
  exists tti,
    chunk_token_type_ids (example_model_buffered "BAAI/bge-m3") [2; 3] 2 3 = Ok tti /\
    shape tti = [2; 3] /\ wf tti /\
    forall i j, i < 2 -> j < 3 ->
                item tti [i; j] = item (mkTensor [1; 4] [0; 0; 0; 0]%Z) [0; j].
Proof.
  apply (proj2 (chunk_token_type_ids_entries (example_model_buffered "BAAI/bge-m3")
                  [2; 3] 2 3) (mkTensor [1; 4] [0; 0; 0; 0]%Z) 4).
  - reflexivity.
  - reflexivity.
  - reflexivity.
  - lia.
Defined.

(* ===================================================================== *)
(** * Forward inference: the mask that the encoder receives                *)
(* ===================================================================== *)

Lemma mask_bias_of_slot (z : Z) :
  mask_bias ((fun b : bool => if b then 1%Z else 0%Z) (negb (Z.eqb z (-1))))
  = slot_bias z.
Proof. unfold slot_bias. destruct (Z.eqb z (-1)); reflexivity. Qed.

Lemma chunk_run_mask (self : XLMRobertaModel) (ids slots : Tensor Z) (b l : nat)
    (out : PyObject) :
  chunk_run self ids slots b l out ->
  exists ext emb o,
    encoder_call (encoder self) (named_parameters self) emb
                 (chunk_encoder_args self ext)
    = Ok (EncModelOutput o) /\
    data ext = map slot_bias (data slots) /\
    (forall r q, shape slots = [r; q] -> shape ext = [r; 1; 1; q]) /\
    (forall r p q, shape slots = [r; p; q] -> shape ext = [r; 1; p; q]).
Proof.
  intros Hrun.
  inversion Hrun as [tti ext emb o pooled out' Htti Hext Hemb Henc Hpool Hout Heq].
  exists ext, emb, o. split; [exact Henc|]. split.
  - rewrite (get_extended_attention_mask_data _ _ _ Hext).
    unfold int, ne, tensor_map. cbn [data]. rewrite !map_map.
    apply map_ext. intros z. apply mask_bias_of_slot.
  - split.
    + intros r q Hs.
      rewrite get_extended_attention_mask_rank2 in Hext
        by (unfold dim; cbn [int ne tensor_map shape]; rewrite Hs; reflexivity).
      injection Hext as <-. unfold getitem_none2. cbn [int ne tensor_map shape].
      rewrite Hs. reflexivity.
    + intros r p q Hs.
      rewrite get_extended_attention_mask_rank3 in Hext
        by (unfold dim; cbn [int ne tensor_map shape]; rewrite Hs; reflexivity).
      injection Hext as <-. unfold getitem_none1. cbn [int ne tensor_map shape].
      rewrite Hs. reflexivity.
Qed.

(** X23. In a run of the loop of [forward] that completes, the encoder has
    been called, for each chunk, with an attention mask that holds, position
    by position of the chunk's slice of the slot mapping, the most negative
    finite half-precision number where the slot is -1 and the negative zero
    anywhere else, in the shape (r, 1, 1, q) for a slice of shape (r, q) and
    (r, 1, p, q) for a slice of shape (r, p, q). *)
Theorem forward_encoder_mask :
  forall (self : XLMRobertaModel) (input_ids : Tensor Z)
         (input_metadata : InputMetadata) (bs' : nat) (tl' : list PyObject),
    outcome (forward_loop self input_ids input_metadata) = Ok (bs', tl') ->
    Forall2 (fun c out =>
               exists ext emb o,
                 encoder_call (encoder self) (named_parameters self) emb
                              (chunk_encoder_args self ext)
                 = Ok (EncModelOutput o) /\
                 data ext = map slot_bias (data (log_slots c)) /\
                 (forall r q, shape (log_slots c) = [r; q] ->
                              shape ext = [r; 1; 1; q]) /\
                 (forall r p q, shape (log_slots c) = [r; p; q] ->
                                shape ext = [r; 1; p; q]))
            (trace (forward_loop self input_ids input_metadata)) tl'.
Proof.
  intros self input_ids meta bs' tl' Hok.
  eapply Forall2_impl; [exact (forward_loop_runs self input_ids meta bs' tl' Hok)|].
  intros c out [b [l [_ Hrun]]]. exact (chunk_run_mask self _ _ b l out Hrun).
Qed.

Lemma forward_encoder_mask_witness :
  exists (bs' : nat) (tl' : list PyObject),
    outcome (forward_loop (example_model "BAAI/bge-m3" ∅)
                          example_long_ids example_long_metadata)
    = Ok (bs', tl') /\
    Forall2 (fun c out =>
               exists ext emb o,
                 encoder_call (encoder (example_model "BAAI/bge-m3" ∅))
                              (named_parameters (example_model "BAAI/bge-m3" ∅)) emb
                              (chunk_encoder_args (example_model "BAAI/bge-m3" ∅) ext)
                 = Ok (EncModelOutput o) /\
                 data ext = map slot_bias (data (log_slots c)) /\
                 (forall r q, shape (log_slots c) = [r; q] ->
                              shape ext = [r; 1; 1; q]) /\
                 (forall r p q, shape (log_slots c) = [r; p; q] ->
                                shape ext = [r; 1; p; q]))
            (trace (forward_loop (example_model "BAAI/bge-m3" ∅)
                                 example_long_ids example_long_metadata)) tl'.
Proof.
  assert (H : exists st,
             outcome (forward_loop (example_model "BAAI/bge-m3" ∅)
                                   example_long_ids example_long_metadata)
             = Ok st).
  { eexists. reflexivity. }
  destruct H as [[bs' tl'] H]. exists bs', tl'. split; [exact H|].
  exact (forward_encoder_mask (example_model "BAAI/bge-m3" ∅)
           example_long_ids example_long_metadata bs' tl' H).
Defined.
